(** * OpenGrowBox: actuator model and predictive controller

    A shallow embedding of [OGBDevices/Device.py] (the per-device actuator
    state, bounds clamping, feedback ingestion, capability registration,
    turn-on / turn-off and the WorkMode transitions) and of
    [managers/UltraInstinctManager.py] (gradients, predictive factors,
    target calculation, direct actuation, emergency stop, learning and the
    control loop), with the capability maintenance of
    [managers/OGBDeviceManager.py] (removal and deduplication).

    Numbers.  Python [int] and [float] values are embedded as rationals [Q];
    [int(x)] is truncation toward zero and [round(x, 1)] is rounding to one
    decimal with ties to even.  Non-finite floats and binary rounding error
    are outside this embedding.  Numeric results are compared with [==]. *)

From Stdlib Require Import QArith Qround Qabs ZArith String Ascii List Bool Lia Lqa.
From stdpp Require Import base gmap strings list.
Import ListNotations.
Open Scope string_scope.

(* ===================================================================== *)
(** * Part I: the embedding                                               *)
(* ===================================================================== *)

(** ** Python built-ins used by the sources *)

Module Py.

(** [a < b] on numbers, as a boolean. *)
Definition Qltb (a b : Q) : bool := negb (Qle_bool b a).

(** [max(a, b)]: the first argument unless the second is strictly larger. *)
Definition max (a b : Q) : Q := if Qltb a b then b else a.

(** [min(a, b)]: the first argument unless the second is strictly smaller. *)
Definition min (a b : Q) : Q := if Qltb b a then b else a.

(** [int(x)] on a number: truncation toward zero. *)
Definition int (x : Q) : Z := Z.quot (Qnum x) (Z.pos (Qden x)).

(** [round(x)] to an integer, ties to even. *)
Definition round_half_even (x : Q) : Z :=
  let f := Qfloor x in
  let r := (x - inject_Z f)%Q in
  if Qltb r (1 # 2) then f
  else if Qltb (1 # 2) r then (f + 1)%Z
  else if Z.even f then f else (f + 1)%Z.

(** [round(x, 1)]. *)
Definition round1 (x : Q) : Q := (inject_Z (round_half_even (x * 10)) / 10)%Q.


(** [x or d] on an optional number: [None] and zero are falsy. *)
Definition or_num (x : option Q) (d : Q) : Q :=
  match x with
  | Some q => if Qeq_bool q 0 then d else q
  | None => d
  end.

(** Truthiness of an optional number. *)
Definition truthy (x : option Q) : bool :=
  match x with
  | Some q => negb (Qeq_bool q 0)
  | None => false
  end.

(** [needle in hay] on strings. *)
Fixpoint str_in (needle hay : string) : bool :=
  if String.prefix needle hay then true
  else match hay with
       | EmptyString => false
       | String _ t => str_in needle t
       end.

(** [s.startswith(p)]. *)
Definition startswith (s p : string) : bool := String.prefix p s.

Definition lower_ascii (c : ascii) : ascii :=
  let n := nat_of_ascii c in
  if (65 <=? n)%nat && (n <=? 90)%nat then ascii_of_nat (n + 32) else c.

(** [s.lower()] (ASCII letters). *)
Fixpoint lower (s : string) : string :=
  match s with
  | EmptyString => EmptyString
  | String c t => String (lower_ascii c) (lower t)
  end.

(** [s.replace(c, "")] for a one-character pattern. *)
Fixpoint remove_char (c : ascii) (s : string) : string :=
  match s with
  | EmptyString => EmptyString
  | String a t => if Ascii.eqb a c then remove_char c t else String a (remove_char c t)
  end.

(** [any(k in s for k in keys)]. *)
Definition any_in (keys : list string) (s : string) : bool :=
  existsb (fun k => str_in k s) keys.

(** [x in xs] for a tuple or list of strings. *)
Definition mem (x : string) (xs : list string) : bool :=
  existsb (String.eqb x) xs.

(** Values an entity dictionary holds under ["value"]: [None], a number
    (the update listener stores [float(state)] when that succeeds), or the
    raw state string. *)
Inductive value : Type :=
| VNone
| VNum (q : Q)
| VStr (s : string).

(** *** [float(s)] on a string

    The decimal grammar [ws sign? (digits [. digits?] | . digits)
    ([eE] sign? digits)? ws]; every other string is a [ValueError]
    ([None]).  Digit-group underscores and the words for infinities and
    NaN are not part of the embedding. *)

Definition is_digit (c : ascii) : bool :=
  let n := nat_of_ascii c in (48 <=? n)%nat && (n <=? 57)%nat.

Definition digit_val (c : ascii) : Z := (Z.of_nat (nat_of_ascii c) - 48)%Z.

Definition is_space (c : ascii) : bool :=
  let n := nat_of_ascii c in ((9 <=? n)%nat && (n <=? 13)%nat) || (n =? 32)%nat.

Fixpoint span_digits (cs : list ascii) : list ascii * list ascii :=
  match cs with
  | c :: r =>
      if is_digit c then let '(ds, rest) := span_digits r in (c :: ds, rest)
      else ([], cs)
  | [] => ([], [])
  end.

Definition digits_value (ds : list ascii) : Z :=
  fold_left (fun acc c => (acc * 10 + digit_val c)%Z) ds 0%Z.

Definition take_sign (cs : list ascii) : bool * list ascii :=
  match cs with
  | "-"%char :: r => (true, r)
  | "+"%char :: r => (false, r)
  | _ => (false, cs)
  end.

Fixpoint drop_spaces (cs : list ascii) : list ascii :=
  match cs with
  | c :: r => if is_space c then drop_spaces r else cs
  | [] => []
  end.

Definition strip (cs : list ascii) : list ascii :=
  rev (drop_spaces (rev (drop_spaces cs))).

Definition pow10 (n : nat) : Q := inject_Z (10 ^ Z.of_nat n).

Definition parse_exponent (m : Q) (cs : list ascii) : option Q :=
  match cs with
  | [] => Some m
  | c :: r =>
      if Ascii.eqb c "e" || Ascii.eqb c "E" then
        let '(neg, r1) := take_sign r in
        let '(ed, r2) := span_digits r1 in
        match ed, r2 with
        | _ :: _, [] =>
            let k := Z.to_nat (digits_value ed) in
            Some (if neg then m / pow10 k else m * pow10 k)%Q
        | _, _ => None
        end
      else None
  end.

Definition parse_float (cs : list ascii) : option Q :=
  let '(neg, cs1) := take_sign (strip cs) in
  let '(ip, cs2) := span_digits cs1 in
  let '(fp, cs3) :=
    match cs2 with
    | "."%char :: r => span_digits r
    | _ => ([], cs2)
    end in
  match (ip ++ fp)%list with
  | [] => None
  | ds =>
      let m := (inject_Z (digits_value ds) / pow10 (List.length fp))%Q in
      parse_exponent (if neg then - m else m)%Q cs3
  end.

(** Outcome of [float(v)]: a number, or the exception raised. *)
Inductive float_result : Type :=
| FloatOk (q : Q)
| ValueError
| TypeError.

Definition float (v : value) : float_result :=
  match v with
  | VNone => TypeError
  | VNum q => FloatOk q
  | VStr s =>
      match parse_float (list_ascii_of_string s) with
      | Some q => FloatOk q
      | None => ValueError
      end
  end.

End Py.

(** ** [Device.py] *)

Module Dev.

Local Open Scope Q_scope.

(** An entity dictionary: [{"entity_id": ..., "value": ..., "platform": ...}]. *)
Record entity : Type := Entity {
  entity_id : string;
  value : Py.value;
  platform : option string
}.

(** The attributes of a [Device] instance that the modelled methods read
    or write.  Attributes that only subclasses define, and that the code
    probes with [hasattr] or [getattr], are optional: [None] is "no such
    attribute". *)
Record Device : Type := mkDevice {
  deviceName : string;
  deviceType : string;
  isSpecialDevice : bool;
  isRunning : option bool;          (* True / False / Python None *)
  isDimmable : bool;
  isAcInfinDev : bool;
  switches : list entity;
  options : list entity;
  sensors : list entity;
  ogbsettings : list entity;
  initialization : bool;
  inWorkMode : bool;
  voltage : option Q;
  dutyCycle : option Q;
  minVoltage : option Q;
  maxVoltage : option Q;
  minDuty : option Q;
  maxDuty : option Q;
  is_minmax_active : bool;
  voltageFromNumber : bool;
  _in_active_control : option bool;  (* set by turn_on only *)
  _last_turn_on_time : option Q;     (* set by turn_on only *)
  islightON : option (option bool);  (* subclass attribute, may hold None *)
  sunPhaseActive : option bool;      (* subclass attribute *)
  pendingWorkMode : option bool;
  initVoltage : option Q;            (* subclass attribute *)
  realHumidifierClass : option bool  (* subclass attribute *)
}.

(** *** Attribute assignment: [self.f = x] *)

Definition set_isSpecialDevice (x : bool) (d : Device) : Device :=
  {| deviceName := deviceName d; deviceType := deviceType d; isSpecialDevice := x;
     isRunning := isRunning d; isDimmable := isDimmable d;
     isAcInfinDev := isAcInfinDev d; switches := switches d; options := options d;
     sensors := sensors d; ogbsettings := ogbsettings d;
     initialization := initialization d; inWorkMode := inWorkMode d;
     voltage := voltage d; dutyCycle := dutyCycle d; minVoltage := minVoltage d;
     maxVoltage := maxVoltage d; minDuty := minDuty d; maxDuty := maxDuty d;
     is_minmax_active := is_minmax_active d; voltageFromNumber := voltageFromNumber d;
     _in_active_control := _in_active_control d;
     _last_turn_on_time := _last_turn_on_time d; islightON := islightON d;
     sunPhaseActive := sunPhaseActive d; pendingWorkMode := pendingWorkMode d;
     initVoltage := initVoltage d; realHumidifierClass := realHumidifierClass d |}.

Definition set_isRunning (x : option bool) (d : Device) : Device :=
  {| deviceName := deviceName d; deviceType := deviceType d;
     isSpecialDevice := isSpecialDevice d; isRunning := x; isDimmable := isDimmable d;
     isAcInfinDev := isAcInfinDev d; switches := switches d; options := options d;
     sensors := sensors d; ogbsettings := ogbsettings d;
     initialization := initialization d; inWorkMode := inWorkMode d;
     voltage := voltage d; dutyCycle := dutyCycle d; minVoltage := minVoltage d;
     maxVoltage := maxVoltage d; minDuty := minDuty d; maxDuty := maxDuty d;
     is_minmax_active := is_minmax_active d; voltageFromNumber := voltageFromNumber d;
     _in_active_control := _in_active_control d;
     _last_turn_on_time := _last_turn_on_time d; islightON := islightON d;
     sunPhaseActive := sunPhaseActive d; pendingWorkMode := pendingWorkMode d;
     initVoltage := initVoltage d; realHumidifierClass := realHumidifierClass d |}.

Definition set_isAcInfinDev (x : bool) (d : Device) : Device :=
  {| deviceName := deviceName d; deviceType := deviceType d;
     isSpecialDevice := isSpecialDevice d; isRunning := isRunning d;
     isDimmable := isDimmable d; isAcInfinDev := x; switches := switches d;
     options := options d; sensors := sensors d; ogbsettings := ogbsettings d;
     initialization := initialization d; inWorkMode := inWorkMode d;
     voltage := voltage d; dutyCycle := dutyCycle d; minVoltage := minVoltage d;
     maxVoltage := maxVoltage d; minDuty := minDuty d; maxDuty := maxDuty d;
     is_minmax_active := is_minmax_active d; voltageFromNumber := voltageFromNumber d;
     _in_active_control := _in_active_control d;
     _last_turn_on_time := _last_turn_on_time d; islightON := islightON d;
     sunPhaseActive := sunPhaseActive d; pendingWorkMode := pendingWorkMode d;
     initVoltage := initVoltage d; realHumidifierClass := realHumidifierClass d |}.

Definition set_switches (x : list entity) (d : Device) : Device :=
  {| deviceName := deviceName d; deviceType := deviceType d;
     isSpecialDevice := isSpecialDevice d; isRunning := isRunning d;
     isDimmable := isDimmable d; isAcInfinDev := isAcInfinDev d; switches := x;
     options := options d; sensors := sensors d; ogbsettings := ogbsettings d;
     initialization := initialization d; inWorkMode := inWorkMode d;
     voltage := voltage d; dutyCycle := dutyCycle d; minVoltage := minVoltage d;
     maxVoltage := maxVoltage d; minDuty := minDuty d; maxDuty := maxDuty d;
     is_minmax_active := is_minmax_active d; voltageFromNumber := voltageFromNumber d;
     _in_active_control := _in_active_control d;
     _last_turn_on_time := _last_turn_on_time d; islightON := islightON d;
     sunPhaseActive := sunPhaseActive d; pendingWorkMode := pendingWorkMode d;
     initVoltage := initVoltage d; realHumidifierClass := realHumidifierClass d |}.

Definition set_options (x : list entity) (d : Device) : Device :=
  {| deviceName := deviceName d; deviceType := deviceType d;
     isSpecialDevice := isSpecialDevice d; isRunning := isRunning d;
     isDimmable := isDimmable d; isAcInfinDev := isAcInfinDev d;
     switches := switches d; options := x; sensors := sensors d;
     ogbsettings := ogbsettings d; initialization := initialization d;
     inWorkMode := inWorkMode d; voltage := voltage d; dutyCycle := dutyCycle d;
     minVoltage := minVoltage d; maxVoltage := maxVoltage d; minDuty := minDuty d;
     maxDuty := maxDuty d; is_minmax_active := is_minmax_active d;
     voltageFromNumber := voltageFromNumber d;
     _in_active_control := _in_active_control d;
     _last_turn_on_time := _last_turn_on_time d; islightON := islightON d;
     sunPhaseActive := sunPhaseActive d; pendingWorkMode := pendingWorkMode d;
     initVoltage := initVoltage d; realHumidifierClass := realHumidifierClass d |}.

Definition set_sensors (x : list entity) (d : Device) : Device :=
  {| deviceName := deviceName d; deviceType := deviceType d;
     isSpecialDevice := isSpecialDevice d; isRunning := isRunning d;
     isDimmable := isDimmable d; isAcInfinDev := isAcInfinDev d;
     switches := switches d; options := options d; sensors := x;
     ogbsettings := ogbsettings d; initialization := initialization d;
     inWorkMode := inWorkMode d; voltage := voltage d; dutyCycle := dutyCycle d;
     minVoltage := minVoltage d; maxVoltage := maxVoltage d; minDuty := minDuty d;
     maxDuty := maxDuty d; is_minmax_active := is_minmax_active d;
     voltageFromNumber := voltageFromNumber d;
     _in_active_control := _in_active_control d;
     _last_turn_on_time := _last_turn_on_time d; islightON := islightON d;
     sunPhaseActive := sunPhaseActive d; pendingWorkMode := pendingWorkMode d;
     initVoltage := initVoltage d; realHumidifierClass := realHumidifierClass d |}.

Definition set_ogbsettings (x : list entity) (d : Device) : Device :=
  {| deviceName := deviceName d; deviceType := deviceType d;
     isSpecialDevice := isSpecialDevice d; isRunning := isRunning d;
     isDimmable := isDimmable d; isAcInfinDev := isAcInfinDev d;
     switches := switches d; options := options d; sensors := sensors d;
     ogbsettings := x; initialization := initialization d; inWorkMode := inWorkMode d;
     voltage := voltage d; dutyCycle := dutyCycle d; minVoltage := minVoltage d;
     maxVoltage := maxVoltage d; minDuty := minDuty d; maxDuty := maxDuty d;
     is_minmax_active := is_minmax_active d; voltageFromNumber := voltageFromNumber d;
     _in_active_control := _in_active_control d;
     _last_turn_on_time := _last_turn_on_time d; islightON := islightON d;
     sunPhaseActive := sunPhaseActive d; pendingWorkMode := pendingWorkMode d;
     initVoltage := initVoltage d; realHumidifierClass := realHumidifierClass d |}.

Definition set_initialization (x : bool) (d : Device) : Device :=
  {| deviceName := deviceName d; deviceType := deviceType d;
     isSpecialDevice := isSpecialDevice d; isRunning := isRunning d;
     isDimmable := isDimmable d; isAcInfinDev := isAcInfinDev d;
     switches := switches d; options := options d; sensors := sensors d;
     ogbsettings := ogbsettings d; initialization := x; inWorkMode := inWorkMode d;
     voltage := voltage d; dutyCycle := dutyCycle d; minVoltage := minVoltage d;
     maxVoltage := maxVoltage d; minDuty := minDuty d; maxDuty := maxDuty d;
     is_minmax_active := is_minmax_active d; voltageFromNumber := voltageFromNumber d;
     _in_active_control := _in_active_control d;
     _last_turn_on_time := _last_turn_on_time d; islightON := islightON d;
     sunPhaseActive := sunPhaseActive d; pendingWorkMode := pendingWorkMode d;
     initVoltage := initVoltage d; realHumidifierClass := realHumidifierClass d |}.

Definition set_inWorkMode (x : bool) (d : Device) : Device :=
  {| deviceName := deviceName d; deviceType := deviceType d;
     isSpecialDevice := isSpecialDevice d; isRunning := isRunning d;
     isDimmable := isDimmable d; isAcInfinDev := isAcInfinDev d;
     switches := switches d; options := options d; sensors := sensors d;
     ogbsettings := ogbsettings d; initialization := initialization d; inWorkMode := x;
     voltage := voltage d; dutyCycle := dutyCycle d; minVoltage := minVoltage d;
     maxVoltage := maxVoltage d; minDuty := minDuty d; maxDuty := maxDuty d;
     is_minmax_active := is_minmax_active d; voltageFromNumber := voltageFromNumber d;
     _in_active_control := _in_active_control d;
     _last_turn_on_time := _last_turn_on_time d; islightON := islightON d;
     sunPhaseActive := sunPhaseActive d; pendingWorkMode := pendingWorkMode d;
     initVoltage := initVoltage d; realHumidifierClass := realHumidifierClass d |}.

Definition set_voltage (x : option Q) (d : Device) : Device :=
  {| deviceName := deviceName d; deviceType := deviceType d;
     isSpecialDevice := isSpecialDevice d; isRunning := isRunning d;
     isDimmable := isDimmable d; isAcInfinDev := isAcInfinDev d;
     switches := switches d; options := options d; sensors := sensors d;
     ogbsettings := ogbsettings d; initialization := initialization d;
     inWorkMode := inWorkMode d; voltage := x; dutyCycle := dutyCycle d;
     minVoltage := minVoltage d; maxVoltage := maxVoltage d; minDuty := minDuty d;
     maxDuty := maxDuty d; is_minmax_active := is_minmax_active d;
     voltageFromNumber := voltageFromNumber d;
     _in_active_control := _in_active_control d;
     _last_turn_on_time := _last_turn_on_time d; islightON := islightON d;
     sunPhaseActive := sunPhaseActive d; pendingWorkMode := pendingWorkMode d;
     initVoltage := initVoltage d; realHumidifierClass := realHumidifierClass d |}.

Definition set_dutyCycle (x : option Q) (d : Device) : Device :=
  {| deviceName := deviceName d; deviceType := deviceType d;
     isSpecialDevice := isSpecialDevice d; isRunning := isRunning d;
     isDimmable := isDimmable d; isAcInfinDev := isAcInfinDev d;
     switches := switches d; options := options d; sensors := sensors d;
     ogbsettings := ogbsettings d; initialization := initialization d;
     inWorkMode := inWorkMode d; voltage := voltage d; dutyCycle := x;
     minVoltage := minVoltage d; maxVoltage := maxVoltage d; minDuty := minDuty d;
     maxDuty := maxDuty d; is_minmax_active := is_minmax_active d;
     voltageFromNumber := voltageFromNumber d;
     _in_active_control := _in_active_control d;
     _last_turn_on_time := _last_turn_on_time d; islightON := islightON d;
     sunPhaseActive := sunPhaseActive d; pendingWorkMode := pendingWorkMode d;
     initVoltage := initVoltage d; realHumidifierClass := realHumidifierClass d |}.

Definition set_voltageFromNumber (x : bool) (d : Device) : Device :=
  {| deviceName := deviceName d; deviceType := deviceType d;
     isSpecialDevice := isSpecialDevice d; isRunning := isRunning d;
     isDimmable := isDimmable d; isAcInfinDev := isAcInfinDev d;
     switches := switches d; options := options d; sensors := sensors d;
     ogbsettings := ogbsettings d; initialization := initialization d;
     inWorkMode := inWorkMode d; voltage := voltage d; dutyCycle := dutyCycle d;
     minVoltage := minVoltage d; maxVoltage := maxVoltage d; minDuty := minDuty d;
     maxDuty := maxDuty d; is_minmax_active := is_minmax_active d;
     voltageFromNumber := x; _in_active_control := _in_active_control d;
     _last_turn_on_time := _last_turn_on_time d; islightON := islightON d;
     sunPhaseActive := sunPhaseActive d; pendingWorkMode := pendingWorkMode d;
     initVoltage := initVoltage d; realHumidifierClass := realHumidifierClass d |}.

Definition set_in_active_control (x : option bool) (d : Device) : Device :=
  {| deviceName := deviceName d; deviceType := deviceType d;
     isSpecialDevice := isSpecialDevice d; isRunning := isRunning d;
     isDimmable := isDimmable d; isAcInfinDev := isAcInfinDev d;
     switches := switches d; options := options d; sensors := sensors d;
     ogbsettings := ogbsettings d; initialization := initialization d;
     inWorkMode := inWorkMode d; voltage := voltage d; dutyCycle := dutyCycle d;
     minVoltage := minVoltage d; maxVoltage := maxVoltage d; minDuty := minDuty d;
     maxDuty := maxDuty d; is_minmax_active := is_minmax_active d;
     voltageFromNumber := voltageFromNumber d; _in_active_control := x;
     _last_turn_on_time := _last_turn_on_time d; islightON := islightON d;
     sunPhaseActive := sunPhaseActive d; pendingWorkMode := pendingWorkMode d;
     initVoltage := initVoltage d; realHumidifierClass := realHumidifierClass d |}.

Definition set_last_turn_on_time (x : option Q) (d : Device) : Device :=
  {| deviceName := deviceName d; deviceType := deviceType d;
     isSpecialDevice := isSpecialDevice d; isRunning := isRunning d;
     isDimmable := isDimmable d; isAcInfinDev := isAcInfinDev d;
     switches := switches d; options := options d; sensors := sensors d;
     ogbsettings := ogbsettings d; initialization := initialization d;
     inWorkMode := inWorkMode d; voltage := voltage d; dutyCycle := dutyCycle d;
     minVoltage := minVoltage d; maxVoltage := maxVoltage d; minDuty := minDuty d;
     maxDuty := maxDuty d; is_minmax_active := is_minmax_active d;
     voltageFromNumber := voltageFromNumber d;
     _in_active_control := _in_active_control d; _last_turn_on_time := x;
     islightON := islightON d; sunPhaseActive := sunPhaseActive d;
     pendingWorkMode := pendingWorkMode d; initVoltage := initVoltage d;
     realHumidifierClass := realHumidifierClass d |}.

Definition set_pendingWorkMode (x : option bool) (d : Device) : Device :=
  {| deviceName := deviceName d; deviceType := deviceType d;
     isSpecialDevice := isSpecialDevice d; isRunning := isRunning d;
     isDimmable := isDimmable d; isAcInfinDev := isAcInfinDev d;
     switches := switches d; options := options d; sensors := sensors d;
     ogbsettings := ogbsettings d; initialization := initialization d;
     inWorkMode := inWorkMode d; voltage := voltage d; dutyCycle := dutyCycle d;
     minVoltage := minVoltage d; maxVoltage := maxVoltage d; minDuty := minDuty d;
     maxDuty := maxDuty d; is_minmax_active := is_minmax_active d;
     voltageFromNumber := voltageFromNumber d;
     _in_active_control := _in_active_control d;
     _last_turn_on_time := _last_turn_on_time d; islightON := islightON d;
     sunPhaseActive := sunPhaseActive d; pendingWorkMode := x;
     initVoltage := initVoltage d; realHumidifierClass := realHumidifierClass d |}.

Definition set_isDimmable (x : bool) (d : Device) : Device :=
  {| deviceName := deviceName d; deviceType := deviceType d;
     isSpecialDevice := isSpecialDevice d; isRunning := isRunning d; isDimmable := x;
     isAcInfinDev := isAcInfinDev d; switches := switches d; options := options d;
     sensors := sensors d; ogbsettings := ogbsettings d;
     initialization := initialization d; inWorkMode := inWorkMode d;
     voltage := voltage d; dutyCycle := dutyCycle d; minVoltage := minVoltage d;
     maxVoltage := maxVoltage d; minDuty := minDuty d; maxDuty := maxDuty d;
     is_minmax_active := is_minmax_active d; voltageFromNumber := voltageFromNumber d;
     _in_active_control := _in_active_control d;
     _last_turn_on_time := _last_turn_on_time d; islightON := islightON d;
     sunPhaseActive := sunPhaseActive d; pendingWorkMode := pendingWorkMode d;
     initVoltage := initVoltage d; realHumidifierClass := realHumidifierClass d |}.

Definition set_minVoltage (x : option Q) (d : Device) : Device :=
  {| deviceName := deviceName d; deviceType := deviceType d;
     isSpecialDevice := isSpecialDevice d; isRunning := isRunning d;
     isDimmable := isDimmable d; isAcInfinDev := isAcInfinDev d;
     switches := switches d; options := options d; sensors := sensors d;
     ogbsettings := ogbsettings d; initialization := initialization d;
     inWorkMode := inWorkMode d; voltage := voltage d; dutyCycle := dutyCycle d;
     minVoltage := x; maxVoltage := maxVoltage d; minDuty := minDuty d;
     maxDuty := maxDuty d; is_minmax_active := is_minmax_active d;
     voltageFromNumber := voltageFromNumber d;
     _in_active_control := _in_active_control d;
     _last_turn_on_time := _last_turn_on_time d; islightON := islightON d;
     sunPhaseActive := sunPhaseActive d; pendingWorkMode := pendingWorkMode d;
     initVoltage := initVoltage d; realHumidifierClass := realHumidifierClass d |}.

Definition set_maxVoltage (x : option Q) (d : Device) : Device :=
  {| deviceName := deviceName d; deviceType := deviceType d;
     isSpecialDevice := isSpecialDevice d; isRunning := isRunning d;
     isDimmable := isDimmable d; isAcInfinDev := isAcInfinDev d;
     switches := switches d; options := options d; sensors := sensors d;
     ogbsettings := ogbsettings d; initialization := initialization d;
     inWorkMode := inWorkMode d; voltage := voltage d; dutyCycle := dutyCycle d;
     minVoltage := minVoltage d; maxVoltage := x; minDuty := minDuty d;
     maxDuty := maxDuty d; is_minmax_active := is_minmax_active d;
     voltageFromNumber := voltageFromNumber d;
     _in_active_control := _in_active_control d;
     _last_turn_on_time := _last_turn_on_time d; islightON := islightON d;
     sunPhaseActive := sunPhaseActive d; pendingWorkMode := pendingWorkMode d;
     initVoltage := initVoltage d; realHumidifierClass := realHumidifierClass d |}.

Definition set_minDuty (x : option Q) (d : Device) : Device :=
  {| deviceName := deviceName d; deviceType := deviceType d;
     isSpecialDevice := isSpecialDevice d; isRunning := isRunning d;
     isDimmable := isDimmable d; isAcInfinDev := isAcInfinDev d;
     switches := switches d; options := options d; sensors := sensors d;
     ogbsettings := ogbsettings d; initialization := initialization d;
     inWorkMode := inWorkMode d; voltage := voltage d; dutyCycle := dutyCycle d;
     minVoltage := minVoltage d; maxVoltage := maxVoltage d; minDuty := x;
     maxDuty := maxDuty d; is_minmax_active := is_minmax_active d;
     voltageFromNumber := voltageFromNumber d;
     _in_active_control := _in_active_control d;
     _last_turn_on_time := _last_turn_on_time d; islightON := islightON d;
     sunPhaseActive := sunPhaseActive d; pendingWorkMode := pendingWorkMode d;
     initVoltage := initVoltage d; realHumidifierClass := realHumidifierClass d |}.

Definition set_maxDuty (x : option Q) (d : Device) : Device :=
  {| deviceName := deviceName d; deviceType := deviceType d;
     isSpecialDevice := isSpecialDevice d; isRunning := isRunning d;
     isDimmable := isDimmable d; isAcInfinDev := isAcInfinDev d;
     switches := switches d; options := options d; sensors := sensors d;
     ogbsettings := ogbsettings d; initialization := initialization d;
     inWorkMode := inWorkMode d; voltage := voltage d; dutyCycle := dutyCycle d;
     minVoltage := minVoltage d; maxVoltage := maxVoltage d; minDuty := minDuty d;
     maxDuty := x; is_minmax_active := is_minmax_active d;
     voltageFromNumber := voltageFromNumber d;
     _in_active_control := _in_active_control d;
     _last_turn_on_time := _last_turn_on_time d; islightON := islightON d;
     sunPhaseActive := sunPhaseActive d; pendingWorkMode := pendingWorkMode d;
     initVoltage := initVoltage d; realHumidifierClass := realHumidifierClass d |}.

Definition set_is_minmax_active (x : bool) (d : Device) : Device :=
  {| deviceName := deviceName d; deviceType := deviceType d;
     isSpecialDevice := isSpecialDevice d; isRunning := isRunning d;
     isDimmable := isDimmable d; isAcInfinDev := isAcInfinDev d;
     switches := switches d; options := options d; sensors := sensors d;
     ogbsettings := ogbsettings d; initialization := initialization d;
     inWorkMode := inWorkMode d; voltage := voltage d; dutyCycle := dutyCycle d;
     minVoltage := minVoltage d; maxVoltage := maxVoltage d; minDuty := minDuty d;
     maxDuty := maxDuty d; is_minmax_active := x;
     voltageFromNumber := voltageFromNumber d;
     _in_active_control := _in_active_control d;
     _last_turn_on_time := _last_turn_on_time d; islightON := islightON d;
     sunPhaseActive := sunPhaseActive d; pendingWorkMode := pendingWorkMode d;
     initVoltage := initVoltage d; realHumidifierClass := realHumidifierClass d |}.

Definition set_islightON (x : option (option bool)) (d : Device) : Device :=
  {| deviceName := deviceName d; deviceType := deviceType d;
     isSpecialDevice := isSpecialDevice d; isRunning := isRunning d;
     isDimmable := isDimmable d; isAcInfinDev := isAcInfinDev d;
     switches := switches d; options := options d; sensors := sensors d;
     ogbsettings := ogbsettings d; initialization := initialization d;
     inWorkMode := inWorkMode d; voltage := voltage d; dutyCycle := dutyCycle d;
     minVoltage := minVoltage d; maxVoltage := maxVoltage d; minDuty := minDuty d;
     maxDuty := maxDuty d; is_minmax_active := is_minmax_active d;
     voltageFromNumber := voltageFromNumber d;
     _in_active_control := _in_active_control d;
     _last_turn_on_time := _last_turn_on_time d; islightON := x;
     sunPhaseActive := sunPhaseActive d; pendingWorkMode := pendingWorkMode d;
     initVoltage := initVoltage d; realHumidifierClass := realHumidifierClass d |}.

Definition set_sunPhaseActive (x : option bool) (d : Device) : Device :=
  {| deviceName := deviceName d; deviceType := deviceType d;
     isSpecialDevice := isSpecialDevice d; isRunning := isRunning d;
     isDimmable := isDimmable d; isAcInfinDev := isAcInfinDev d;
     switches := switches d; options := options d; sensors := sensors d;
     ogbsettings := ogbsettings d; initialization := initialization d;
     inWorkMode := inWorkMode d; voltage := voltage d; dutyCycle := dutyCycle d;
     minVoltage := minVoltage d; maxVoltage := maxVoltage d; minDuty := minDuty d;
     maxDuty := maxDuty d; is_minmax_active := is_minmax_active d;
     voltageFromNumber := voltageFromNumber d;
     _in_active_control := _in_active_control d;
     _last_turn_on_time := _last_turn_on_time d; islightON := islightON d;
     sunPhaseActive := x; pendingWorkMode := pendingWorkMode d;
     initVoltage := initVoltage d; realHumidifierClass := realHumidifierClass d |}.

Definition set_initVoltage (x : option Q) (d : Device) : Device :=
  {| deviceName := deviceName d; deviceType := deviceType d;
     isSpecialDevice := isSpecialDevice d; isRunning := isRunning d;
     isDimmable := isDimmable d; isAcInfinDev := isAcInfinDev d;
     switches := switches d; options := options d; sensors := sensors d;
     ogbsettings := ogbsettings d; initialization := initialization d;
     inWorkMode := inWorkMode d; voltage := voltage d; dutyCycle := dutyCycle d;
     minVoltage := minVoltage d; maxVoltage := maxVoltage d; minDuty := minDuty d;
     maxDuty := maxDuty d; is_minmax_active := is_minmax_active d;
     voltageFromNumber := voltageFromNumber d;
     _in_active_control := _in_active_control d;
     _last_turn_on_time := _last_turn_on_time d; islightON := islightON d;
     sunPhaseActive := sunPhaseActive d; pendingWorkMode := pendingWorkMode d;
     initVoltage := x; realHumidifierClass := realHumidifierClass d |}.

Definition set_realHumidifierClass (x : option bool) (d : Device) : Device :=
  {| deviceName := deviceName d; deviceType := deviceType d;
     isSpecialDevice := isSpecialDevice d; isRunning := isRunning d;
     isDimmable := isDimmable d; isAcInfinDev := isAcInfinDev d;
     switches := switches d; options := options d; sensors := sensors d;
     ogbsettings := ogbsettings d; initialization := initialization d;
     inWorkMode := inWorkMode d; voltage := voltage d; dutyCycle := dutyCycle d;
     minVoltage := minVoltage d; maxVoltage := maxVoltage d; minDuty := minDuty d;
     maxDuty := maxDuty d; is_minmax_active := is_minmax_active d;
     voltageFromNumber := voltageFromNumber d;
     _in_active_control := _in_active_control d;
     _last_turn_on_time := _last_turn_on_time d; islightON := islightON d;
     sunPhaseActive := sunPhaseActive d; pendingWorkMode := pendingWorkMode d;
     initVoltage := initVoltage d; realHumidifierClass := x |}.

(** The attributes as [__init__] leaves them, before [deviceInit]. *)
Definition new_device (deviceName deviceType : string) : Device :=
  {| deviceName := deviceName; deviceType := deviceType;
     isSpecialDevice := false; isRunning := Some false; isDimmable := false;
     isAcInfinDev := false; switches := []; options := []; sensors := [];
     ogbsettings := []; initialization := false; inWorkMode := false;
     voltage := None; dutyCycle := None; minVoltage := None; maxVoltage := None;
     minDuty := None; maxDuty := None; is_minmax_active := false;
     voltageFromNumber := false; _in_active_control := None;
     _last_turn_on_time := None; islightON := None; sunPhaseActive := None;
     pendingWorkMode := None; initVoltage := None; realHumidifierClass := None |}.

(** *** Bounds enforcer *)

(** [clamp_voltage(self, value)] *)
Definition clamp_voltage (d : Device) (value : option Q) : option Q :=
  match minVoltage d, maxVoltage d with
  | Some mn, Some mx => Some (Py.max mn (Py.min mx (Py.or_num value 0)))
  | _, _ => value
  end.

(** [clamp_duty_cycle(self, value)] *)
Definition clamp_duty_cycle (d : Device) (value : option Q) : Q :=
  match value with
  | None => 50
  | Some v =>
      let min_duty := match minDuty d with Some m => m | None => 0 end in
      let max_duty := match maxDuty d with Some m => m | None => 100 end in
      let clamped := Py.max min_duty (Py.min max_duty v) in
      inject_Z (Py.int clamped)
  end.

(** *** Feedback ingestion: [checkForControlValue] *)

Definition relevant_keys : list string := ["_duty"; "_intensity"; "_dutyCycle"].

(** The nested [convert_to_int(value, multiply_by_10)]: [None] when
    [float] raises [ValueError] or [TypeError]. *)
Definition convert_to_int (value : Py.value) (multiply_by_10 : bool) : option Z :=
  match Py.float value with
  | Py.FloatOk float_value =>
      Some (Py.int (if multiply_by_10 then float_value * 10 else float_value))
  | Py.ValueError | Py.TypeError => None
  end.

Definition duty_sensor_types : list string :=
  ["Exhaust"; "Intake"; "Ventilation"; "Humidifier"; "Dehumidifier"].

(** One iteration of [for sensor in self.sensors]. *)
Definition sensor_update (d : Device) (sensor : entity) : Device :=
  if Py.any_in relevant_keys (Py.lower (entity_id sensor)) then
    match value sensor with
    | Py.VNone => d
    | raw_value =>
        match convert_to_int raw_value (isAcInfinDev d) with
        | None => d
        | Some converted_value =>
            if String.eqb (deviceType d) "Light" then
              let d1 := set_voltage (Some (inject_Z converted_value)) d in
              match minVoltage d1, maxVoltage d1 with
              | Some mn, Some mx =>
                  if Py.Qltb 0 mn || Py.Qltb mx 100
                  then set_voltage (clamp_voltage d1 (voltage d1)) d1
                  else d1
              | _, _ => d1
              end
            else if Py.mem (deviceType d) duty_sensor_types then
              let d1 := set_dutyCycle (Some (inject_Z converted_value)) d in
              match minDuty d1, maxDuty d1 with
              | Some mn, Some mx =>
                  if Py.Qltb 0 mn || Py.Qltb mx 100
                  then set_dutyCycle
                         (Some (Py.max mn (Py.min mx (inject_Z converted_value)))) d1
                  else d1
              | _, _ => d1
              end
            else d
        end
    end
  else d.

(** The body of [for option in self.options] when the option is relevant
    and the device is a Light.  [None]: no value stored, the loop goes on
    (with [voltageFromNumber] already set); [Some]: stored, the method
    returns. *)
Definition option_update_light (d : Device) (option : entity) : Device * bool :=
  let d1 := set_voltageFromNumber true d in
  let multiply_by_10 := isAcInfinDev d1 || voltageFromNumber d1 in
  match convert_to_int (value option) multiply_by_10 with
  | Some converted_value =>
      let d2 := set_voltage (Some (inject_Z converted_value)) d1 in
      let d3 :=
        match is_minmax_active d2, minVoltage d2, maxVoltage d2 with
        | true, Some _, Some _ => set_voltage (clamp_voltage d2 (voltage d2)) d2
        | _, _, _ => d2
        end in
      (d3, true)
  | None => (d1, false)
  end.

(** The same for every other device type. *)
Definition option_update_other (d : Device) (option : entity) : Device * bool :=
  match convert_to_int (value option) (isAcInfinDev d) with
  | Some converted_value =>
      let d1 := set_dutyCycle (Some (inject_Z converted_value)) d in
      let d2 :=
        match is_minmax_active d1, minDuty d1, maxDuty d1 with
        | true, Some mn, Some mx =>
            set_dutyCycle (Some (Py.max mn (Py.min mx (inject_Z converted_value)))) d1
        | _, _, _ => d1
        end in
      (d2, true)
  | None => (d, false)
  end.

(** One iteration of [for option in self.options]; the boolean says
    whether the method returned. *)
Definition option_update (d : Device) (option : entity) : Device * bool :=
  if Py.any_in relevant_keys (entity_id option) then
    if String.eqb (deviceType d) "Light"
    then option_update_light d option
    else option_update_other d option
  else (d, false).

Fixpoint options_loop (d : Device) (opts : list entity) : Device :=
  match opts with
  | [] => d
  | option :: rest =>
      let '(d1, returned) := option_update d option in
      if returned then d1 else options_loop d1 rest
  end.

Definition is_nil {A : Type} (l : list A) : bool :=
  match l with [] => true | _ :: _ => false end.

(** [checkForControlValue(self)] *)
Definition checkForControlValue (d : Device) : Device :=
  if match _in_active_control d with Some b => b | None => false end then d
  else if negb (isDimmable d) then d
  else if is_nil (sensors d) && is_nil (options d) then d
  else options_loop (fold_left sensor_update (sensors d) d) (options d).

(** *** Entity classification: [identifySwitchesAndSensors] *)

Definition invalid_values : list string := ["None"; "unknown"; "Unbekannt"; "unavailable"].

(** [entityValue in ("None", "unknown", "Unbekannt", "unavailable")] *)
Definition value_is_invalid (v : Py.value) : bool :=
  match v with
  | Py.VStr s => Py.mem s invalid_values
  | Py.VNone | Py.VNum _ => false
  end.

(** [evalSensors(self, sensor_id)] *)
Definition evalSensors (sensor_id : string) : bool :=
  Py.any_in ["_temperature"; "_humidity"; "_dewpoint"; "_co2"; "_duty"; "_moisture";
             "_intensity"; "_ph"; "_ec"; "_tds"] sensor_id.

Definition starts_with_any (s : string) (ps : list string) : bool :=
  existsb (Py.startswith s) ps.

(** One iteration of [for entity in entitys]; [None] is the [TypeError] of
    [x in entityPlatform] on a missing platform. *)
Definition identify_entity (d : Device) (e : entity) : option Device :=
  if Py.str_in "ogb_" (entity_id e) then
    Some (set_ogbsettings (ogbsettings d ++ [e])%list d)
  else
    match platform e with
    | None => None
    | Some entityPlatform =>
        let d1 := if String.eqb entityPlatform "ac_infinity"
                  then set_isAcInfinDev true d else d in
        let d2 := if String.eqb entityPlatform "crescontrol"
                  then set_voltageFromNumber true d1 else d1 in
        let d3 := if existsb (fun x => Py.str_in x entityPlatform) ["tasmota"; "shelly"]
                  then set_isSpecialDevice true d2 else d2 in
        if value_is_invalid (value e) then Some d3
        else if starts_with_any (entity_id e)
                  ["switch."; "light."; "fan."; "climate."; "humidifier."]
        then Some (set_switches (switches d3 ++ [e])%list d3)
        else if starts_with_any (entity_id e)
                  ["select."; "number."; "date."; "text."; "time."; "camera."]
        then Some (set_options (options d3 ++ [e])%list d3)
        else if Py.startswith (entity_id e) "sensor." then
          if evalSensors (entity_id e)
          then Some (set_sensors (sensors d3 ++ [e])%list d3)
          else Some d3
        else Some d3
    end.

Fixpoint identify_loop (d : Device) (entitys : list entity) : Device * bool :=
  match entitys with
  | [] => (d, true)
  | e :: rest =>
      match identify_entity d e with
      | Some d1 => identify_loop d1 rest
      | None => (d, false)
      end
  end.

(** [identifySwitchesAndSensors(self, entitys)]: the bare [except] turns
    any exception into [initialization = False]. *)
Definition identifySwitchesAndSensors (d : Device) (entitys : list entity) : Device :=
  let '(d1, completed) := identify_loop d entitys in
  set_initialization completed d1.

(** *** Vocabulary of the statements about feedback ingestion *)






(** *** Capability registry: [identifyCapabilities] *)

(** One entry of [dataStore["capabilities"]]:
    [{"state": bool, "count": int, "devEntities": [names]}]. *)
Record capability : Type := Capability {
  state : bool;
  count : Z;
  devEntities : list string
}.

Definition capMapping : list (string * list string) :=
  [ ("canHeat", ["heater"]);
    ("canCool", ["cooler"]);
    ("canClimate", ["climate"]);
    ("canHumidify", ["humidifier"]);
    ("canDehumidify", ["dehumidifier"]);
    ("canVentilate", ["ventilation"]);
    ("canExhaust", ["exhaust"]);
    ("canIntake", ["intake"]);
    ("canLight", ["light"]);
    ("canCO2", ["co2"]);
    ("canPump", ["pump"]) ].

(** Modelled from the spec: the keyed store behind [self.dataStore] is the
    host's; its class is not among the sources.  Following the Store
    interface ([get(key) -> value|null], [getDeep(dotted.path) ->
    value|null], [setDeep(dotted.path, value)]), the ["capabilities"] key
    is a finite map from capability name to entry, [getDeep] of
    ["capabilities.<cap>"] is a lookup and [setDeep] an overwrite; a
    missing or empty dictionary is the empty map. *)
Definition getDeep_capability (caps : gmap string capability) (cap : string)
  : option capability := caps !! cap.

Definition setDeep_capability (caps : gmap string capability) (cap : string)
    (entry : capability) : gmap string capability := <[cap := entry]> caps.

Definition fresh_capabilities : gmap string capability :=
  list_to_map (map (fun '(cap, _) => (cap, Capability false 0%Z [])) capMapping).

(** [not self.dataStore.get("capabilities")] *)
Definition capabilities_falsy (caps : gmap string capability) : bool :=
  bool_decide (caps = ∅).

(** One iteration of [for cap, deviceTypes in capMapping.items()];
    [None] is the [TypeError] of subscripting a missing entry. *)
Definition register_capability (d : Device) (caps : gmap string capability)
    (item : string * list string) : option (gmap string capability) :=
  let '(cap, deviceTypes) := item in
  if Py.mem (Py.lower (deviceType d)) (map Py.lower deviceTypes) then
    match getDeep_capability caps cap with
    | None => None
    | Some currentCap =>
        if Py.mem (deviceName d) (devEntities currentCap) then Some caps
        else
          Some (setDeep_capability caps cap
                  {| state := true;
                     count := (count currentCap + 1)%Z;
                     devEntities := (devEntities currentCap ++ [deviceName d])%list |})
    end
  else Some caps.

Fixpoint register_loop (d : Device) (caps : gmap string capability)
    (items : list (string * list string)) : option (gmap string capability) :=
  match items with
  | [] => Some caps
  | item :: rest =>
      match register_capability d caps item with
      | Some caps1 => register_loop d caps1 rest
      | None => None
      end
  end.

(** [identifyCapabilities(self)], as a function of the store's
    ["capabilities"] entry. *)
Definition identifyCapabilities (d : Device) (caps : gmap string capability)
  : option (gmap string capability) :=
  if String.eqb (deviceName d) "ogb" then Some caps
  else
    let caps0 := if capabilities_falsy caps then fresh_capabilities else caps in
    register_loop d caps0 capMapping.


(** Devices registering one after the other, as the device manager builds
    them. *)
Fixpoint register_all (ds : list Device) (caps : gmap string capability)
  : option (gmap string capability) :=
  match ds with
  | [] => Some caps
  | d :: rest =>
      match identifyCapabilities d caps with
      | Some caps1 => register_all rest caps1
      | None => None
      end
  end.

(** [count == |devEntities|] and no name twice, for every capability. *)
Definition registry_invariant (caps : gmap string capability) : Prop :=
  forall cap entry, caps !! cap = Some entry ->
    count entry = Z.of_nat (List.length (devEntities entry)) /\ NoDup (devEntities entry).

(** Every capability of the mapping has an entry. *)
Definition complete (caps : gmap string capability) : Prop :=
  forall item, In item capMapping -> is_Some (caps !! fst item).

(** The device's name is listed under [cap]. *)
Definition registered (d : Device) (caps : gmap string capability) (cap : string) : Prop :=
  exists entry, caps !! cap = Some entry /\ In (deviceName d) (devEntities entry).


(** *** The actuation primitive *)

(** The [service_data] of a call besides its ["entity_id"]. *)
Inductive service_data : Type :=
| NoData
| DataOption (option : string)
| DataHvacMode (hvac_mode : string)
| DataBrightnessPct (brightness_pct : option Q)
| DataPercentage (percentage : option Q)
| DataValue (value : Q).

(** One [hass.services.async_call(domain, service, service_data)]. *)
Record service_call : Type := ServiceCall {
  domain : string;
  service : string;
  target : string;
  data : service_data
}.

(** The host: [hass.states.get(entity_id)] (the state string, if the
    entity is known) and whether a given service call completes ([false]:
    it raises). *)
Record HomeAssistant : Type := {
  states_get : string -> option string;
  async_call : service_call -> bool
}.

(** Keyword arguments of [turn_on]; [VNone] and [None] stand for an
    absent keyword.  The callers pass numbers; a list-valued
    [brightness_pct], which the method unwraps to its first element, is
    not represented. *)
Record kwargs : Type := Kwargs {
  kw_brightness_pct : Py.value;
  kw_percentage : Py.value;
  kw_hvac_mode : option string
}.

Definition no_kwargs : kwargs := Kwargs Py.VNone Py.VNone None.

(** How a loop iteration ends: the loop goes on, or the method is left (by
    [return] or by an exception that the method's handler logs). *)
Inductive flow : Type := Continue | Leave.

Definition light_types : list string :=
  ["Light"; "LightFarRed"; "LightUV"; "LightBlue"; "LightRed"].

Section Actuation.

(** [self.hass]; [None] when the device was built without a host. *)
Variable hass : option HomeAssistant.

(** Issue one service call: whether it completed, and what reached the
    host.  Without a host the attribute access raises before any call. *)
Definition invoke (c : service_call) : bool * list service_call :=
  match hass with
  | Some h => (async_call h c, [c])
  | None => (false, [])
  end.

(** [_is_device_online(self)] *)
Definition _is_device_online (d : Device) : bool :=
  forallb
    (fun switch =>
       match hass with
       | Some h =>
           if String.eqb (entity_id switch) "" then true
           else match states_get h (entity_id switch) with
                | Some st => negb (Py.mem st ["unavailable"; "unknown"; "None"])
                | None => true
                end
       | None => true
       end)
    (switches d).

(** [set_value(self, value)]: one [number.set_value] on the first option
    whose id mentions duty or intensity; a failing call is logged. *)
Definition set_value (d : Device) (value : Q) : list service_call :=
  match find (fun option => Py.str_in "duty" (entity_id option)
                            || Py.str_in "intensity" (entity_id option))
             (options d) with
  | Some option =>
      snd (invoke (ServiceCall "number" "set_value" (entity_id option)
                     (DataValue (if isAcInfinDev d
                                 then inject_Z (Py.int value) else value))))
  | None => []
  end.

(** Issue [c]; on success mark the device running; leave the method. *)
Definition call_and_return (d : Device) (c : service_call)
  : flow * Device * list service_call :=
  let '(ok, tr) := invoke c in
  (Leave, if ok then set_isRunning (Some true) d else d, tr).

Definition select_ids (es : list entity) : list string :=
  map entity_id (List.filter (fun e => Py.str_in "select." (entity_id e)) es).

(** The ids the AC-Infinity branch acts on: the select switches, else
    the select options. *)
Definition acinfinity_ids (d : Device) : list string :=
  match select_ids (switches d) with
  | [] => select_ids (options d)
  | ids => ids
  end.

Definition acinfinity_value_types : list string :=
  ["Light"; "Humidifier"; "Deumidifier"; "Exhaust"; "Intake"; "Ventilation"].

(** The AC-Infinity loop of [turn_on]. *)
Fixpoint turn_on_acinfinity (d : Device) (brightness_pct percentage : option Q)
    (ids : list string) : flow * Device * list service_call :=
  match ids with
  | [] => (Continue, d, [])
  | entity_id :: rest =>
      let '(ok, tr) := invoke (ServiceCall "select" "select_option" entity_id
                                 (DataOption "On")) in
      if negb ok then (Leave, d, tr)
      else
        let value :=
          if Py.mem (deviceType d) acinfinity_value_types then
            if String.eqb (deviceType d) "Light"
            then option_map (fun b => inject_Z (Py.int (b / 10))) brightness_pct
            else option_map (fun p => p / 10) percentage
          else None in
        match value with
        | Some v => (Leave, set_isRunning (Some true) d, (tr ++ set_value d v)%list)
        | None =>
            let '(f, d1, tr1) := turn_on_acinfinity d brightness_pct percentage rest in
            (f, d1, (tr ++ tr1)%list)
        end
  end.

Definition switch_turn_on (entity_id : string) : service_call :=
  ServiceCall "switch" "turn_on" entity_id NoData.

Definition fan_set_percentage (entity_id : string) (percentage : option Q)
  : service_call :=
  ServiceCall "fan" "set_percentage" entity_id (DataPercentage percentage).

Definition light_turn_on (entity_id : string) (brightness_pct : option Q)
  : service_call :=
  ServiceCall "light" "turn_on" entity_id (DataBrightnessPct brightness_pct).

(** The exhaust and intake branches of [turn_on] are the same. *)
Definition turn_on_fan (d : Device) (entity_id : string)
    (brightness_pct percentage : option Q) : flow * Device * list service_call :=
  if isSpecialDevice d then
    if isDimmable d
    then call_and_return d (light_turn_on entity_id brightness_pct)
    else call_and_return d (switch_turn_on entity_id)
  else if isDimmable d
  then call_and_return d (fan_set_percentage entity_id percentage)
  else call_and_return d (switch_turn_on entity_id).

(** One iteration of the loop over the switch entities in [turn_on]. *)
Definition turn_on_entity (d : Device) (kw : kwargs)
    (brightness_pct percentage : option Q) (entity_id : string)
  : flow * Device * list service_call :=
  let ty := deviceType d in
  if String.eqb ty "Climate" then
    call_and_return d
      (ServiceCall "climate" "set_hvac_mode" entity_id
         (DataHvacMode (match kw_hvac_mode kw with Some m => m | None => "heat" end)))
  else if String.eqb ty "Humidifier" then
    match realHumidifierClass d with
    | Some true => call_and_return d (ServiceCall "humidifier" "turn_on" entity_id NoData)
    | _ => call_and_return d (switch_turn_on entity_id)
    end
  else if String.eqb ty "Deumidifier" then
    call_and_return d (switch_turn_on entity_id)
  else if Py.mem ty light_types then
    if isDimmable d then
      if voltageFromNumber d then
        let '(ok, tr) := invoke (switch_turn_on entity_id) in
        if negb ok then (Leave, d, tr)
        else match brightness_pct with
             | None => (Leave, d, tr)
             | Some b =>
                 (Leave, set_isRunning (Some true) d, (tr ++ set_value d (b / 10))%list)
             end
      else
        match brightness_pct with
        | None => (Leave, d, [])
        | Some b =>
            call_and_return d
              (light_turn_on entity_id
                 (Some (inject_Z (Py.int (Py.max 0 (Py.min 100 b))))))
        end
    else call_and_return d (switch_turn_on entity_id)
  else if String.eqb ty "Exhaust" then
    turn_on_fan d entity_id brightness_pct percentage
  else if String.eqb ty "Intake" then
    turn_on_fan d entity_id brightness_pct percentage
  else if String.eqb ty "Ventilation" then
    let '(ok, tr) :=
      invoke (if isSpecialDevice d then light_turn_on entity_id brightness_pct
              else if isDimmable d then fan_set_percentage entity_id percentage
              else switch_turn_on entity_id) in
    if ok then (Continue, set_isRunning (Some true) d, tr) else (Leave, d, tr)
  else if String.eqb ty "CO2" then
    if isDimmable d
    then call_and_return d (fan_set_percentage entity_id percentage)
    else call_and_return d (switch_turn_on entity_id)
  else call_and_return d (switch_turn_on entity_id).

Fixpoint turn_on_standard (d : Device) (kw : kwargs)
    (brightness_pct percentage : option Q) (ids : list string)
  : Device * list service_call :=
  match ids with
  | [] => (d, [])
  | entity_id :: rest =>
      let '(f, d1, tr) := turn_on_entity d kw brightness_pct percentage entity_id in
      match f with
      | Leave => (d1, tr)
      | Continue =>
          let '(d2, tr2) := turn_on_standard d1 kw brightness_pct percentage rest in
          (d2, (tr ++ tr2)%list)
      end
  end.

(** The value [turn_on] works with for [brightness_pct]. *)
Definition resolve_brightness_pct (d : Device) (kw : kwargs) : option Q :=
  match kw_brightness_pct kw with
  | Py.VNone =>
      if Py.mem (deviceType d) light_types && bool_decide (voltage d <> None)
      then voltage d
      else if isSpecialDevice d && bool_decide (dutyCycle d <> None)
      then dutyCycle d
      else Some 100
  | v =>
      match Py.float v with
      | Py.FloatOk b => Some (Py.max 0 (Py.min 100 b))
      | Py.ValueError | Py.TypeError => voltage d
      end
  end.

(** The value [turn_on] works with for [percentage]. *)
Definition resolve_percentage (d : Device) (kw : kwargs) : option Q :=
  match kw_percentage kw with
  | Py.VNone =>
      if Py.mem (deviceType d) ["Exhaust"; "Intake"; "Ventilation"]
         && bool_decide (dutyCycle d <> None)
      then dutyCycle d
      else Some 100
  | v =>
      match Py.float v with
      | Py.FloatOk p => Some p
      | Py.ValueError | Py.TypeError => dutyCycle d
      end
  end.

(** [turn_on(self, **kwargs)], with [now] the reading of [time.time()].
    Returns the device afterwards and the service calls that reached the
    host, in order. *)
Definition turn_on (now : Q) (kw : kwargs) (d : Device) : Device * list service_call :=
  let d0 := set_in_active_control (Some true) d in
  if negb (_is_device_online d0) then (set_in_active_control (Some false) d0, [])
  else
    let last_call := match _last_turn_on_time d0 with Some t => t | None => 0 end in
    if Py.Qltb (now - last_call) 3 then (set_in_active_control (Some false) d0, [])
    else
      let d1 := set_last_turn_on_time (Some now) d0 in
      let brightness_pct := resolve_brightness_pct d1 kw in
      let percentage := resolve_percentage d1 kw in
      let '(f, d2, tr) :=
        if isAcInfinDev d1
        then turn_on_acinfinity d1 brightness_pct percentage (acinfinity_ids d1)
        else (Continue, d1, []) in
      match f with
      | Leave => (set_in_active_control (Some false) d2, tr)
      | Continue =>
          let '(d3, tr3) :=
            turn_on_standard d2 kw brightness_pct percentage (map entity_id (switches d2)) in
          (set_in_active_control (Some false) d3, (tr ++ tr3)%list)
      end.

(** The AC-Infinity loop of [turn_off]. *)
Fixpoint turn_off_acinfinity (d : Device) (ids : list string)
  : Device * list service_call :=
  match ids with
  | [] => (d, [])
  | entity_id :: rest =>
      let '(ok, tr) := invoke (ServiceCall "select" "select_option" entity_id
                                 (DataOption "Off")) in
      if negb ok then (d, tr)
      else
        let d1 := set_isRunning (Some false) d in
        let '(ok2, tr2) :=
          if Py.mem (deviceType d) ["Light"; "Humidifier"; "Exhaust"; "Ventilation"]
          then invoke (ServiceCall "number" "set_value" entity_id (DataValue 0))
          else (true, []) in
        if negb ok2 then (d1, (tr ++ tr2)%list)
        else
          let '(d2, tr3) := turn_off_acinfinity d1 rest in
          (d2, (tr ++ tr2 ++ tr3)%list)
  end.

(** Issue [c]; on success mark the device stopped; leave the method. *)
Definition call_and_stop (d : Device) (c : service_call)
  : flow * Device * list service_call :=
  let '(ok, tr) := invoke c in
  (Leave, if ok then set_isRunning (Some false) d else d, tr).

Definition switch_turn_off (entity_id : string) : service_call :=
  ServiceCall "switch" "turn_off" entity_id NoData.

(** One iteration of the loop over the switch entities in [turn_off]. *)
Definition turn_off_entity (d : Device) (entity_id : string)
  : flow * Device * list service_call :=
  let ty := deviceType d in
  if String.eqb ty "Climate" then
    call_and_stop d (ServiceCall "climate" "set_hvac_mode" entity_id (DataHvacMode "off"))
  else if String.eqb ty "Humidifier" then
    call_and_stop d (switch_turn_off entity_id)
  else if String.eqb ty "Light" then
    if isDimmable d then
      let '(ok, tr) := invoke (ServiceCall "light" "turn_off" entity_id NoData) in
      (Leave, if ok then set_voltage (Some 0) (set_isRunning (Some false) d) else d, tr)
    else call_and_stop d (switch_turn_off entity_id)
  else if String.eqb ty "Exhaust" then
    if isDimmable d then (Leave, d, [])
    else call_and_stop d (switch_turn_off entity_id)
  else if String.eqb ty "Intake" then
    if isDimmable d then (Leave, d, [])
    else call_and_stop d (switch_turn_off entity_id)
  else if String.eqb ty "Ventilation" then
    let '(ok, tr) :=
      invoke (if isSpecialDevice d then ServiceCall "light" "turn_off" entity_id NoData
              else if isDimmable d then ServiceCall "fan" "turn_off" entity_id NoData
              else switch_turn_off entity_id) in
    if ok then (Continue, set_isRunning (Some false) d, tr) else (Leave, d, tr)
  else if String.eqb ty "CO2" then
    if isDimmable d then (Leave, d, [])
    else call_and_stop d (switch_turn_off entity_id)
  else call_and_stop d (switch_turn_off entity_id).

Fixpoint turn_off_standard (d : Device) (ids : list string)
  : Device * list service_call :=
  match ids with
  | [] => (d, [])
  | entity_id :: rest =>
      let '(f, d1, tr) := turn_off_entity d entity_id in
      match f with
      | Leave => (d1, tr)
      | Continue =>
          let '(d2, tr2) := turn_off_standard d1 rest in
          (d2, (tr ++ tr2)%list)
      end
  end.

(** [turn_off(self, **kwargs)] *)
Definition turn_off (d : Device) : Device * list service_call :=
  if isAcInfinDev d then turn_off_acinfinity d (acinfinity_ids d)
  else turn_off_standard d (map entity_id (switches d)).

End Actuation.


(** *** Vocabulary of the statements about actuation *)

(** [d'] is [d] up to the running flag. *)
Definition running_only (d d' : Device) : Prop :=
  exists r, d' = set_isRunning r d.

(** The host accepted the call to [turn_on] at time [now]: the device is
    online and the previous accepted call is at least three seconds old. *)
Definition accepted (hass : option HomeAssistant) (now : Q) (d : Device) : Prop :=
  _is_device_online hass d = true /\
  3 <= now - match _last_turn_on_time d with Some t => t | None => 0 end.


(** *** The WorkMode state machine *)

(** What [WorkMode] awaits: its own [turn_on] / [turn_off] and events on
    the event manager. *)
Inductive method_call : Type :=
| CallTurnOn (kw : kwargs)
| CallTurnOff
| CallEmit (event : string) (payload : bool).

Definition special_light_types : list string :=
  ["LightFarRed"; "LightUV"; "LightBlue"; "LightRed"; "LightSpectrum"].

Definition num_kw (x : option Q) : Py.value :=
  match x with Some q => Py.VNum q | None => Py.VNone end.

Definition brightness_kw (x : option Q) : kwargs := Kwargs (num_kw x) Py.VNone None.
Definition percentage_kw (x : option Q) : kwargs := Kwargs Py.VNone (num_kw x) None.

(** [hasattr(self, 'islightON') and not self.islightON] *)
Definition light_is_off (d : Device) : bool :=
  match islightON d with
  | Some (Some b) => negb b
  | Some None => true
  | None => false
  end.

(** [hasattr(self, 'sunPhaseActive') and self.sunPhaseActive] *)
Definition sun_phase (d : Device) : bool :=
  match sunPhaseActive d with Some b => b | None => false end.

(** [if self.isRunning:] *)
Definition running (d : Device) : bool :=
  match isRunning d with Some b => b | None => false end.

Definition unaffected_types : list string := ["Light"; "Pump"; "Sensor"].

(** The outcome of the body of [WorkMode]: the device after its
    assignments, the calls it awaits in order, and whether it ends in an
    uncaught exception ([AttributeError] on a missing [initVoltage],
    [TypeError] on [float(None)]). *)
Record workmode_outcome : Type := Outcome {
  wm_device : Device;
  wm_calls : list method_call;
  wm_raised : bool
}.

(** The assignments and awaited calls of [WorkMode(self, workmode)].  No
    statement after an awaited call reads the device, so the calls can be
    listed first and run afterwards. *)
Definition WorkMode_body (d : Device) (workmode : bool) : workmode_outcome :=
  if light_is_off d then
    if Py.mem (deviceType d) special_light_types then Outcome d [] false
    else Outcome (set_pendingWorkMode (Some workmode) d) [] false
  else
    let d1 := set_inWorkMode workmode d in
    if workmode then
      if isDimmable d1 then
        if String.eqb (deviceType d1) "Light" then
          if sun_phase d1 then Outcome d1 [CallEmit "pauseSunPhase" false] false
          else
            match minVoltage d1, maxVoltage d1 with
            | Some mn, Some _ =>
                Outcome (set_voltage (Some mn) d1) [CallTurnOn (brightness_kw (Some mn))] false
            | _, _ =>
                match initVoltage d1 with
                | Some iv =>
                    Outcome (set_voltage (Some iv) d1)
                      [CallTurnOn (brightness_kw (Some iv))] false
                | None => Outcome d1 [] true
                end
            end
        else if Py.mem (deviceType d1) special_light_types then Outcome d1 [] false
        else
          let d2 := set_dutyCycle (minDuty d1) d1 in
          match minDuty d1 with
          | Some mn =>
              let v := Some (inject_Z (Py.int mn)) in
              Outcome d2
                ((if isSpecialDevice d2 then [CallTurnOn (brightness_kw v)] else [])
                   ++ [CallTurnOn (percentage_kw v)])%list
                false
          | None => Outcome d2 [] true
          end
      else if Py.mem (deviceType d1) unaffected_types then Outcome d1 [] false
      else Outcome d1 [CallTurnOff] false
    else
      if isDimmable d1 then
        if String.eqb (deviceType d1) "Light" then
          if sun_phase d1 then Outcome d1 [CallEmit "resumeSunPhase" false] false
          else
            let d2 := set_voltage (maxVoltage d1) d1 in
            if running d2
            then Outcome d2 [CallTurnOn (brightness_kw (maxVoltage d1))] false
            else Outcome d2 [] false
        else
          let d2 := set_dutyCycle (maxDuty d1) d1 in
          if running d2 then
            match maxDuty d1 with
            | Some mx =>
                let v := Some (inject_Z (Py.int mx)) in
                Outcome d2
                  ((if isSpecialDevice d2 then [CallTurnOn (brightness_kw v)] else [])
                     ++ [CallTurnOn (percentage_kw v)])%list
                  false
            | None => Outcome d2 [] true
            end
          else Outcome d2 [] false
      else if Py.mem (deviceType d1) unaffected_types then Outcome d1 [] false
      else if running d1 then Outcome d1 [CallTurnOn no_kwargs] false
      else Outcome d1 [] false.

(** What the outside world sees of a method: service calls on the host and
    events on the event manager. *)
Inductive effect : Type :=
| Hardware (c : service_call)
| Emitted (event : string) (payload : bool).

Section WorkModeRun.

Variable hass : option HomeAssistant.

(** Successive readings of [time.time()]: the [n]-th awaited call reads
    [clock n]. *)
Variable clock : nat -> Q.

Fixpoint run_calls (tick : nat) (calls : list method_call) (d : Device)
  : Device * list effect :=
  match calls with
  | [] => (d, [])
  | c :: rest =>
      let '(d1, effs) :=
        match c with
        | CallTurnOn kw =>
            let '(d1, tr) := turn_on hass (clock tick) kw d in (d1, map Hardware tr)
        | CallTurnOff =>
            let '(d1, tr) := turn_off hass d in (d1, map Hardware tr)
        | CallEmit event payload => (d, [Emitted event payload])
        end in
      let '(d2, effs2) := run_calls (S tick) rest d1 in
      (d2, (effs ++ effs2)%list)
  end.

(** [WorkMode(self, workmode)]: the device afterwards, the effects in
    order, and whether the method raised. *)
Definition WorkMode (d : Device) (workmode : bool) : Device * list effect * bool :=
  let o := WorkMode_body d workmode in
  let '(d1, effs) := run_calls 0 (wm_calls o) (wm_device o) in
  (d1, effs, wm_raised o).

End WorkModeRun.


(** *** Duty-cycle initialisation: [initialize_duty_cycle] *)

(** [a // b] on numbers: the floor of the quotient. *)
Definition floordiv (a b : Q) : Q := inject_Z (Qfloor (a / b)).

(** The nested [calc_middle(min_val, max_val, steps_val)]. *)
Definition calc_middle (min_val max_val steps_val : Q) : Q :=
  if Qle_bool steps_val 0 then floordiv (min_val + max_val) 2
  else
    let range_mid := floordiv (max_val - min_val) 2 in
    let steps_in_range := floordiv range_mid steps_val in
    min_val + steps_in_range * steps_val.

(** [initialize_duty_cycle(self)].  [self.steps] is an attribute of the fan
    subclasses; it is passed in and returned with the device. *)
Definition initialize_duty_cycle (steps : Q) (d : Device) : Device * Q :=
  let middle (d : Device) : Q :=
    match minDuty d, maxDuty d with
    | Some mn, Some mx => calc_middle mn mx steps
    | _, _ => 50
    end in
  let d1 := set_dutyCycle (Some (middle d)) d in
  if isSpecialDevice d1 then (set_dutyCycle (Some (middle d1)) d1, steps)
  else if isAcInfinDev d1 then
    let d2 := set_minDuty (Some 0) (set_maxDuty (Some 100) d1) in
    (set_dutyCycle (Some (calc_middle 0 100 10)) d2, 10)
  else (d1, steps).

(** *** Running state: [identifyIfRunningState] *)

(** What a switch value says about the running state. *)
Definition switch_running (v : Py.value) : option bool :=
  match v with
  | Py.VStr s =>
      if String.eqb s "on" then Some true
      else if String.eqb s "off" then Some false
      else None
  | Py.VNone | Py.VNum _ => None
  end.

(** What the mode option of an AC-Infinity device says about it. *)
Definition select_running (v : Py.value) : option bool :=
  match v with
  | Py.VStr s =>
      if String.eqb s "on" || String.eqb s "On" then Some true
      else if String.eqb s "off" || String.eqb s "Off" then Some false
      else if String.eqb s "Schedule" then Some false
      else None
  | Py.VNone | Py.VNum _ => None
  end.

(** [identifyIfRunningState(self)]: every branch of either loop returns, so
    the first entity looked at decides. *)
Definition identifyIfRunningState (d : Device) : Device :=
  if isAcInfinDev d then
    match find (fun select => negb (Py.startswith (entity_id select) "number.")) (options d) with
    | Some select => set_isRunning (select_running (value select)) d
    | None => d
    end
  else
    match switches d with
    | switch :: _ => set_isRunning (switch_running (value switch)) d
    | [] => d
    end.

(** *** Dimmability: [identifDimmable] *)

Definition allowedDeviceTypes : list string :=
  ["ventilation"; "exhaust"; "intake"; "light"; "lightfarred"; "lightuv"; "lightblue";
   "lightred"; "humdifier"; "dehumidifier"; "heater"; "cooler"; "co2"].

Definition dimmableKeys : list string :=
  ["fan."; "light."; "number."; "_duty"; "_intensity"].

(** [identifDimmable(self)] *)
Definition identifDimmable (d : Device) : Device :=
  if negb (Py.mem (Py.lower (deviceType d)) allowedDeviceTypes) then d
  else if existsb (fun entity => Py.any_in dimmableKeys (Py.lower (entity_id entity)))
            (switches d ++ options d ++ sensors d)%list
  then set_isDimmable true d
  else d.

(** *** State updates: [deviceUpdate] *)

(** [s.split(sep)] for a one-character separator. *)
Fixpoint split (sep : ascii) (s : string) : list string :=
  match s with
  | EmptyString => [EmptyString]
  | String c t =>
      if Ascii.eqb c sep then EmptyString :: split sep t
      else match split sep t with
           | h :: r => String c h :: r
           | [] => [String c EmptyString]
           end
  end.

(** [parts[1].split("_")[0] if len(parts) > 1 else "Unknown"] *)
Definition device_name_of (entity_id : string) : string :=
  match split "." entity_id with
  | _ :: part :: _ => match split "_" part with h :: _ => h | [] => "" end
  | _ => "Unknown"
  end.

(** The nested [update_entity_value]: the first entity with that id takes
    the new value; the boolean says whether there was one. *)
Fixpoint update_entity_value (entity_list : list entity) (id : string)
    (new_value : Py.value) : list entity * bool :=
  match entity_list with
  | [] => ([], false)
  | e :: rest =>
      if String.eqb (entity_id e) id
      then (Entity (entity_id e) new_value (platform e) :: rest, true)
      else let '(rest1, updated) := update_entity_value rest id new_value in
           (e :: rest1, updated)
  end.

(** [deviceUpdate(self, updateData)] with
    [updateData = {"entity_id": id, "newValue": new_value}]. *)
Definition deviceUpdate (d : Device) (id : string) (new_value : Py.value) : Device :=
  if negb (String.eqb (deviceName d) (device_name_of id)) then d
  else if Py.str_in "sensor." id then
    set_sensors (fst (update_entity_value (sensors d) id new_value)) d
  else if Py.any_in ["fan."; "light."; "switch."; "humidifier."] id then
    let '(switches1, updated) := update_entity_value (switches d) id new_value in
    let d1 := set_switches switches1 d in
    if updated then identifyIfRunningState d1 else d1
  else if Py.any_in ["number."; "text."; "time."; "select."; "date."] id then
    set_options (fst (update_entity_value (options d) id new_value)) d
  else if Py.str_in "ogb_" id then
    set_sensors (fst (update_entity_value (sensors d) id new_value)) d
  else d.

(** [getEntitys(self)] *)
Definition getEntitys (d : Device) : list string :=
  map entity_id (sensors d ++ options d ++ switches d ++ ogbsettings d)%list.

(** *** Bounds from the store: [checkMinMax], [userSetMinMax] and the
    global toggle *)

(** The dictionary at [DeviceMinMax.<deviceType>] of the data store; [None]
    in a field is an absent key. *)
Record minmax_sets : Type := MinMaxSets {
  mm_active : option bool;
  mm_minVoltage : option Q;
  mm_maxVoltage : option Q;
  mm_minDuty : option Q;
  mm_maxDuty : option Q
}.

(** [minMaxSets.get("active", False)] *)
Definition sets_active (s : minmax_sets) : bool :=
  match mm_active s with Some b => b | None => false end.

(** [checkMinMax(self, data)], with [sets] the result of [getDeep]. *)
Definition checkMinMax (d : Device) (sets : option minmax_sets) : Device :=
  if negb (isDimmable d) then d
  else
    match sets with
    | None => set_is_minmax_active false d
    | Some s =>
        let d1 := set_is_minmax_active (sets_active s) d in
        let d2 :=
          match mm_minVoltage s, mm_maxVoltage s with
          | Some mn, Some mx => set_maxVoltage (Some mx) (set_minVoltage (Some mn) d1)
          | _, _ => d1
          end in
        let d3 :=
          match mm_minDuty s, mm_maxDuty s with
          | Some mn, Some mx => set_maxDuty (Some mx) (set_minDuty (Some mn) d2)
          | _, _ => d2
          end in
        let d4 :=
          match mm_minVoltage s, mm_maxVoltage s, voltage d3 with
          | Some _, Some _, Some _ => set_voltage (clamp_voltage d3 (voltage d3)) d3
          | _, _, _ => d3
          end in
        match mm_minDuty s, mm_maxDuty s, dutyCycle d4 with
        | Some mn, Some mx, Some dc => set_dutyCycle (Some (Py.max mn (Py.min mx dc))) d4
        | _, _, _ => d4
        end
    end.

(** [changeMinMaxValues(self, newValue)]: the second definition in the
    class body, which is the one in effect.  The outcome record is the one
    of [WorkMode_body]: device, awaited calls, uncaught exception. *)
Definition changeMinMaxValues (d : Device) (newValue : option Q) : workmode_outcome :=
  if isDimmable d then
    if String.eqb (deviceType d) "Light" then
      let clamped_value := clamp_voltage d newValue in
      Outcome (set_voltage clamped_value d) [CallTurnOn (brightness_kw clamped_value)] false
    else
      match minDuty d, maxDuty d, newValue with
      | Some mn, Some mx, Some v =>
          let clamped_value := Py.max mn (Py.min mx v) in
          Outcome (set_dutyCycle (Some clamped_value) d)
            [CallTurnOn (if isSpecialDevice d
                         then brightness_kw (Some clamped_value)
                         else percentage_kw (Some clamped_value))]
            false
      | _, _, _ => Outcome d [] true
      end
  else Outcome d [] false.

(** [userSetMinMax(self, data)] *)
Definition userSetMinMax (d : Device) (sets : option minmax_sets) : workmode_outcome :=
  if sun_phase d then Outcome d [] false
  else if negb (isDimmable d) then Outcome d [] false
  else
    match sets with
    | None => Outcome d [] false
    | Some s =>
        if negb (sets_active s) then Outcome d [] false
        else
          match mm_minVoltage s, mm_maxVoltage s with
          | Some mn, Some mx =>
              let d1 := set_maxVoltage (Some mx) (set_minVoltage (Some mn) d) in
              changeMinMaxValues d1 (clamp_voltage d1 (voltage d1))
          | _, _ =>
              match mm_minDuty s, mm_maxDuty s with
              | Some mn, Some mx =>
                  let d1 := set_maxDuty (Some mx) (set_minDuty (Some mn) d) in
                  changeMinMaxValues d1 (Some (clamp_duty_cycle d1 (dutyCycle d1)))
              | _, _ => Outcome d [] false
              end
          end
    end.

Definition minmax_device_types : list string := ["Light"; "Exhaust"; "Intake"; "Ventilation"].

(** The call [turn_on] gets for a new duty cycle. *)
Definition duty_turn_on (d : Device) (dc : Q) : method_call :=
  CallTurnOn (if isSpecialDevice d then brightness_kw (Some dc) else percentage_kw (Some dc)).

(** [on_minmax_control_enabled(self, data)] *)
Definition on_minmax_control_enabled (d : Device) (sets : option minmax_sets)
  : workmode_outcome :=
  if negb (Py.mem (deviceType d) minmax_device_types) then Outcome d [] false
  else
    match sets with
    | None => Outcome d [] false
    | Some s =>
        if negb (sets_active s) then Outcome d [] false
        else if String.eqb (deviceType d) "Light" then
          match mm_minVoltage s, mm_maxVoltage s with
          | Some mn, Some mx =>
              let d1 := set_maxVoltage (Some mx) (set_minVoltage (Some mn) d) in
              match running d1, voltage d1 with
              | true, Some _ =>
                  let v := clamp_voltage d1 (voltage d1) in
                  Outcome (set_voltage v d1) [CallTurnOn (brightness_kw v)] false
              | _, _ => Outcome d1 [] false
              end
          | _, _ => Outcome d [] false
          end
        else
          match mm_minDuty s, mm_maxDuty s with
          | Some mn, Some mx =>
              let d1 := set_maxDuty (Some mx) (set_minDuty (Some mn) d) in
              match running d1, dutyCycle d1 with
              | true, Some dc =>
                  let v := Py.max mn (Py.min mx dc) in
                  Outcome (set_dutyCycle (Some v) d1) [duty_turn_on d1 v] false
              | _, _ => Outcome d1 [] false
              end
          | _, _ => Outcome d [] false
          end
    end.

(** What [on_minmax_control_disabled] reads besides the device: the store's
    plant stage, the class attribute [PlantStageMinMax] ([None] in the base
    class, a table of [(min, max)] in the Light class), the store's entry
    for the device type and [self.steps] ([None]: no such attribute). *)
Record disable_context : Type := DisableContext {
  dc_plantStage : option string;
  dc_PlantStageMinMax : option (list (string * (Q * Q)));
  dc_sets : option minmax_sets;
  dc_steps : option Q
}.

(** [on_minmax_control_disabled(self, data)] *)
Definition on_minmax_control_disabled (d : Device) (c : disable_context)
  : workmode_outcome :=
  if negb (Py.mem (deviceType d) minmax_device_types) then Outcome d [] false
  else if String.eqb (deviceType d) "Light" then
    let plant_stage :=
      match dc_plantStage c with
      | Some s => if String.eqb s "" then "LateFlower" else s
      | None => "LateFlower"
      end in
    match dc_PlantStageMinMax c with
    | None => Outcome d [] true
    | Some table =>
        let d1 :=
          match find (fun kv => String.eqb (fst kv) plant_stage) table with
          | Some (_, (mn, mx)) => set_maxVoltage (Some mx) (set_minVoltage (Some mn) d)
          | None =>
              set_maxVoltage (Some 100)
                (set_minVoltage (Some (match initVoltage d with Some v => v | None => 20 end)) d)
          end in
        match running d1, voltage d1 with
        | true, Some _ =>
            match initVoltage d1 with
            | Some iv =>
                Outcome (set_voltage (Some iv) d1) [CallTurnOn (brightness_kw (Some iv))] false
            | None => Outcome d1 [] true
            end
        | _, _ => Outcome d1 [] false
        end
    end
  else
    let d1 :=
      match dc_sets c with
      | Some s =>
          if sets_active s then
            set_maxDuty (match mm_maxDuty s with Some v => Some v | None => maxDuty d end)
              (set_minDuty (match mm_minDuty s with Some v => Some v | None => minDuty d end) d)
          else d
      | None => d
      end in
    match running d1, dutyCycle d1 with
    | true, Some _ =>
        match minDuty d1, maxDuty d1, dc_steps c with
        | Some mn, Some mx, Some steps =>
            if Qeq_bool steps 0 then Outcome d1 [] true
            else
              let midpoint := mn + floordiv (floordiv (mx - mn) 2) steps * steps in
              Outcome (set_dutyCycle (Some midpoint) d1) [duty_turn_on d1 midpoint] false
        | _, _, _ => Outcome d1 [] true
        end
    | _, _ => Outcome d1 [] false
    end.

(** *** Vocabulary of the further statements *)

(** The ids of the entities a device acts on. *)
Definition own_entities (d : Device) : list string :=
  map entity_id (switches d ++ options d)%list.

(** The value of the first entity with the given id. *)
Definition value_of (es : list entity) (id : string) : option Py.value :=
  option_map value (find (fun e => String.eqb (entity_id e) id) es).

(** The service call switches something off: a [turn_off], the hvac mode
    ["off"], the option ["Off"] or the value 0. *)
Definition switches_off (c : service_call) : bool :=
  match data c with
  | NoData => String.eqb (service c) "turn_off"
  | DataHvacMode m => String.eqb (service c) "set_hvac_mode" && String.eqb m "off"
  | DataOption o => String.eqb (service c) "select_option" && String.eqb o "Off"
  | DataValue v => String.eqb (service c) "set_value" && Qeq_bool v 0
  | DataBrightnessPct _ | DataPercentage _ => false
  end.

(** *** Example configurations *)

(** A host on which every entity is ["on"] and every call completes. *)
Definition willing_host : HomeAssistant :=
  {| states_get := fun _ => Some "on"; async_call := fun _ => true |}.

(** A plain heater on one switch. *)
Definition heater_on_a_switch : Device :=
  set_switches [Entity "switch.heater" (Py.VStr "off") (Some "tuya")]
    (new_device "heater" "Heater").

(** A ventilation device made of two switched fans. *)
Definition two_fan_ventilation : Device :=
  set_switches [Entity "switch.vent_left" (Py.VStr "off") (Some "tuya");
                Entity "switch.vent_right" (Py.VStr "off") (Some "tuya")]
    (new_device "vent" "Ventilation").

(** A dimmable exhaust fan with window [20, 80], on a [fan.] entity. *)
Definition dimmable_exhaust (running : option bool) : Device :=
  set_isRunning running
    (set_dutyCycle (Some 20)
       (set_maxDuty (Some 80) (set_minDuty (Some 20)
          (set_isDimmable true
             (set_switches [Entity "fan.exhaust" (Py.VStr "off") (Some "tuya")]
                (new_device "exhaust" "Exhaust")))))).


(** An exhaust fan with window [10, 95], before its duty cycle is
    initialised. *)
Definition exhaust_10_95 : Device :=
  set_maxDuty (Some 95) (set_minDuty (Some 10) (new_device "fan" "Exhaust")).

(** An AC-Infinity exhaust fan configured with window [30, 60]. *)
Definition acinfinity_30_60 : Device :=
  set_isAcInfinDev true
    (set_maxDuty (Some 60) (set_minDuty (Some 30) (new_device "fan" "Exhaust"))).

(** A humidifier whose only entity is a duty-cycle number, reading 40. *)
Definition humidifier_with_duty : Device :=
  set_options [Entity "number.humidifier_duty" (Py.VNum 40) (Some "tuya")]
    (new_device "humidifier" "Humidifier").

(** Store entries for a device type: an active duty window [30, 70], and
    the same window left inactive. *)
Definition duty_sets_30_70 : minmax_sets :=
  MinMaxSets (Some true) None None (Some 30) (Some 70).

Definition inactive_duty_sets_30_70 : minmax_sets :=
  MinMaxSets None None None (Some 30) (Some 70).

(** A step of [turn_on] leaves the device alone or marks it running, and
    reaches the host only for the entity at hand or one of the options. *)
Definition on_step (d : Device) (ids : list string)
    (d' : Device) (tr : list service_call) : Prop :=
  (d' = d \/ d' = set_isRunning (Some true) d) /\
  Forall (fun c => In (target c) ids \/
                   In (target c) (map entity_id (options d))) tr.

(** A step of [turn_off] leaves the device alone, marks it stopped or, for
    a dimmable light, also zeroes the voltage; it reaches the host only for
    the entities at hand, and only to switch them off. *)
Definition off_step (d : Device) (ids : list string)
    (d' : Device) (tr : list service_call) : Prop :=
  (exists r v, d' = set_voltage v (set_isRunning r d) /\
               (r = isRunning d \/ r = Some false) /\
               (v = voltage d \/ v = Some 0)) /\
  Forall (fun c => In (target c) ids /\ switches_off c = true) tr.

(** A host on which every entity is ["unavailable"]. *)
Definition offline_host : HomeAssistant :=
  {| states_get := fun _ => Some "unavailable"; async_call := fun _ => true |}.

(** A special, dimmable exhaust fan on a [light.] entity, idle, with
    window [20, 80]. *)
Definition special_exhaust : Device :=
  set_isSpecialDevice true
    (set_dutyCycle (Some 50)
       (set_maxDuty (Some 80) (set_minDuty (Some 20)
          (set_isDimmable true
             (set_switches [Entity "light.exhaust" (Py.VStr "off") (Some "tuya")]
                (new_device "exhaust" "Exhaust")))))).

(** A clock whose readings are a second apart, starting at 100 s. *)
Definition fast_clock (n : nat) : Q := inject_Z (100 + Z.of_nat n).

End Dev.

(** ** [UltraInstinctManager.py] *)

Module UI.

Local Open Scope Q_scope.

(** The dictionary returned by [_get_sensor_data]; every key is present,
    its value may be [None]. *)
Record sensor_data : Type := SensorData {
  temperature : option Q;
  humidity : option Q;
  vpd : option Q;
  co2 : option Q;
  light_intensity : option Q;
  tent_temp : option Q;
  tent_hum : option Q;
  ambient_temp : option Q;
  ambient_hum : option Q;
  outside_temp : option Q;
  outside_hum : option Q
}.

(** One entry of [self.sensor_history]: [{"timestamp": ..., **sensor_data}];
    the timestamp in seconds. *)
Record history_entry : Type := Entry {
  timestamp : Q;
  readings : sensor_data
}.

(** The dictionary returned by [_calculate_gradients]. *)
Record gradients : Type := Gradients {
  outside_to_ambient_temp : Q;
  outside_to_ambient_hum : Q;
  ambient_to_tent_temp : Q;
  ambient_to_tent_hum : Q;
  temp_trend : Q;
  hum_trend : Q
}.

(** [_update_sensor_history(self, sensor_data)], with [now] the reading of
    [datetime.now()]. *)
Definition _update_sensor_history (gradient_history_size : nat) (now : Q)
    (history : list history_entry) (sd : sensor_data) : list history_entry :=
  let history1 := (history ++ [Entry now sd])%list in
  if (gradient_history_size <? List.length history1)%nat then tl history1 else history1.

(** [(a - b).total_seconds() / 3600] *)
Definition hours_between (later earlier : history_entry) : Q :=
  (timestamp later - timestamp earlier) / 3600.

(** [diff / time_delta_hours if time_delta_hours > 0 else 0], guarded by
    both readings being present. *)
Definition layer_gradient (from to : option Q) (time_delta_hours : Q) : Q :=
  match from, to with
  | Some a, Some b => if Py.Qltb 0 time_delta_hours then (a - b) / time_delta_hours else 0
  | _, _ => 0
  end.

(** [range(n - 1, max(0, n - 4), -1)] *)
Definition trend_indices (n : nat) : list nat :=
  let stop := Nat.max 0 (n - 4) in
  rev (seq (S stop) (n - 1 - stop)).

(** The rates appended to [temp_changes] (or [hum_changes]) by the trend
    loop. *)
Definition trend_changes (field : sensor_data -> option Q)
    (history : list history_entry) : list Q :=
  flat_map
    (fun i =>
       match (i, history !! i, history !! (i - 1)%nat) with
       | (S _, Some curr, Some prev) =>
           let dt := hours_between curr prev in
           if Py.Qltb 0 dt then
             match field (readings curr), field (readings prev) with
             | Some c, Some p =>
                 if Py.truthy (Some c) && Py.truthy (Some p) then [(c - p) / dt] else []
             | _, _ => []
             end
           else []
       | _ => []
       end)
    (trend_indices (List.length history)).

Definition sum (l : list Q) : Q := fold_left Qplus l 0.

(** [sum(xs) / len(xs) if xs else 0] *)
Definition average (l : list Q) : Q :=
  match l with
  | [] => 0
  | _ => sum l / inject_Z (Z.of_nat (List.length l))
  end.

Definition zero_gradients : gradients := Gradients 0 0 0 0 0 0.

(** [_calculate_gradients(self)] *)
Definition _calculate_gradients (history : list history_entry) : gradients :=
  match history with
  | oldest :: (_ :: _) as rest =>
      let latest := List.last rest oldest in
      let time_delta_hours :=
        let h := hours_between latest oldest in
        if Qeq_bool h 0 then 1 # 2 else h in
      let r := readings latest in
      {| outside_to_ambient_temp :=
           layer_gradient (outside_temp r) (ambient_temp r) time_delta_hours;
         outside_to_ambient_hum :=
           layer_gradient (outside_hum r) (ambient_hum r) time_delta_hours;
         ambient_to_tent_temp :=
           layer_gradient (ambient_temp r) (tent_temp r) time_delta_hours;
         ambient_to_tent_hum :=
           layer_gradient (ambient_hum r) (tent_hum r) time_delta_hours;
         temp_trend :=
           if (3 <=? List.length history)%nat
           then average (trend_changes tent_temp history) else 0;
         hum_trend :=
           if (3 <=? List.length history)%nat
           then average (trend_changes tent_hum history) else 0 |}
  | _ => zero_gradients
  end.

(** The tunable parameters of the manager. *)
Record parameters : Type := Parameters {
  prediction_window_minutes : Q;
  gradient_history_size : nat;
  outside_ambient_inertia : Q;
  ambient_tent_inertia : Q
}.

Definition default_parameters : parameters := Parameters 5 20 (7 # 10) (1 # 2).

(** The dictionary returned by [_calculate_predictive_factors]. *)
Record predictive_factors : Type := Predictive {
  temp_predicted_change : Q;
  hum_predicted_change : Q;
  exhaust_pre_adjust : Q
}.

(** [a or b] on optional numbers. *)
Definition or_else (a b : option Q) : option Q := if Py.truthy a then a else b.

(** [_calculate_predictive_factors(self, sensor_data, gradients)] *)
Definition _calculate_predictive_factors (p : parameters) (sd : sensor_data)
    (g : gradients) : predictive_factors :=
  let window_hours := prediction_window_minutes p / 60 in
  let tent_temp := or_else (tent_temp sd) (temperature sd) in
  let tent_hum := or_else (tent_hum sd) (humidity sd) in
  let '(temp_factor, exhaust_factor) :=
    match outside_temp sd, ambient_temp sd, tent_temp with
    | Some _, Some ambient_temp, Some tent_temp =>
        let outside_influence := outside_to_ambient_temp g * outside_ambient_inertia p in
        let predicted_ambient_temp := ambient_temp + outside_influence * window_hours in
        let temp_change_from_ambient := (predicted_ambient_temp - ambient_temp) * (3 # 10) in
        let temp_change_from_trend := temp_trend g * window_hours in
        let predicted_tent_temp :=
          tent_temp + temp_change_from_ambient + temp_change_from_trend in
        let temp_factor := predicted_tent_temp - tent_temp in
        (temp_factor,
         if Py.Qltb (1 # 2) temp_factor then Py.min 15 (temp_factor * 5)
         else if Py.Qltb temp_factor (- (1 # 2)) then Py.max (-10) (temp_factor * 3)
         else 0)
    | _, _, _ => (0, 0)
    end in
  let hum_factor :=
    match outside_hum sd, ambient_hum sd, tent_hum with
    | Some _, Some ambient_hum, Some tent_hum =>
        let outside_influence_hum := outside_to_ambient_hum g * outside_ambient_inertia p in
        let predicted_ambient_hum := ambient_hum + outside_influence_hum * window_hours in
        let hum_change_from_ambient := (predicted_ambient_hum - ambient_hum) * (4 # 10) in
        let hum_change_from_trend := hum_trend g * window_hours in
        let predicted_tent_hum := tent_hum + hum_change_from_ambient + hum_change_from_trend in
        predicted_tent_hum - tent_hum
    | _, _, _ => 0
    end in
  Predictive temp_factor hum_factor exhaust_factor.

(** One entry of [plantStages]; [None] is an absent key. *)
Record stage_data : Type := Stage {
  minTemp : option Q;
  maxTemp : option Q;
  optimalHumidity : option Q
}.

(** The keys of the data store that the manager reads. *)
Record data_store : Type := DataStore {
  plantStage : option string;
  vpd_perfection : option Q;
  vpd_perfectMin : option Q;
  vpd_perfectMax : option Q;
  plantStages : list (string * stage_data)
}.

Definition normalize (s : string) : string :=
  Py.remove_char "-" (Py.remove_char " " s).

(** [_get_plant_stage_data(self, plant_stage)] *)
Definition _get_plant_stage_data (ds : data_store) (plant_stage : string)
  : option stage_data :=
  if String.eqb plant_stage "" then None
  else
    match find (fun kv => String.eqb (fst kv) plant_stage) (plantStages ds) with
    | Some kv => Some (snd kv)
    | None =>
        match find (fun kv => String.eqb (normalize (fst kv)) (normalize plant_stage))
                   (plantStages ds) with
        | Some kv => Some (snd kv)
        | None => None
        end
    end.

Definition lookup_default (table : list (string * Q)) (key : string) (default : Q) : Q :=
  match find (fun kv => String.eqb (fst kv) key) table with
  | Some kv => snd kv
  | None => default
  end.

Definition stage_exhaust : list (string * Q) :=
  [ ("Germination", 15); ("Clones", 20); ("EarlyVeg", 30); ("MidVeg", 45);
    ("LateVeg", 55); ("EarlyFlower", 60); ("MidFlower", 70); ("LateFlower", 75) ].

(** [_calculate_base_exhaust_speed(...)]; [None] is the [TypeError] of
    comparing a missing VPD reading. *)
Definition _calculate_base_exhaust_speed (plant_stage : string) (sd : sensor_data)
    (current_vpd : option Q) (target_vpd max_vpd : Q) : option Q :=
  match current_vpd with
  | None => None
  | Some current_vpd =>
      let base := lookup_default stage_exhaust plant_stage 55 in
      let base :=
        if Py.Qltb (max_vpd + (2 # 10)) current_vpd then base + 15
        else if Py.Qltb current_vpd (target_vpd - (3 # 10)) then base - 10
        else if Py.Qltb (target_vpd + (1 # 10)) current_vpd then base + 5
        else base in
      let base :=
        match ambient_temp sd with
        | Some ambient_temp =>
            if Py.Qltb 28 ambient_temp then base + 5
            else if Py.Qltb ambient_temp 15 then base - 5
            else base
        | None => base
        end in
      Some (Py.max 10 (Py.min 100 base))
  end.

Definition stage_light : list (string * Q) :=
  [ ("Germination", 25); ("Clones", 35); ("EarlyVeg", 50); ("MidVeg", 65);
    ("LateVeg", 80); ("EarlyFlower", 85); ("MidFlower", 95); ("LateFlower", 95) ].

(** [_calculate_base_light_intensity(self, plant_stage)] *)
Definition _calculate_base_light_intensity (plant_stage : string) : Q :=
  lookup_default stage_light plant_stage 80.

(** [self.targets]; the keys the manager never assigns stay [None]. *)
Record targets : Type := Targets {
  tg_light_intensity : option Q;
  tg_exhaust_speed : option Q;
  tg_intake_speed : option Q;
  tg_temperature_target : option Q;
  tg_humidity_target : option Q
}.

Definition initial_targets : targets := Targets None None None None None.

(** [self.data_store.get("plantStage") or "LateVeg"] *)
Definition current_plant_stage (ds : data_store) : string :=
  match plantStage ds with
  | Some s => if String.eqb s "" then "LateVeg" else s
  | None => "LateVeg"
  end.

Definition get_default (x : option Q) (default : Q) : Q :=
  match x with Some v => v | None => default end.

(** [temp_min, temp_max, hum_optimal] as [_calculate_targets] reads them. *)
Definition stage_ranges (ds : data_store) : Q * Q * Q :=
  match _get_plant_stage_data ds (current_plant_stage ds) with
  | Some stage =>
      (get_default (minTemp stage) 20, get_default (maxTemp stage) 30,
       get_default (optimalHumidity stage) 60)
  | None => (20, 30, 60)
  end.

(** The midpoint target, the predictive adjustment and the safety clamp
    of [_calculate_targets]: [(adjusted_target_temp, adjusted_target_hum)]. *)
Definition adjusted_targets (temp_min temp_max hum_optimal : Q)
    (predictive : predictive_factors) : Q * Q :=
  let target_temp := (temp_min + temp_max) / 2 in
  let predictive_temp_adjustment := temp_predicted_change predictive * (7 # 10) in
  let predictive_hum_adjustment := hum_predicted_change predictive * (6 # 10) in
  let adjusted_target_temp := target_temp - predictive_temp_adjustment in
  let adjusted_target_hum := hum_optimal - predictive_hum_adjustment in
  (Py.max temp_min (Py.min temp_max adjusted_target_temp),
   Py.max 40 (Py.min 85 adjusted_target_hum)).

(** [_calculate_targets(self, sensor_data)]: the new [self.targets], or
    [None] when the method raises. *)
Definition _calculate_targets (p : parameters) (ds : data_store)
    (history : list history_entry) (sd : sensor_data) : option targets :=
  let gradients := _calculate_gradients history in
  let predictive := _calculate_predictive_factors p sd gradients in
  let plant_stage := current_plant_stage ds in
  let target_vpd := Py.or_num (vpd_perfection ds) 1 in
  let max_vpd := Py.or_num (vpd_perfectMax ds) (12 # 10) in
  let '(temp_min, temp_max, hum_optimal) := stage_ranges ds in
  let '(adjusted_target_temp, adjusted_target_hum) :=
    adjusted_targets temp_min temp_max hum_optimal predictive in
  match _calculate_base_exhaust_speed plant_stage sd (vpd sd) target_vpd max_vpd with
  | None => None
  | Some base_exhaust =>
      let target_exhaust :=
        Py.max 10 (Py.min 100 (base_exhaust + exhaust_pre_adjust predictive)) in
      let target_intake := target_exhaust * (85 # 100) in
      let base_light := _calculate_base_light_intensity plant_stage in
      let target_light :=
        if Py.Qltb 1 (temp_predicted_change predictive)
        then base_light - Py.min 20 (temp_predicted_change predictive * 8)
        else base_light in
      let target_light := Py.max 0 (Py.min 100 target_light) in
      Some {| tg_light_intensity := Some (Py.round1 target_light);
              tg_exhaust_speed := Some (Py.round1 target_exhaust);
              tg_intake_speed := Some (Py.round1 target_intake);
              tg_temperature_target := Some (Py.round1 adjusted_target_temp);
              tg_humidity_target := Some (Py.round1 adjusted_target_hum) |}
  end.

(** A managed device: the [Device] object, and whether its class defines
    [set_duty_cycle] (the base class does not). *)
Record managed : Type := Managed {
  obj : Dev.Device;
  has_set_duty_cycle : bool
}.

(** A method awaited on one of [self.devices]. *)
Inductive command : Type :=
| TurnOn (device : string) (kw : Dev.kwargs)
| TurnOff (device : string)
| SetDutyCycle (device : string) (speed : Q).

(** [self.devices[key]] / [key in self.devices] *)
Definition device (devices : list (string * managed)) (key : string) : option managed :=
  option_map snd (find (fun kv => String.eqb (fst kv) key) devices).

Definition present (devices : list (string * managed)) (key : string) : bool :=
  bool_decide (device devices key <> None).

(** A block of [_execute_direct_control]: the commands it awaits, or
    [None] when it raises before awaiting any. *)
Definition control_light (devices : list (string * managed)) (tg : targets)
  : option (list command) :=
  match device devices "light", tg_light_intensity tg with
  | Some light, Some _ =>
      let target_intensity := Py.or_num (tg_light_intensity tg) 0 in
      match Dev.voltage (obj light) with
      | None => None
      | Some current_intensity =>
          if Py.Qltb 5 (Qabs (current_intensity - target_intensity))
          then Some [TurnOn "light" (Dev.brightness_kw (Some target_intensity))]
          else Some []
      end
  | _, _ => Some []
  end.

Definition control_fan (key : string) (devices : list (string * managed))
    (target : option Q) : option (list command) :=
  match device devices key, target with
  | Some fan, Some _ =>
      let target_speed := Py.or_num target 0 in
      match Dev.dutyCycle (obj fan) with
      | None => None
      | Some current_speed =>
          if Py.Qltb 5 (Qabs (current_speed - target_speed))
          then Some (if has_set_duty_cycle fan then [SetDutyCycle key target_speed] else [])
          else Some []
      end
  | _, _ => Some []
  end.

Definition when (b : bool) (cs : list command) : list command := if b then cs else [].

(** The humidifier / dehumidifier block. *)
Definition control_humidity (devices : list (string * managed))
    (current_hum target_hum : option Q) : option (list command) :=
  match current_hum, target_hum with
  | Some current_hum, Some target_hum =>
      let hum_diff := current_hum - target_hum in
      if Py.Qltb hum_diff (-5) then
        Some (when (present devices "humidifier") [TurnOn "humidifier" Dev.no_kwargs]
              ++ when (present devices "dehumidifier") [TurnOff "dehumidifier"])%list
      else if Py.Qltb 5 hum_diff then
        Some (when (present devices "dehumidifier") [TurnOn "dehumidifier" Dev.no_kwargs]
              ++ when (present devices "humidifier") [TurnOff "humidifier"])%list
      else Some []
  | _, _ => None
  end.

(** The heater block. *)
Definition control_heater (devices : list (string * managed))
    (current_temp target_temp : option Q) : option (list command) :=
  if present devices "heater" then
    match current_temp, target_temp with
    | Some current_temp, Some target_temp =>
        let temp_diff := target_temp - current_temp in
        if Py.Qltb 3 temp_diff then Some [TurnOn "heater" Dev.no_kwargs]
        else if Py.Qltb temp_diff (-1) then Some [TurnOff "heater"]
        else Some []
    | _, _ => None
    end
  else Some [].

(** Run the blocks in order; a block that raises ends the method, the
    commands of the earlier blocks having been awaited. *)
Fixpoint sequence (blocks : list (option (list command))) : list command * bool :=
  match blocks with
  | [] => ([], false)
  | None :: _ => ([], true)
  | Some cs :: rest =>
      let '(cs2, raised) := sequence rest in ((cs ++ cs2)%list, raised)
  end.

(** [_execute_direct_control(self, sensor_data)]: the commands awaited, in
    order, and whether the method raised. *)
Definition _execute_direct_control (devices : list (string * managed)) (tg : targets)
    (sd : sensor_data) : list command * bool :=
  let current_temp := or_else (tent_temp sd) (temperature sd) in
  let current_hum := or_else (tent_hum sd) (humidity sd) in
  let target_temp := tg_temperature_target tg in
  let target_hum := tg_humidity_target tg in
  sequence
    [ control_light devices tg;
      control_fan "exhaust" devices (tg_exhaust_speed tg);
      control_fan "intake" devices (tg_intake_speed tg);
      control_humidity devices current_hum target_hum;
      control_heater devices current_temp target_temp ].

(** [emergency_stop(self)]: every device is turned off in dictionary
    order, then the loop is stopped ([control_active = False]).  Returns
    the devices afterwards, the service calls that reached the host, and
    the new [control_active]. *)
Fixpoint turn_off_all (hass : option Dev.HomeAssistant) (devices : list (string * managed))
  : list (string * managed) * list Dev.service_call :=
  match devices with
  | [] => ([], [])
  | (name, dev) :: rest =>
      let '(d1, tr) := Dev.turn_off hass (obj dev) in
      let '(rest1, tr2) := turn_off_all hass rest in
      ((name, Managed d1 (has_set_duty_cycle dev)) :: rest1, (tr ++ tr2)%list)
  end.

Definition emergency_stop (hass : option Dev.HomeAssistant)
    (devices : list (string * managed))
  : list (string * managed) * list Dev.service_call * bool :=
  let '(devices1, tr) := turn_off_all hass devices in
  (devices1, tr, false).

(** *** Learning and the control cycle *)

(** The state of the manager that a control cycle reads and writes; of an
    entry of [learning_data["control_history"]] only the gradients are ever
    read back. *)
Record manager_state : Type := ManagerState {
  ms_parameters : parameters;
  ms_sensor_history : list history_entry;
  ms_targets : targets;
  ms_control_history : list gradients
}.

Definition with_inertia (x : Q) (p : parameters) : parameters :=
  {| prediction_window_minutes := prediction_window_minutes p;
     gradient_history_size := gradient_history_size p;
     outside_ambient_inertia := outside_ambient_inertia p;
     ambient_tent_inertia := x |}.

(** The entries [range(len - 10, len)] with [i >= 0]. *)
Definition recent (control_history : list gradients) : list gradients :=
  skipn (List.length control_history - 10) control_history.

(** The inertia walk of [_learn_from_cycle]. *)
Definition learned_inertia (recent_gradients : list gradients) (inertia : Q) : Q :=
  match recent_gradients with
  | [] => inertia
  | _ =>
      let avg_temp_gradient := average (map ambient_to_tent_temp recent_gradients) in
      if Py.Qltb 2 avg_temp_gradient then Py.min (8 # 10) (inertia + (5 # 100))
      else if Py.Qltb avg_temp_gradient (1 # 2) then Py.max (3 # 10) (inertia - (5 # 100))
      else inertia
  end.

(** [_learn_from_cycle(self, sensor_data)] *)
Definition _learn_from_cycle (s : manager_state) : manager_state :=
  let gradients := _calculate_gradients (ms_sensor_history s) in
  let history1 := (ms_control_history s ++ [gradients])%list in
  let history2 := if (100 <? List.length history1)%nat then tl history1 else history1 in
  let p := ms_parameters s in
  let p1 :=
    if (10 <=? List.length (ms_sensor_history s))%nat
    then with_inertia (learned_inertia (recent history2) (ambient_tent_inertia p)) p
    else p in
  {| ms_parameters := p1;
     ms_sensor_history := ms_sensor_history s;
     ms_targets := ms_targets s;
     ms_control_history := history2 |}.

(** [_execute_control_cycle(self)], with [now] the reading of the clock and
    [sd] the snapshot [_get_sensor_data] returns (a dictionary of eleven
    keys, never empty).  Returns the state afterwards, the commands awaited
    and whether the cycle raised. *)
Definition _execute_control_cycle (ds : data_store) (devices : list (string * managed))
    (adaptive_learning : bool) (now : Q) (sd : sensor_data) (s : manager_state)
  : manager_state * list command * bool :=
  let p := ms_parameters s in
  let history := _update_sensor_history (gradient_history_size p) now (ms_sensor_history s) sd in
  let s1 := {| ms_parameters := p; ms_sensor_history := history;
               ms_targets := ms_targets s; ms_control_history := ms_control_history s |} in
  match _calculate_targets p ds history sd with
  | None => (s1, [], true)
  | Some tg =>
      let s2 := {| ms_parameters := p; ms_sensor_history := history;
                   ms_targets := tg; ms_control_history := ms_control_history s |} in
      let '(cmds, raised) := _execute_direct_control devices tg sd in
      if raised then (s2, cmds, true)
      else ((if adaptive_learning then _learn_from_cycle s2 else s2), cmds, false)
  end.

(** What an iteration of the control loop finds: the clock reading, the
    sensor snapshot, the data store and the device objects as they are
    then. *)
Record cycle_env : Type := CycleEnv {
  env_now : Q;
  env_sensor_data : sensor_data;
  env_store : data_store;
  env_devices : list (string * managed)
}.

(** The first iterations of [_control_loop(self)], one per environment: a
    cycle that raises is logged by the loop, which goes on.  Returns the
    state afterwards and, per iteration, the commands awaited and whether
    the cycle raised. *)
Fixpoint _control_loop (adaptive_learning : bool) (envs : list cycle_env)
    (s : manager_state) : manager_state * list (list command * bool) :=
  match envs with
  | [] => (s, [])
  | e :: rest =>
      let '(s1, cmds, raised) :=
        _execute_control_cycle (env_store e) (env_devices e) adaptive_learning
          (env_now e) (env_sensor_data e) s in
      let '(s2, log) := _control_loop adaptive_learning rest s1 in
      (s2, (cmds, raised) :: log)
  end.


(** *** Vocabulary of the statements *)

(** The device a command is awaited on. *)
Definition command_device (c : command) : string :=
  match c with
  | TurnOn device _ | TurnOff device | SetDutyCycle device _ => device
  end.




(** *** Example configurations *)

(** Two samples an hour apart; outside warms from 10 to 20, the room from 5
    to 18, the tent from 4 to 17. *)
Definition warming_start : history_entry :=
  Entry 0 (SensorData (Some 4) (Some 45) (Some 1) None None (Some 4) (Some 45)
             (Some 5) (Some 40) (Some 10) (Some 50)).

Definition warming_end : history_entry :=
  Entry 3600 (SensorData (Some 17) (Some 50) (Some 1) None None (Some 17) (Some 50)
                (Some 18) (Some 44) (Some 20) (Some 60)).

Definition an_hour_of_warming : list history_entry := [warming_start; warming_end].

(** A tent with a humidifier and a dehumidifier, both plain switches. *)
Definition humidity_devices : list (string * managed) :=
  [ ("humidifier",
     Managed (Dev.set_switches [Dev.Entity "switch.humidifier" (Py.VStr "off") (Some "tuya")]
                (Dev.new_device "humidifier" "Humidifier")) false);
    ("dehumidifier",
     Managed (Dev.set_switches [Dev.Entity "switch.dehumidifier" (Py.VStr "off") (Some "tuya")]
                (Dev.new_device "dehumidifier" "Dehumidifier")) false) ].

(** Readings with the tent at the given humidity. *)
Definition tent_at_humidity (h : Q) : sensor_data :=
  SensorData (Some 24) (Some h) (Some 1) None None (Some 24) (Some h)
    (Some 22) (Some 50) (Some 18) (Some 55).



(** The store with the default plant stages' temperature ranges (none of
    them has ["optimalHumidity"]) and the stage left at its default. *)
Definition default_store : data_store :=
  {| plantStage := None;
     vpd_perfection := None; vpd_perfectMin := None; vpd_perfectMax := None;
     plantStages :=
       [ ("Germination", Stage (Some 20) (Some 24) None);
         ("Clones", Stage (Some 20) (Some 24) None);
         ("EarlyVeg", Stage (Some 22) (Some 26) None);
         ("MidVeg", Stage (Some 23) (Some 27) None);
         ("LateVeg", Stage (Some 24) (Some 27) None);
         ("EarlyFlower", Stage (Some 22) (Some 26) None);
         ("MidFlower", Stage (Some 21) (Some 25) None);
         ("LateFlower", Stage (Some 19) (Some 24) None) ] |}.


(** The command addresses the heater. *)
Definition about_heater (c : command) : bool := String.eqb (command_device c) "heater".

(** Two manager states agree on everything a control cycle reads to
    decide: the sensor history, the targets, and every parameter but the
    inertia that learning adjusts. *)
Definition agree_up_to_learning (s s' : manager_state) : Prop :=
  ms_sensor_history s = ms_sensor_history s' /\
  ms_targets s = ms_targets s' /\
  prediction_window_minutes (ms_parameters s) = prediction_window_minutes (ms_parameters s') /\
  gradient_history_size (ms_parameters s) = gradient_history_size (ms_parameters s') /\
  outside_ambient_inertia (ms_parameters s) = outside_ambient_inertia (ms_parameters s').

(** A manager before its first cycle. *)
Definition initial_state : manager_state :=
  ManagerState default_parameters [] initial_targets [].

(** A tent with a dimmable light whose voltage was never read, a heater
    and a humidifier. *)
Definition light_without_voltage : list (string * managed) :=
  [ ("light",
     Managed (Dev.set_isDimmable true
                (Dev.set_switches [Dev.Entity "light.main" (Py.VStr "on") (Some "tuya")]
                   (Dev.new_device "light" "Light"))) false);
    ("heater", Managed Dev.heater_on_a_switch false);
    ("humidifier",
     Managed (Dev.set_switches [Dev.Entity "switch.humidifier" (Py.VStr "off") (Some "tuya")]
                (Dev.new_device "humidifier" "Humidifier")) false) ].

(** A tent with a heater only. *)
Definition heater_only : list (string * managed) :=
  [ ("heater", Managed Dev.heater_on_a_switch false) ].

(** Targets with the given temperature and humidity targets only. *)
Definition climate_targets_only (t h : Q) : targets :=
  Targets None None None (Some t) (Some h).

(** Readings without a VPD value. *)
Definition without_vpd : sensor_data :=
  SensorData (Some 24) (Some 50) None None None (Some 24) (Some 50)
    (Some 22) (Some 50) (Some 18) (Some 55).

(** The targets of a first cycle on the default store, with the tent at
    50 % humidity. *)
Definition first_cycle_targets : targets :=
  match _calculate_targets default_parameters default_store
          (_update_sensor_history 20 0 [] (tent_at_humidity 50)) (tent_at_humidity 50) with
  | Some tg => tg
  | None => initial_targets
  end.

End UI.

(** ** [OGBDeviceManager.py]: the capability registry *)

Module Mgr.

(** [list(dict.fromkeys(l))]: the first occurrence of every name, in
    order. *)
Fixpoint unique_from (seen l : list string) : list string :=
  match l with
  | [] => []
  | x :: rest =>
      if Py.mem x seen then unique_from seen rest
      else x :: unique_from (x :: seen) rest
  end.

Definition unique (l : list string) : list string := unique_from [] l.

(** One iteration of the loop of [deduplicateCapabilities]. *)
Definition deduplicate_entry (cap_data : Dev.capability) : Dev.capability :=
  match Dev.devEntities cap_data with
  | [] => cap_data
  | dev_entities =>
      let unique_entities := unique dev_entities in
      if negb (List.length unique_entities =? List.length dev_entities)%nat then
        {| Dev.state := (0 <? List.length unique_entities)%nat;
           Dev.count := Z.of_nat (List.length unique_entities);
           Dev.devEntities := unique_entities |}
      else cap_data
  end.

(** [deduplicateCapabilities(self)], as a function of the store's
    ["capabilities"] entry: every entry is treated on its own. *)
Definition deduplicateCapabilities (caps : gmap string Dev.capability)
  : gmap string Dev.capability :=
  deduplicate_entry <$> caps.

(** [l.remove(x)]: without the first occurrence of [x]. *)
Fixpoint remove_first (x : string) (l : list string) : list string :=
  match l with
  | [] => []
  | y :: rest => if String.eqb y x then rest else y :: remove_first x rest
  end.

(** What [removeDevice] leaves of an entry that lists the device. *)
Definition unregister_entry (name : string) (currentCap : Dev.capability)
  : Dev.capability :=
  let count := Z.max 0 (Dev.count currentCap - 1) in
  {| Dev.state := (0 <? count)%Z;
     Dev.count := count;
     Dev.devEntities := remove_first name (Dev.devEntities currentCap) |}.

(** One iteration of the capability loop of [removeDevice]. *)
Definition unregister_capability (d : Dev.Device) (caps : gmap string Dev.capability)
    (item : string * list string) : gmap string Dev.capability :=
  let '(cap, deviceTypes) := item in
  if Py.mem (Py.lower (Dev.deviceType d)) (map Py.lower deviceTypes) then
    match Dev.getDeep_capability caps cap with
    | Some currentCap =>
        if Py.mem (Dev.deviceName d) (Dev.devEntities currentCap)
        then Dev.setDeep_capability caps cap (unregister_entry (Dev.deviceName d) currentCap)
        else caps
    | None => caps
    end
  else caps.

(** The capability part of [removeDevice(self, deviceName)], for the device
    it found under that name. *)
Definition remove_capabilities (d : Dev.Device) (caps : gmap string Dev.capability)
  : gmap string Dev.capability :=
  fold_left (unregister_capability d) Dev.capMapping caps.

(** The flag of every entry says whether its count is positive. *)
Definition state_consistent (caps : gmap string Dev.capability) : Prop :=
  forall cap entry, caps !! cap = Some entry -> Dev.state entry = (0 <? Dev.count entry)%Z.

(** A registry in which one heater is listed twice with a count of two, as
    a repeated registration without the duplicate check would leave it. *)
Definition doubled_heater : gmap string Dev.capability :=
  <["canHeat" := Dev.Capability true 2 ["heater1"; "heater1"]]> Dev.fresh_capabilities.

(** A registry with one heater. *)
Definition one_heater : gmap string Dev.capability :=
  <["canHeat" := Dev.Capability true 1 ["heater1"]]> Dev.fresh_capabilities.

End Mgr.

(* ===================================================================== *)
(** * Part II: properties                                                 *)
(* ===================================================================== *)

(** Case analysis on an innermost scrutinee of the goal. *)
Ltac break_match :=
  match goal with
  | |- context [match ?x with _ => _ end] =>
      lazymatch x with
      | context [match _ with _ => _ end] => fail
      | _ => destruct x eqn:?
      end
  end.

(** ** Arithmetic of the embedded built-ins *)

Section PyFacts.

Local Open Scope Q_scope.

Lemma Qeq_le (x y : Q) : x == y -> x <= y.
Proof. intros E. rewrite E. apply Qle_refl. Qed.

Lemma Qltb_true (a b : Q) : Py.Qltb a b = true <-> a < b.
Proof.
  unfold Py.Qltb. rewrite negb_true_iff.
  split; intros H.
  - apply Qnot_le_lt. intros Hle. apply Qle_bool_iff in Hle. congruence.
  - destruct (Qle_bool b a) eqn:E; [|reflexivity].
    apply Qle_bool_iff in E. exfalso. exact (Qlt_not_le _ _ H E).
Qed.

Lemma Qltb_false (a b : Q) : Py.Qltb a b = false <-> b <= a.
Proof.
  unfold Py.Qltb. rewrite negb_false_iff. apply Qle_bool_iff.
Qed.

Lemma max_cases (a b : Q) :
  (a < b /\ Py.max a b = b) \/ (b <= a /\ Py.max a b = a).
Proof.
  unfold Py.max. destruct (Py.Qltb a b) eqn:E.
  - left. split; [now apply Qltb_true | reflexivity].
  - right. split; [now apply Qltb_false | reflexivity].
Qed.

Lemma min_cases (a b : Q) :
  (b < a /\ Py.min a b = b) \/ (a <= b /\ Py.min a b = a).
Proof.
  unfold Py.min. destruct (Py.Qltb b a) eqn:E.
  - left. split; [now apply Qltb_true | reflexivity].
  - right. split; [now apply Qltb_false | reflexivity].
Qed.

(** [max(lo, min(hi, v))] lands in [[lo, hi]]. *)
Lemma clamp_in_range (lo hi v : Q) :
  lo <= hi -> lo <= Py.max lo (Py.min hi v) <= hi.
Proof.
  intros Hb.
  destruct (min_cases hi v) as [[Hlt Hm] | [Hle Hm]]; rewrite Hm;
    destruct (max_cases lo v) as [[Hlt' Hx] | [Hle' Hx]];
    destruct (max_cases lo hi) as [[Hlt'' Hy] | [Hle'' Hy]];
    rewrite ?Hx, ?Hy; split;
    auto using Qle_refl, Qlt_le_weak.
Qed.

(** ... and is the identity (up to numeric equality) inside it. *)
Lemma clamp_fixes_range (lo hi v : Q) :
  lo <= v <= hi -> Py.max lo (Py.min hi v) == v.
Proof.
  intros [Hlo Hhi].
  destruct (min_cases hi v) as [[Hlt Hm] | [Hle Hm]]; rewrite Hm.
  - destruct (max_cases lo v) as [[_ Hx] | [Hle' Hx]]; rewrite Hx;
      [reflexivity | now apply Qle_antisym].
  - assert (Hv : v == hi) by now apply Qle_antisym.
    destruct (max_cases lo hi) as [[_ Hx] | [Hle' Hx]]; rewrite Hx.
    + now symmetry.
    + apply Qle_antisym; [assumption | now rewrite Hv].
Qed.



Lemma Z_le_Qfloor (x : Q) (z : Z) : inject_Z z <= x -> (z <= Qfloor x)%Z.
Proof.
  intros H. rewrite <- (Qfloor_Z z). now apply Qfloor_resp_le.
Qed.






End PyFacts.

(** ** Bounds enforcer *)

Section Clamp.

Local Open Scope Q_scope.











End Clamp.

(** ** Feedback ingestion *)

Section Feedback.

Local Open Scope Q_scope.











Lemma mem_In (x : string) (xs : list string) : Py.mem x xs = true <-> In x xs.
Proof.
  unfold Py.mem. rewrite existsb_exists. split.
  - intros (y & Hy & E). apply String.eqb_eq in E. now subst.
  - intros H. exists x. split; [assumption | apply String.eqb_refl].
Qed.











End Feedback.

(** ** Capability registry *)

Section Registry.

Implicit Types (d : Dev.Device) (caps : gmap string Dev.capability).

Lemma register_capability_invariant d caps caps' item :
  Dev.registry_invariant caps ->
  Dev.register_capability d caps item = Some caps' ->
  Dev.registry_invariant caps'.
Proof.
  intros Hinv. unfold Dev.register_capability. destruct item as [cap tys].
  destruct (Py.mem (Py.lower _) _); [|now intros [= <-]].
  unfold Dev.getDeep_capability, Dev.setDeep_capability.
  destruct (caps !! cap) as [cur|] eqn:Hcur; [|discriminate].
  destruct (Py.mem (Dev.deviceName d) (Dev.devEntities cur)) eqn:Hmem;
    intros [= <-]; [exact Hinv|].
  intros k entry. rewrite lookup_insert. case_decide as Hk.
  - intros [= <-]. simpl. destruct (Hinv cap cur Hcur) as [Hc Hnd]. split.
    + rewrite length_app. simpl. lia.
    + apply NoDup_app. split; [exact Hnd|]. split; [|apply NoDup_singleton].
      intros x Hx Hx'. apply list_elem_of_singleton in Hx'. subst x.
      apply list_elem_of_In, mem_In in Hx. congruence.
  - apply Hinv.
Qed.

Lemma register_loop_invariant d items : forall caps caps',
  Dev.registry_invariant caps ->
  Dev.register_loop d caps items = Some caps' ->
  Dev.registry_invariant caps'.
Proof.
  induction items as [| item items IH]; intros caps caps' Hinv; simpl.
  - now intros [= <-].
  - destruct (Dev.register_capability d caps item) as [caps1|] eqn:E; [|discriminate].
    apply IH. eapply register_capability_invariant; eauto.
Qed.

Lemma fresh_capabilities_lookup cap entry :
  Dev.fresh_capabilities !! cap = Some entry -> entry = Dev.Capability false 0 [].
Proof.
  unfold Dev.fresh_capabilities. intros H.
  apply elem_of_list_to_map_2 in H. apply list_elem_of_In in H.
  simpl in H.
  repeat (destruct H as [H | H]; [now inversion H|]). destruct H.
Qed.

Lemma fresh_capabilities_invariant : Dev.registry_invariant Dev.fresh_capabilities.
Proof.
  intros cap entry H. apply fresh_capabilities_lookup in H. subst entry.
  split; [reflexivity | constructor].
Qed.

Lemma identifyCapabilities_invariant d caps caps' :
  Dev.registry_invariant caps ->
  Dev.identifyCapabilities d caps = Some caps' ->
  Dev.registry_invariant caps'.
Proof.
  intros Hinv. unfold Dev.identifyCapabilities.
  destruct (String.eqb _ _); [now intros [= <-]|].
  apply register_loop_invariant.
  destruct (Dev.capabilities_falsy caps); [apply fresh_capabilities_invariant | exact Hinv].
Qed.

Lemma register_all_invariant ds : forall caps caps',
  Dev.registry_invariant caps ->
  Dev.register_all ds caps = Some caps' ->
  Dev.registry_invariant caps'.
Proof.
  induction ds as [| d ds IH]; intros caps caps' Hinv; simpl.
  - now intros [= <-].
  - destruct (Dev.identifyCapabilities d caps) as [caps1|] eqn:E; [|discriminate].
    apply IH. eapply identifyCapabilities_invariant; eauto.
Qed.

Lemma register_capability_monotone d d0 caps caps' item cap :
  Dev.register_capability d caps item = Some caps' ->
  Dev.registered d0 caps cap -> Dev.registered d0 caps' cap.
Proof.
  unfold Dev.register_capability. destruct item as [c tys].
  destruct (Py.mem (Py.lower _) _); [|now intros [= <-]].
  unfold Dev.getDeep_capability, Dev.setDeep_capability.
  destruct (caps !! c) as [cur|] eqn:Hcur; [|discriminate].
  destruct (Py.mem (Dev.deviceName d) (Dev.devEntities cur)); intros [= <-]; [tauto|].
  intros (entry & He & Hin). unfold Dev.registered.
  rewrite lookup_insert. case_decide as Hk.
  - subst c. rewrite Hcur in He. injection He as <-.
    eexists. split; [reflexivity|]. simpl. apply in_or_app. now left.
  - now exists entry.
Qed.

Lemma register_capability_registers d caps caps' cap tys :
  Dev.register_capability d caps (cap, tys) = Some caps' ->
  Py.mem (Py.lower (Dev.deviceType d)) (map Py.lower tys) = true ->
  Dev.registered d caps' cap.
Proof.
  unfold Dev.register_capability. intros H Hm. rewrite Hm in H.
  unfold Dev.getDeep_capability, Dev.setDeep_capability in H.
  destruct (caps !! cap) as [cur|] eqn:Hcur; [|discriminate].
  destruct (Py.mem (Dev.deviceName d) (Dev.devEntities cur)) eqn:Hmem;
    injection H as <-; unfold Dev.registered.
  - exists cur. split; [exact Hcur | now apply mem_In].
  - rewrite lookup_insert_eq. eexists. split; [reflexivity|].
    simpl. apply in_or_app. right. now left.
Qed.

Lemma register_loop_monotone d d0 items : forall caps caps' cap,
  Dev.register_loop d caps items = Some caps' ->
  Dev.registered d0 caps cap -> Dev.registered d0 caps' cap.
Proof.
  induction items as [| item items IH]; intros caps caps' cap; simpl.
  - now intros [= <-].
  - destruct (Dev.register_capability d caps item) as [caps1|] eqn:E; [|discriminate].
    intros H Hr. eapply IH; [exact H|]. eapply register_capability_monotone; eauto.
Qed.

Lemma register_loop_registers d items : forall caps caps' cap tys,
  Dev.register_loop d caps items = Some caps' ->
  In (cap, tys) items ->
  Py.mem (Py.lower (Dev.deviceType d)) (map Py.lower tys) = true ->
  Dev.registered d caps' cap.
Proof.
  induction items as [| item items IH]; intros caps caps' cap tys; simpl; [tauto|].
  destruct (Dev.register_capability d caps item) as [caps1|] eqn:E; [|discriminate].
  intros H [-> | Hin] Hm.
  - eapply register_loop_monotone; [exact H|].
    eapply register_capability_registers; eauto.
  - eapply IH; eauto.
Qed.

(** Once the device is listed wherever its type matches, the loop changes
    nothing. *)
Lemma register_loop_fixed d d2 items caps :
  Dev.deviceName d2 = Dev.deviceName d -> Dev.deviceType d2 = Dev.deviceType d ->
  (forall cap tys, In (cap, tys) items ->
     Py.mem (Py.lower (Dev.deviceType d)) (map Py.lower tys) = true ->
     Dev.registered d caps cap) ->
  Dev.register_loop d2 caps items = Some caps.
Proof.
  intros Hn Ht. induction items as [| [cap tys] items IH]; intros Hreg; simpl; [reflexivity|].
  rewrite Ht, Hn.
  destruct (Py.mem (Py.lower (Dev.deviceType d)) (map Py.lower tys)) eqn:Hm.
  - destruct (Hreg cap tys (or_introl eq_refl) Hm) as (entry & He & Hin).
    unfold Dev.getDeep_capability. rewrite He.
    apply mem_In in Hin. rewrite Hin.
    apply IH. intros c t Hc. apply Hreg. now right.
  - apply IH. intros c t Hc. apply Hreg. now right.
Qed.

Lemma register_capability_keeps_keys d caps caps' item k :
  Dev.register_capability d caps item = Some caps' ->
  is_Some (caps !! k) -> is_Some (caps' !! k).
Proof.
  unfold Dev.register_capability. destruct item as [c tys].
  destruct (Py.mem (Py.lower _) _); [|now intros [= <-]].
  unfold Dev.getDeep_capability, Dev.setDeep_capability.
  destruct (caps !! c) as [cur|] eqn:Hcur; [|discriminate].
  destruct (Py.mem (Dev.deviceName d) (Dev.devEntities cur)); intros [= <-]; [tauto|].
  intros Hk. rewrite lookup_insert. case_decide; [eauto | exact Hk].
Qed.

Lemma register_loop_keeps_keys d items : forall caps caps' k,
  Dev.register_loop d caps items = Some caps' ->
  is_Some (caps !! k) -> is_Some (caps' !! k).
Proof.
  induction items as [| item items IH]; intros caps caps' k; simpl.
  - now intros [= <-].
  - destruct (Dev.register_capability d caps item) as [caps1|] eqn:E; [|discriminate].
    intros H Hk. eapply IH; [exact H|]. eapply register_capability_keeps_keys; eauto.
Qed.

Lemma fresh_capabilities_complete : Dev.complete Dev.fresh_capabilities.
Proof.
  intros item Hin. unfold Dev.fresh_capabilities.
  apply elem_of_dom. rewrite dom_list_to_map_L.
  apply elem_of_list_to_set, list_elem_of_fmap.
  exists (fst item, Dev.Capability false 0 []). split; [reflexivity|].
  apply list_elem_of_In. apply in_map_iff. exists item.
  split; [now destruct item | exact Hin].
Qed.

Lemma fresh_capabilities_nonempty : Dev.fresh_capabilities <> ∅.
Proof.
  intros E.
  destruct (fresh_capabilities_complete ("canHeat", ["heater"])) as [x Hx];
    [simpl; tauto|].
  rewrite E in Hx. simpl in Hx. now rewrite lookup_empty in Hx.
Qed.

Lemma nonempty_has_key caps : caps <> ∅ -> exists k, is_Some (caps !! k).
Proof.
  intros Hne. destruct (map_choose caps Hne) as (k & v & Hk). exists k. eauto.
Qed.

(** Registering a device again, under the same name and type, leaves the
    registry as it is. *)
Lemma identifyCapabilities_idempotent d d2 caps caps1 :
  Dev.deviceName d2 = Dev.deviceName d -> Dev.deviceType d2 = Dev.deviceType d ->
  Dev.identifyCapabilities d caps = Some caps1 ->
  Dev.identifyCapabilities d2 caps1 = Some caps1.
Proof.
  intros Hn Ht. unfold Dev.identifyCapabilities. rewrite Hn.
  destruct (String.eqb (Dev.deviceName d) "ogb"); [reflexivity|].
  intros Hloop.
  assert (Hne : caps1 <> ∅).
  { assert (Hne0 : (if Dev.capabilities_falsy caps then Dev.fresh_capabilities else caps) <> ∅).
    { unfold Dev.capabilities_falsy. case_bool_decide; [apply fresh_capabilities_nonempty | assumption]. }
    destruct (nonempty_has_key _ Hne0) as [k Hk].
    pose proof (register_loop_keeps_keys _ _ _ _ k Hloop Hk) as [x Hx].
    intros E. rewrite E, lookup_empty in Hx. discriminate. }
  unfold Dev.capabilities_falsy. rewrite bool_decide_eq_false_2 by exact Hne.
  apply (register_loop_fixed d d2); [exact Hn | exact Ht |].
  intros cap tys Hin Hm. eapply register_loop_registers; eauto.
Qed.

Lemma register_capability_total d caps item :
  In item Dev.capMapping -> Dev.complete caps ->
  exists caps', Dev.register_capability d caps item = Some caps'.
Proof.
  intros Hin Hc. unfold Dev.register_capability. destruct item as [cap tys].
  destruct (Py.mem (Py.lower _) _); [|eauto].
  destruct (Hc _ Hin) as [cur Hcur]. simpl in Hcur.
  unfold Dev.getDeep_capability. rewrite Hcur.
  destruct (Py.mem _ _); eauto.
Qed.

Lemma register_loop_total d items : forall caps,
  (forall item, In item items -> In item Dev.capMapping) -> Dev.complete caps ->
  exists caps', Dev.register_loop d caps items = Some caps' /\ Dev.complete caps'.
Proof.
  induction items as [| item items IH]; intros caps Hsub Hc; simpl; [eauto|].
  destruct (register_capability_total d caps item) as [caps1 E];
    [apply Hsub; now left | exact Hc |].
  rewrite E. apply IH; [intros i Hi; apply Hsub; now right|].
  intros i Hi. eapply register_capability_keeps_keys; eauto.
Qed.

Lemma identifyCapabilities_total d caps :
  caps = ∅ \/ Dev.complete caps ->
  exists caps', Dev.identifyCapabilities d caps = Some caps' /\
                (caps' = ∅ \/ Dev.complete caps').
Proof.
  intros Hc. unfold Dev.identifyCapabilities.
  destruct (String.eqb _ _); [eauto|].
  destruct (register_loop_total d Dev.capMapping
              (if Dev.capabilities_falsy caps then Dev.fresh_capabilities else caps))
    as (caps' & E & Hc'); [auto | | eauto].
  unfold Dev.capabilities_falsy. case_bool_decide as He.
  - apply fresh_capabilities_complete.
  - destruct Hc; [contradiction | assumption].
Qed.

Lemma register_all_total ds : forall caps,
  caps = ∅ \/ Dev.complete caps ->
  exists caps', Dev.register_all ds caps = Some caps'.
Proof.
  induction ds as [| d ds IH]; intros caps Hc; simpl; [eauto|].
  destruct (identifyCapabilities_total d caps Hc) as (caps1 & E & Hc1).
  rewrite E. now apply IH.
Qed.

Lemma empty_invariant : Dev.registry_invariant ∅.
Proof. intros cap entry H. now rewrite lookup_empty in H. Qed.

(** C6.  Registering a device a second time under the same name leaves the
    registry unchanged; the invariant [count = |devEntities|], with no name
    listed twice, is kept by every sequence of registrations, and from the
    empty store every sequence succeeds; registering one exhaust fan twice
    leaves [canExhaust] with count 1 and exactly that one name. *)
Theorem capability_registration :
  (forall d d2 caps caps1,
      Dev.deviceName d2 = Dev.deviceName d -> Dev.deviceType d2 = Dev.deviceType d ->
      Dev.identifyCapabilities d caps = Some caps1 ->
      Dev.identifyCapabilities d2 caps1 = Some caps1) /\
  (forall ds caps caps',
      Dev.registry_invariant caps -> Dev.register_all ds caps = Some caps' ->
      Dev.registry_invariant caps') /\
  (forall ds, exists caps,
      Dev.register_all ds ∅ = Some caps /\ Dev.registry_invariant caps) /\
  (exists caps,
      Dev.register_all [Dev.new_device "fan1" "Exhaust"; Dev.new_device "fan1" "Exhaust"] ∅
      = Some caps /\
      caps !! "canExhaust" = Some (Dev.Capability true 1 ["fan1"])).
Proof.
  split; [exact identifyCapabilities_idempotent|].
  split; [intros ds caps caps' Hinv H; eapply register_all_invariant; eauto|].
  split.
  - intros ds. destruct (register_all_total ds ∅) as [caps H]; [now left|].
    exists caps. split; [exact H|].
    eapply register_all_invariant; [apply empty_invariant | exact H].
  - eexists. split; [vm_compute; reflexivity|]. vm_compute. reflexivity.
Qed.

End Registry.

(** ** Turn-on and turn-off *)

Section TurnOnOff.

Local Open Scope Q_scope.

Variable hass : option Dev.HomeAssistant.

Lemma running_only_refl (d : Dev.Device) : Dev.running_only d d.
Proof. exists (Dev.isRunning d). now destruct d. Qed.

Lemma running_only_set (d : Dev.Device) (r : option bool) :
  Dev.running_only d (Dev.set_isRunning r d).
Proof. now exists r. Qed.

Lemma running_only_trans (a b c : Dev.Device) :
  Dev.running_only a b -> Dev.running_only b c -> Dev.running_only a c.
Proof. intros [r ->] [r' ->]. now exists r'. Qed.

Create HintDb running.
#[local] Hint Resolve running_only_refl running_only_set : running.

Lemma call_and_return_running (d : Dev.Device) (c : Dev.service_call) :
  Dev.running_only d (snd (fst (Dev.call_and_return hass d c))).
Proof.
  unfold Dev.call_and_return. destruct (Dev.invoke hass c) as [[] tr]; simpl;
    auto with running.
Qed.

Lemma turn_on_entity_running (d : Dev.Device) kw b p id :
  Dev.running_only d (snd (fst (Dev.turn_on_entity hass d kw b p id))).
Proof.
  unfold Dev.turn_on_entity, Dev.turn_on_fan.
  repeat break_match; simpl; auto using call_and_return_running with running.
Qed.

Lemma turn_on_standard_running ids : forall (d : Dev.Device) kw b p,
  Dev.running_only d (fst (Dev.turn_on_standard hass d kw b p ids)).
Proof.
  induction ids as [| id ids IH]; intros d kw b p; simpl; [auto with running|].
  pose proof (turn_on_entity_running d kw b p id) as H.
  destruct (Dev.turn_on_entity hass d kw b p id) as [[f d1] tr]. simpl in H.
  destruct f; [|exact H].
  specialize (IH d1 kw b p).
  destruct (Dev.turn_on_standard hass d1 kw b p ids) as [d2 tr2]. simpl in *.
  eapply running_only_trans; eauto.
Qed.

Lemma turn_on_acinfinity_running ids : forall (d : Dev.Device) b p,
  Dev.running_only d (snd (fst (Dev.turn_on_acinfinity hass d b p ids))).
Proof.
  induction ids as [| id ids IH]; intros d b p; [simpl; auto with running|].
  cbn [Dev.turn_on_acinfinity].
  destruct (Dev.invoke hass _) as [[] tr]; cbn [negb]; [|simpl; auto with running].
  match goal with
  | |- context [match ?v with Some _ => _ | None => _ end] => destruct v
  end; [simpl; auto with running|].
  specialize (IH d b p).
  destruct (Dev.turn_on_acinfinity hass d b p ids) as [[f d1] tr1]. exact IH.
Qed.

Lemma running_only_last (d d' : Dev.Device) :
  Dev.running_only d d' -> Dev._last_turn_on_time d' = Dev._last_turn_on_time d.
Proof. now intros [r ->]. Qed.

(** Every way out of [turn_on] clears the active-control flag. *)
Lemma turn_on_clears_flag (now : Q) kw (d : Dev.Device) :
  Dev._in_active_control (fst (Dev.turn_on hass now kw d)) = Some false.
Proof.
  unfold Dev.turn_on. repeat break_match; reflexivity.
Qed.

(** An accepted call records its time. *)
Lemma turn_on_records_time (now : Q) kw (d : Dev.Device) :
  Dev.accepted hass now d ->
  Dev._last_turn_on_time (fst (Dev.turn_on hass now kw d)) = Some now.
Proof.
  intros [Hon Hlast]. unfold Dev.turn_on.
  assert (Hon' : Dev._is_device_online hass (Dev.set_in_active_control (Some true) d) = true)
    by exact Hon.
  rewrite Hon'. simpl negb. cbv iota.
  assert (Hrate : Py.Qltb (now - match Dev._last_turn_on_time
                                        (Dev.set_in_active_control (Some true) d)
                                  with Some t => t | None => 0 end) 3 = false)
    by (apply Qltb_false; exact Hlast).
  rewrite Hrate.
  set (d1 := Dev.set_last_turn_on_time (Some now) (Dev.set_in_active_control (Some true) d)).
  set (b := Dev.resolve_brightness_pct d1 kw). set (p := Dev.resolve_percentage d1 kw).
  assert (Hac : forall x, x = (if Dev.isAcInfinDev d1
                               then Dev.turn_on_acinfinity hass d1 b p (Dev.acinfinity_ids d1)
                               else (Dev.Continue, d1, [])) ->
                Dev.running_only d1 (snd (fst x))).
  { intros x ->. destruct (Dev.isAcInfinDev d1); [apply turn_on_acinfinity_running|].
    apply running_only_refl. }
  specialize (Hac _ eq_refl).
  destruct (if Dev.isAcInfinDev d1 then _ else _) as [[f d2] tr]. simpl in Hac.
  destruct f.
  - pose proof (turn_on_standard_running (map Dev.entity_id (Dev.switches d2)) d2 kw b p) as Hs.
    destruct (Dev.turn_on_standard hass d2 kw b p _) as [d3 tr3]. simpl in *.
    rewrite (running_only_last _ _ Hs), (running_only_last _ _ Hac). reflexivity.
  - simpl. rewrite (running_only_last _ _ Hac). reflexivity.
Qed.

Lemma active_control_reset (d : Dev.Device) :
  Dev._in_active_control d = Some false ->
  Dev.set_in_active_control (Some false) (Dev.set_in_active_control (Some true) d) = d.
Proof. destruct d; simpl. now intros ->. Qed.

(** A call within three seconds of the recorded one is a no-op. *)
Lemma turn_on_rate_limited (now last : Q) kw (d : Dev.Device) :
  Dev._in_active_control d = Some false ->
  Dev._last_turn_on_time d = Some last ->
  now - last < 3 ->
  Dev.turn_on hass now kw d = (d, []).
Proof.
  intros Hflag Hlast Hlt. unfold Dev.turn_on.
  destruct (negb _); [now rewrite active_control_reset|].
  assert (Hrate : Py.Qltb (now - match Dev._last_turn_on_time
                                        (Dev.set_in_active_control (Some true) d)
                                  with Some t => t | None => 0 end) 3 = true).
  { apply Qltb_true. simpl. now rewrite Hlast. }
  rewrite Hrate. now rewrite active_control_reset.
Qed.

(** C7 (as stated, refuted).  Two calls one second apart on a ventilation
    device of two switched fans reach the host twice (once per fan, both
    from the first call); on a device without switch entities they never
    reach it. *)
Lemma two_calls_not_one_invocation :
  1001 - 1000 < 3 /\
  (let r1 := Dev.turn_on (Some Dev.willing_host) 1000 Dev.no_kwargs Dev.two_fan_ventilation in
   let r2 := Dev.turn_on (Some Dev.willing_host) 1001 Dev.no_kwargs (fst r1) in
   List.length (snd r1 ++ snd r2) = 2%nat) /\
  (let r1 := Dev.turn_on (Some Dev.willing_host) 1000 Dev.no_kwargs
               (Dev.new_device "probe" "Heater") in
   let r2 := Dev.turn_on (Some Dev.willing_host) 1001 Dev.no_kwargs (fst r1) in
   List.length (snd r1 ++ snd r2) = 0%nat).
Proof. repeat split. Qed.

Lemma turn_on_single_switch (now : Q) kw (d : Dev.Device) (s : Dev.entity) :
  hass <> None ->
  Dev.accepted hass now d ->
  Dev.isAcInfinDev d = false ->
  Py.mem (Dev.deviceType d) Dev.light_types = false ->
  Dev.switches d = [s] ->
  List.length (snd (Dev.turn_on hass now kw d)) = 1%nat.
Proof.
  intros Hh [Hon Hlast] Hac Hty Hsw. unfold Dev.turn_on.
  assert (Hon' : Dev._is_device_online hass (Dev.set_in_active_control (Some true) d) = true)
    by exact Hon.
  rewrite Hon'. simpl negb. cbv iota.
  assert (Hrate : Py.Qltb (now - match Dev._last_turn_on_time
                                        (Dev.set_in_active_control (Some true) d)
                                  with Some t => t | None => 0 end) 3 = false)
    by (apply Qltb_false; exact Hlast).
  rewrite Hrate.
  destruct hass as [h|]; [|congruence].
  destruct d. simpl in *. subst. simpl.
  unfold Dev.turn_on_entity, Dev.turn_on_fan, Dev.call_and_return, Dev.invoke. simpl.
  rewrite Hty.
  repeat break_match; simpl; try reflexivity;
    repeat match goal with
           | H : (_, _) = (_, _) |- _ => inversion H; clear H; subst
           end; simpl; try reflexivity; try discriminate.
Qed.

(** C7 (amended).  Once a turn-on call has passed the rate limiter, a
    second turn-on call less than three seconds later is a no-op: nothing
    reaches the host, the device is left exactly as the first call left it
    and nothing is queued, so the two calls together make the host
    invocations of the first call alone -- exactly one for a standard
    (not AC-Infinity, not a light) actuator on a single switch entity. *)
Theorem turn_on_rate_limit (t1 t2 : Q) (kw1 kw2 : Dev.kwargs) (d : Dev.Device) :
  Dev.accepted hass t1 d -> t2 - t1 < 3 ->
  let r1 := Dev.turn_on hass t1 kw1 d in
  let r2 := Dev.turn_on hass t2 kw2 (fst r1) in
  r2 = (fst r1, []) /\
  (snd r1 ++ snd r2)%list = snd r1 /\
  (hass <> None -> Dev.isAcInfinDev d = false ->
   Py.mem (Dev.deviceType d) Dev.light_types = false ->
   (exists s, Dev.switches d = [s]) ->
   List.length (snd r1 ++ snd r2) = 1%nat).
Proof.
  intros Hacc Hlt r1 r2.
  assert (E : r2 = (fst r1, [])).
  { subst r1 r2. apply (turn_on_rate_limited t2 t1).
    - apply turn_on_clears_flag.
    - now apply turn_on_records_time.
    - exact Hlt. }
  split; [exact E|]. rewrite E. simpl. rewrite app_nil_r.
  split; [reflexivity|].
  intros Hh Hac Hty [s Hs]. subst r1. eapply turn_on_single_switch; eauto.
Qed.

End TurnOnOff.

(** The heater on one switch, called at 1000 s and again at 1001 s. *)
Lemma turn_on_rate_limit_witness :
  List.length
    (snd (Dev.turn_on (Some Dev.willing_host) 1000 Dev.no_kwargs Dev.heater_on_a_switch)
     ++ snd (Dev.turn_on (Some Dev.willing_host) 1001 Dev.no_kwargs
               (fst (Dev.turn_on (Some Dev.willing_host) 1000 Dev.no_kwargs
                       Dev.heater_on_a_switch)))) = 1%nat.
Proof.
  assert (Hacc : Dev.accepted (Some Dev.willing_host) 1000 Dev.heater_on_a_switch).
  { split; [reflexivity | discriminate]. }
  destruct (turn_on_rate_limit (Some Dev.willing_host) 1000 1001 Dev.no_kwargs Dev.no_kwargs
              Dev.heater_on_a_switch Hacc ltac:(reflexivity)) as (_ & _ & H).
  apply H; [discriminate | reflexivity | reflexivity | eexists; reflexivity].
Defined.

(** ** Turn-off of dimmable fans, and the emergency stop *)

Section TurnOff.

Variable hass : option Dev.HomeAssistant.

Lemma turn_off_entity_dimmable_fan (d : Dev.Device) (id : string) :
  Dev.isDimmable d = true ->
  In (Dev.deviceType d) ["Exhaust"; "Intake"; "CO2"] ->
  Dev.turn_off_entity hass d id = (Dev.Leave, d, []).
Proof.
  intros Hdim Hty. unfold Dev.turn_off_entity. rewrite Hdim.
  simpl in Hty. destruct Hty as [<- | [<- | [<- | []]]]; reflexivity.
Qed.

Lemma turn_off_dimmable_fan (d : Dev.Device) :
  Dev.isAcInfinDev d = false ->
  Dev.isDimmable d = true ->
  In (Dev.deviceType d) ["Exhaust"; "Intake"; "CO2"] ->
  Dev.turn_off hass d = (d, []).
Proof.
  intros Hac Hdim Hty. unfold Dev.turn_off. rewrite Hac.
  destruct (map Dev.entity_id (Dev.switches d)) as [| id ids]; [reflexivity|].
  simpl. now rewrite turn_off_entity_dimmable_fan.
Qed.

Lemma turn_off_all_app (pre post : list (string * UI.managed)) :
  UI.turn_off_all hass (pre ++ post) =
  ((fst (UI.turn_off_all hass pre) ++ fst (UI.turn_off_all hass post))%list,
   (snd (UI.turn_off_all hass pre) ++ snd (UI.turn_off_all hass post))%list).
Proof.
  induction pre as [| [name dev] pre IH]; simpl.
  - now destruct (UI.turn_off_all hass post).
  - rewrite IH. destruct (Dev.turn_off hass (UI.obj dev)) as [d1 tr].
    destruct (UI.turn_off_all hass pre) as [pre1 tr1].
    destruct (UI.turn_off_all hass post) as [post1 tr2]. simpl.
    now rewrite app_assoc.
Qed.

(** C10.  Turning off a dimmable, non-special exhaust, intake or CO2
    actuator reaches the host with nothing and returns the device as it
    was; so an emergency stop over any set of managed devices leaves such a
    device untouched and contributes no call for it. *)
Theorem dimmable_fan_never_turned_off (d : Dev.Device) :
  Dev.isAcInfinDev d = false ->
  Dev.isDimmable d = true ->
  In (Dev.deviceType d) ["Exhaust"; "Intake"; "CO2"] ->
  Dev.turn_off hass d = (d, []) /\
  forall pre post name capable,
    UI.emergency_stop hass (pre ++ (name, UI.Managed d capable) :: post) =
    ((fst (UI.turn_off_all hass pre) ++ (name, UI.Managed d capable)
        :: fst (UI.turn_off_all hass post))%list,
     (snd (UI.turn_off_all hass pre) ++ snd (UI.turn_off_all hass post))%list,
     false).
Proof.
  intros Hac Hdim Hty.
  pose proof (turn_off_dimmable_fan d Hac Hdim Hty) as Hoff.
  split; [exact Hoff|].
  intros pre post name capable. unfold UI.emergency_stop.
  rewrite turn_off_all_app. simpl. rewrite Hoff.
  now destruct (UI.turn_off_all hass post).
Qed.

End TurnOff.

(** A running dimmable exhaust fan stays running through [turn_off]. *)
Lemma dimmable_fan_never_turned_off_witness :
  Dev.isRunning (fst (Dev.turn_off (Some Dev.willing_host) (Dev.dimmable_exhaust (Some true))))
  = Some true /\
  snd (Dev.turn_off (Some Dev.willing_host) (Dev.dimmable_exhaust (Some true))) = [].
Proof.
  destruct (dimmable_fan_never_turned_off (Some Dev.willing_host)
              (Dev.dimmable_exhaust (Some true)) eq_refl eq_refl
              ltac:(simpl; tauto)) as [H _].
  rewrite H. split; reflexivity.
Defined.

(** ** The WorkMode exit transition *)

Section WorkModeExit.

Variable hass : option Dev.HomeAssistant.
Variable clock : nat -> Q.

Lemma running_true (d : Dev.Device) : Dev.running d = true <-> Dev.isRunning d = Some true.
Proof. unfold Dev.running. destruct (Dev.isRunning d) as [[]|]; split; congruence. Qed.






End WorkModeExit.


(** ** Humidity hysteresis of the direct executor *)

Section Humidity.

Local Open Scope Q_scope.

Implicit Types (devices : list (string * UI.managed)) (tg : UI.targets).








End Humidity.


(** ** Gradients *)

Section Gradients.

Local Open Scope Q_scope.








End Gradients.


(** ** Target calculation *)

Section Targets.

Local Open Scope Q_scope.

Lemma round_half_even_cases (x : Q) :
  let f := Qfloor x in
  let r := x - inject_Z f in
  (r < 1 # 2 /\ Py.round_half_even x = f) \/
  (1 # 2 < r /\ Py.round_half_even x = (f + 1)%Z) \/
  (r == 1 # 2 /\ Py.round_half_even x = if Z.even f then f else (f + 1)%Z).
Proof.
  intros f r. unfold Py.round_half_even. fold f. fold r.
  destruct (Py.Qltb r (1 # 2)) eqn:E1.
  - left. split; [now apply Qltb_true | reflexivity].
  - destruct (Py.Qltb (1 # 2) r) eqn:E2.
    + right. left. split; [now apply Qltb_true | reflexivity].
    + right. right. apply Qltb_false in E1, E2.
      split; [now apply Qle_antisym | reflexivity].
Qed.

Lemma round_half_even_bounds (x : Q) :
  (Qfloor x <= Py.round_half_even x <= Qfloor x + 1)%Z.
Proof.
  destruct (round_half_even_cases x) as [[_ ->] | [[_ ->] | [_ ->]]];
    try destruct (Z.even _); lia.
Qed.

(** Rounding to the nearest integer is monotone. *)
Lemma round_half_even_monotone (x y : Q) :
  x <= y -> (Py.round_half_even x <= Py.round_half_even y)%Z.
Proof.
  intros Hxy. pose proof (Qfloor_resp_le _ _ Hxy) as Hf.
  pose proof (round_half_even_bounds x) as [_ Hx].
  pose proof (round_half_even_bounds y) as [Hy _].
  destruct (Z.eq_dec (Qfloor x) (Qfloor y)) as [E | NE]; [|lia].
  assert (Hr : x - inject_Z (Qfloor x) <= y - inject_Z (Qfloor y)).
  { rewrite E. apply Qplus_le_compat; [exact Hxy | apply Qle_refl]. }
  destruct (round_half_even_cases x) as [[_ Ex] | [[Hgx Ex] | [Hex Ex]]]; rewrite Ex.
  - (* x rounds down *) lia.
  - (* x is above the half *)
    destruct (round_half_even_cases y) as [[Hly Ey] | [[_ Ey] | [Hey Ey]]].
    + exfalso. apply (Qlt_irrefl (1 # 2)).
      eapply Qlt_trans; [exact Hgx|]. eapply Qle_lt_trans; [exact Hr | exact Hly].
    + rewrite Ey. lia.
    + exfalso. apply (Qlt_irrefl (1 # 2)).
      eapply Qlt_le_trans; [exact Hgx|].
      eapply Qle_trans; [exact Hr | apply Qeq_le; exact Hey].
  - (* x is on the half *)
    destruct (Z.even (Qfloor x)) eqn:Ev; [lia|].
    destruct (round_half_even_cases y) as [[Hly Ey] | [[_ Ey] | [_ Ey]]].
    + exfalso. apply (Qlt_irrefl (1 # 2)).
      eapply Qle_lt_trans; [|exact Hly].
      eapply Qle_trans; [|exact Hr]. apply Qeq_le. symmetry. exact Hex.
    + rewrite Ey. lia.
    + rewrite Ey, <- E, Ev. lia.
Qed.

Lemma round1_monotone (x y : Q) : x <= y -> Py.round1 x <= Py.round1 y.
Proof.
  intros H. unfold Py.round1.
  apply Qmult_le_compat_r; [|discriminate].
  rewrite <- Zle_Qle. apply round_half_even_monotone.
  apply Qmult_le_compat_r; [exact H | discriminate].
Qed.

Lemma round1_window (lo hi x : Q) :
  lo <= x <= hi -> Py.round1 lo <= Py.round1 x <= Py.round1 hi.
Proof. intros [H1 H2]. split; now apply round1_monotone. Qed.




End Targets.


(* ===================================================================== *)
(** * Part III: further properties of the same code                       *)
(* ===================================================================== *)

(** ** Duty-cycle initialisation *)

Section Initialisation.

Local Open Scope Q_scope.

Lemma floordiv_nonneg (a b : Q) : 0 <= a -> 0 < b -> 0 <= Dev.floordiv a b.
Proof.
  intros Ha Hb. unfold Dev.floordiv.
  change 0 with (inject_Z 0). rewrite <- Zle_Qle.
  apply Z_le_Qfloor. change (inject_Z 0) with 0.
  apply Qle_shift_div_l; [exact Hb|]. now rewrite Qmult_0_l.
Qed.

Lemma floordiv_mult_le (a b : Q) : 0 < b -> Dev.floordiv a b * b <= a.
Proof.
  intros Hb. unfold Dev.floordiv.
  apply Qle_trans with (a / b * b).
  - apply Qmult_le_compat_r; [apply Qfloor_le | now apply Qlt_le_weak].
  - apply Qeq_le. field. intros E. rewrite E in Hb. discriminate.
Qed.

(** With a positive step, the aligned midpoint lies in the window, at or
    below its middle, a whole number of steps above the minimum. *)
Lemma calc_middle_window (mn mx steps : Q) :
  mn <= mx -> 0 < steps ->
  mn <= Dev.calc_middle mn mx steps <= mx /\
  Dev.calc_middle mn mx steps <= (mn + mx) / 2 /\
  exists k : Z, (0 <= k)%Z /\ Dev.calc_middle mn mx steps = mn + inject_Z k * steps.
Proof.
  intros Hb Hs. unfold Dev.calc_middle.
  assert (Hnb : Qle_bool steps 0 = false).
  { destruct (Qle_bool steps 0) eqn:E; [|reflexivity].
    apply Qle_bool_iff in E. exfalso. exact (Qlt_not_le _ _ Hs E). }
  rewrite Hnb. cbv zeta.
  set (range_mid := Dev.floordiv (mx - mn) 2).
  assert (Hhalf : range_mid <= (mx - mn) / 2).
  { unfold range_mid, Dev.floordiv. apply Qfloor_le. }
  assert (Hrm : 0 <= range_mid).
  { apply floordiv_nonneg; [|reflexivity]. now apply -> Qle_minus_iff. }
  pose proof (floordiv_nonneg range_mid steps Hrm Hs) as Hk.
  pose proof (floordiv_mult_le range_mid steps Hs) as Hks.
  assert (Hstep : 0 <= Dev.floordiv range_mid steps * steps).
  { apply Qmult_le_0_compat; [exact Hk | now apply Qlt_le_weak]. }
  assert (Hup : mn + Dev.floordiv range_mid steps * steps <= (mn + mx) / 2).
  { apply Qle_trans with (mn + (mx - mn) / 2).
    - apply Qplus_le_compat; [apply Qle_refl|]. now apply Qle_trans with range_mid.
    - apply Qeq_le. field. }
  split; [split|split].
  - rewrite <- (Qplus_0_r mn) at 1. apply Qplus_le_compat; [apply Qle_refl | exact Hstep].
  - apply Qle_trans with ((mn + mx) / 2); [exact Hup|].
    apply Qle_shift_div_r; [reflexivity|].
    apply Qle_trans with (mx + mx); [|apply Qeq_le; ring].
    apply Qplus_le_compat; [exact Hb | apply Qle_refl].
  - exact Hup.
  - exists (Qfloor (range_mid / steps)). split; [|reflexivity].
    unfold Dev.floordiv in Hk. change 0 with (inject_Z 0) in Hk.
    now rewrite <- Zle_Qle in Hk.
Qed.

(** X1.  [initialize_duty_cycle] with a positive step: on a device that is
    not treated as AC-Infinity (special, or without the AC-Infinity flag)
    and has bounds [min <= max], the duty cycle lands in the window, a
    whole number of steps above the minimum and not above the middle; the
    bounds and the step are kept. *)
Theorem initialize_duty_cycle_window (steps : Q) (d : Dev.Device) (mn mx : Q) :
  0 < steps ->
  Dev.minDuty d = Some mn -> Dev.maxDuty d = Some mx -> mn <= mx ->
  Dev.isSpecialDevice d = true \/ Dev.isAcInfinDev d = false ->
  let r := Dev.initialize_duty_cycle steps d in
  snd r = steps /\ Dev.minDuty (fst r) = Some mn /\ Dev.maxDuty (fst r) = Some mx /\
  exists v, Dev.dutyCycle (fst r) = Some v /\ mn <= v <= mx /\ v <= (mn + mx) / 2 /\
            exists k : Z, (0 <= k)%Z /\ v = mn + inject_Z k * steps.
Proof.
  intros Hs Hmn Hmx Hb Hkind r. subst r.
  destruct (calc_middle_window mn mx steps Hb Hs) as (Hw & Hmid & Hk).
  unfold Dev.initialize_duty_cycle. destruct d; simpl in *. subst.
  destruct isSpecialDevice; simpl.
  - repeat split; try reflexivity. eexists. split; [reflexivity|]. tauto.
  - destruct Hkind as [? | ->]; [discriminate|]. simpl.
    repeat split; try reflexivity. eexists. split; [reflexivity|]. tauto.
Qed.

(** X2.  On an AC-Infinity device that is not special,
    [initialize_duty_cycle] discards whatever bounds and step were there:
    the window becomes [0, 100], the step 10 and the duty cycle 50. *)
Theorem initialize_duty_cycle_acinfinity (steps : Q) (d : Dev.Device) :
  Dev.isSpecialDevice d = false -> Dev.isAcInfinDev d = true ->
  let r := Dev.initialize_duty_cycle steps d in
  snd r = 10 /\ Dev.minDuty (fst r) = Some 0 /\ Dev.maxDuty (fst r) = Some 100 /\
  exists v, Dev.dutyCycle (fst r) = Some v /\ v == 50.
Proof.
  intros Hsp Hac r. subst r. unfold Dev.initialize_duty_cycle.
  destruct d; simpl in *. subst. simpl.
  repeat split. eexists. split; reflexivity.
Qed.

End Initialisation.

(** An exhaust fan with window [10, 95] and step 5. *)
Lemma initialize_duty_cycle_window_witness :
  exists v, Dev.dutyCycle (fst (Dev.initialize_duty_cycle 5 Dev.exhaust_10_95)) = Some v /\
            (10 <= v <= 95)%Q.
Proof.
  destruct (initialize_duty_cycle_window 5 Dev.exhaust_10_95 10 95
              eq_refl eq_refl eq_refl ltac:(discriminate) (or_intror eq_refl))
    as (_ & _ & _ & v & Hv & Hw & _).
  exists v. split; assumption.
Defined.

(** An AC-Infinity fan configured with window [30, 60] and step 5. *)
Lemma initialize_duty_cycle_acinfinity_witness :
  Dev.maxDuty (fst (Dev.initialize_duty_cycle 5 Dev.acinfinity_30_60)) = Some 100%Q.
Proof.
  destruct (initialize_duty_cycle_acinfinity 5 Dev.acinfinity_30_60 eq_refl eq_refl)
    as (_ & _ & H & _).
  exact H.
Defined.

(** ** Running state, dimmability and state updates *)

Section StateUpdates.

Lemma identifyIfRunningState_frame (d : Dev.Device) :
  exists r, Dev.identifyIfRunningState d = Dev.set_isRunning r d.
Proof.
  unfold Dev.identifyIfRunningState.
  repeat match goal with
         | |- context [if ?c then _ else _] => destruct c
         | |- context [match ?x with _ => _ end] => destruct x
         end;
    try (eexists; reflexivity);
    exists (Dev.isRunning d); destruct d; reflexivity.
Qed.

Lemma update_entity_value_ids (es : list Dev.entity) (id : string) (v : Py.value) :
  map Dev.entity_id (fst (Dev.update_entity_value es id v)) = map Dev.entity_id es.
Proof.
  induction es as [|e es IH]; simpl; [reflexivity|].
  destruct (String.eqb (Dev.entity_id e) id); simpl; [reflexivity|].
  destruct (Dev.update_entity_value es id v) as [rest1 updated]. simpl in *.
  now rewrite IH.
Qed.

Lemma update_entity_value_found (es : list Dev.entity) (id : string) (v : Py.value) :
  snd (Dev.update_entity_value es id v) = true <-> In id (map Dev.entity_id es).
Proof.
  induction es as [|e es IH]; simpl; [split; [discriminate | tauto]|].
  destruct (String.eqb (Dev.entity_id e) id) eqn:E; simpl.
  - apply String.eqb_eq in E. tauto.
  - apply String.eqb_neq in E.
    destruct (Dev.update_entity_value es id v) as [rest1 updated]. simpl in *.
    rewrite IH. split; [tauto | intros [?|?]; [contradiction | assumption]].
Qed.

Lemma update_entity_value_read_back (es : list Dev.entity) (id : string) (v : Py.value) :
  In id (map Dev.entity_id es) ->
  Dev.value_of (fst (Dev.update_entity_value es id v)) id = Some v.
Proof.
  unfold Dev.value_of.
  induction es as [|e es IH]; simpl; [tauto|]. intros Hin.
  destruct (String.eqb (Dev.entity_id e) id) eqn:E; simpl.
  - rewrite E. reflexivity.
  - destruct (Dev.update_entity_value es id v) as [rest1 updated] eqn:U. simpl in *.
    rewrite E. apply IH. destruct Hin as [H|H]; [|exact H].
    apply String.eqb_neq in E. contradiction.
Qed.

Lemma update_entity_value_others (es : list Dev.entity) (id id' : string) (v : Py.value) :
  id' <> id ->
  Dev.value_of (fst (Dev.update_entity_value es id v)) id' = Dev.value_of es id'.
Proof.
  unfold Dev.value_of. intros Hne.
  induction es as [|e es IH]; simpl; [reflexivity|].
  destruct (String.eqb (Dev.entity_id e) id) eqn:E; simpl.
  - apply String.eqb_eq in E.
    destruct (String.eqb (Dev.entity_id e) id') eqn:E'; [|reflexivity].
    apply String.eqb_eq in E'. congruence.
  - destruct (Dev.update_entity_value es id v) as [rest1 updated]. simpl in *.
    destruct (String.eqb (Dev.entity_id e) id'); [reflexivity | exact IH].
Qed.

(** X3.  A state update never adds, drops or reorders entities and never
    touches the control values: the ids in every list (hence [getEntitys])
    and voltage, duty cycle and their bounds are the same afterwards; an
    update addressed to another device name changes nothing at all. *)
Theorem deviceUpdate_keeps_entities (d : Dev.Device) (id : string) (v : Py.value) :
  let d' := Dev.deviceUpdate d id v in
  map Dev.entity_id (Dev.switches d') = map Dev.entity_id (Dev.switches d) /\
  map Dev.entity_id (Dev.options d') = map Dev.entity_id (Dev.options d) /\
  map Dev.entity_id (Dev.sensors d') = map Dev.entity_id (Dev.sensors d) /\
  Dev.getEntitys d' = Dev.getEntitys d /\
  Dev.voltage d' = Dev.voltage d /\ Dev.dutyCycle d' = Dev.dutyCycle d /\
  Dev.minDuty d' = Dev.minDuty d /\ Dev.maxDuty d' = Dev.maxDuty d /\
  Dev.minVoltage d' = Dev.minVoltage d /\ Dev.maxVoltage d' = Dev.maxVoltage d /\
  (Dev.deviceName d <> Dev.device_name_of id -> d' = d).
Proof.
  intros d'. subst d'.
  assert (Hg : forall x, map Dev.entity_id (Dev.switches x) = map Dev.entity_id (Dev.switches d) ->
                 map Dev.entity_id (Dev.options x) = map Dev.entity_id (Dev.options d) ->
                 map Dev.entity_id (Dev.sensors x) = map Dev.entity_id (Dev.sensors d) ->
                 Dev.ogbsettings x = Dev.ogbsettings d ->
                 Dev.getEntitys x = Dev.getEntitys d).
  { intros x H1 H2 H3 H4. unfold Dev.getEntitys.
    rewrite !map_app. now rewrite H1, H2, H3, H4. }
  unfold Dev.deviceUpdate.
  destruct (String.eqb (Dev.deviceName d) (Dev.device_name_of id)) eqn:En; cbn [negb].
  2: { repeat split; reflexivity. }
  apply String.eqb_eq in En.
  pose proof (update_entity_value_ids (Dev.sensors d) id v) as Hs.
  pose proof (update_entity_value_ids (Dev.switches d) id v) as Hw.
  pose proof (update_entity_value_ids (Dev.options d) id v) as Ho.
  destruct (Py.str_in "sensor." id).
  { repeat split; try (intros; contradiction); try apply Hg;
      destruct d; simpl in *; auto. }
  destruct (Py.any_in ["fan."; "light."; "switch."; "humidifier."] id).
  { destruct (Dev.update_entity_value (Dev.switches d) id v) as [sw updated]. simpl in Hw.
    assert (Hx : exists r, (if updated
                            then Dev.identifyIfRunningState (Dev.set_switches sw d)
                            else Dev.set_switches sw d)
                           = Dev.set_isRunning r (Dev.set_switches sw d)).
    { destruct updated; [apply identifyIfRunningState_frame|].
      exists (Dev.isRunning d). destruct d; reflexivity. }
    destruct Hx as [r ->].
    repeat split; try (intros; contradiction); try apply Hg;
      destruct d; simpl in *; auto. }
  destruct (Py.any_in ["number."; "text."; "time."; "select."; "date."] id).
  { repeat split; try (intros; contradiction); try apply Hg;
      destruct d; simpl in *; auto. }
  destruct (Py.str_in "ogb_" id).
  { repeat split; try (intros; contradiction); try apply Hg;
      destruct d; simpl in *; auto. }
  repeat split; reflexivity.
Qed.

(** X4.  On a device that is not AC-Infinity, the first switch alone
    decides the running state after an update of any of its switches: the
    new value if the update is for the first switch, the first switch's old
    value otherwise; ["on"] gives running, ["off"] stopped, anything else
    unknown.  The updated switch reads back the new value. *)
Theorem deviceUpdate_first_switch_decides
    (d : Dev.Device) (s : Dev.entity) (rest : list Dev.entity) (id : string) (v : Py.value) :
  Dev.isAcInfinDev d = false ->
  Dev.switches d = s :: rest ->
  In id (map Dev.entity_id (Dev.switches d)) ->
  Dev.deviceName d = Dev.device_name_of id ->
  Py.str_in "sensor." id = false ->
  Py.any_in ["fan."; "light."; "switch."; "humidifier."] id = true ->
  let d' := Dev.deviceUpdate d id v in
  Dev.isRunning d' =
    Dev.switch_running (if String.eqb (Dev.entity_id s) id then v else Dev.value s) /\
  Dev.value_of (Dev.switches d') id = Some v.
Proof.
  intros Hac Hsw Hin Hname Hsensor Hkind d'. subst d'.
  unfold Dev.deviceUpdate.
  rewrite Hname, String.eqb_refl, Hsensor, Hkind. simpl negb. cbv iota.
  pose proof (proj2 (update_entity_value_found (Dev.switches d) id v) Hin) as Hupd.
  pose proof (update_entity_value_read_back (Dev.switches d) id v Hin) as Hread.
  destruct (Dev.update_entity_value (Dev.switches d) id v) as [sw updated] eqn:U.
  simpl in Hupd, Hread. subst updated.
  assert (Hsw1 : exists rest1,
             sw = Dev.Entity (Dev.entity_id s)
                    (if String.eqb (Dev.entity_id s) id then v else Dev.value s)
                    (Dev.platform s) :: rest1).
  { rewrite Hsw in U. simpl in U.
    destruct (String.eqb (Dev.entity_id s) id).
    - inversion U. eexists. reflexivity.
    - destruct (Dev.update_entity_value rest id v) as [r1 u1]. inversion U.
      exists r1. destruct s; reflexivity. }
  destruct Hsw1 as [rest1 Hsw1].
  unfold Dev.identifyIfRunningState.
  assert (Hac' : Dev.isAcInfinDev (Dev.set_switches sw d) = false)
    by (destruct d; exact Hac).
  assert (Hsw' : Dev.switches (Dev.set_switches sw d) = sw) by (destruct d; reflexivity).
  rewrite Hac', Hsw', Hsw1.
  split.
  - destruct d; reflexivity.
  - rewrite <- Hsw1. destruct d; exact Hread.
Qed.

(** X5.  A device whose type is spelt "humidifier" in any letter case is
    never recognised as dimmable, whatever entities it has (the list of
    allowed types has "humdifier"); unless it was dimmable before, the
    feedback of its duty cycle is then never read. *)
Theorem humidifier_never_dimmable (d : Dev.Device) :
  Py.lower (Dev.deviceType d) = "humidifier" ->
  Dev.identifDimmable d = d /\
  (Dev.isDimmable d = false -> Dev.checkForControlValue (Dev.identifDimmable d) = d).
Proof.
  intros Hty. unfold Dev.identifDimmable. rewrite Hty.
  split; [reflexivity|]. intros Hdim. simpl.
  unfold Dev.checkForControlValue. rewrite Hdim.
  destruct (Dev._in_active_control d) as [[|]|]; reflexivity.
Qed.

End StateUpdates.

Lemma deviceUpdate_first_switch_decides_witness :
  Dev.isRunning (Dev.deviceUpdate Dev.two_fan_ventilation "switch.vent_right" (Py.VStr "on"))
  = Some false.
Proof.
  exact (proj1 (deviceUpdate_first_switch_decides Dev.two_fan_ventilation
                  _ _ "switch.vent_right" (Py.VStr "on")
                  eq_refl eq_refl (or_intror (or_introl eq_refl)) eq_refl eq_refl eq_refl)).
Defined.

Lemma humidifier_never_dimmable_witness :
  Dev.identifDimmable Dev.humidifier_with_duty = Dev.humidifier_with_duty.
Proof.
  exact (proj1 (humidifier_never_dimmable Dev.humidifier_with_duty eq_refl)).
Defined.

(** ** Bounds from the store *)

Section MinMax.

Local Open Scope Q_scope.

(** X6.  [checkMinMax] on a dimmable device whose store entry has both
    duty keys, [min <= max]: the bounds are taken over and a duty cycle that
    is set is brought into the window (kept as it is when it was inside),
    whether or not the entry is active; the active flag follows the entry. *)
Theorem checkMinMax_duty_window (d : Dev.Device) (s : Dev.minmax_sets) (mn mx : Q) :
  Dev.isDimmable d = true ->
  Dev.mm_minDuty s = Some mn -> Dev.mm_maxDuty s = Some mx -> mn <= mx ->
  let d' := Dev.checkMinMax d (Some s) in
  Dev.minDuty d' = Some mn /\ Dev.maxDuty d' = Some mx /\
  Dev.is_minmax_active d' = Dev.sets_active s /\
  (Dev.dutyCycle d = None -> Dev.dutyCycle d' = None) /\
  (forall dc, Dev.dutyCycle d = Some dc ->
     exists v, Dev.dutyCycle d' = Some v /\ mn <= v <= mx /\ (mn <= dc <= mx -> v == dc)).
Proof.
  intros Hdim Hmn Hmx Hb d'. subst d'.
  unfold Dev.checkMinMax. rewrite Hdim, Hmn, Hmx. cbn [negb].
  assert (Hdc : forall x,
             Dev.dutyCycle
               (match Dev.mm_minVoltage s, Dev.mm_maxVoltage s, Dev.voltage x with
                | Some _, Some _, Some _ =>
                    Dev.set_voltage (Dev.clamp_voltage x (Dev.voltage x)) x
                | _, _, _ => x
                end) = Dev.dutyCycle x).
  { intros x. destruct (Dev.mm_minVoltage s), (Dev.mm_maxVoltage s), (Dev.voltage x);
      reflexivity. }
  set (d3 := Dev.set_maxDuty (Some mx) (Dev.set_minDuty (Some mn) _)).
  assert (H3 : Dev.dutyCycle d3 = Dev.dutyCycle d).
  { subst d3. destruct (Dev.mm_minVoltage s), (Dev.mm_maxVoltage s); reflexivity. }
  specialize (Hdc d3). rewrite H3 in Hdc.
  set (d4 := match Dev.mm_minVoltage s, Dev.mm_maxVoltage s, Dev.voltage d3 with
             | Some _, Some _, Some _ => _ | _, _, _ => _ end) in *.
  assert (H4 : Dev.minDuty d4 = Some mn /\ Dev.maxDuty d4 = Some mx /\
               Dev.is_minmax_active d4 = Dev.sets_active s).
  { subst d4 d3.
    destruct (Dev.mm_minVoltage s), (Dev.mm_maxVoltage s); simpl;
      repeat match goal with |- context [match ?x with _ => _ end] => destruct x end;
      simpl; auto. }
  destruct H4 as (Ha & Hb' & Hc).
  destruct (Dev.dutyCycle d4) as [dc|] eqn:Edc; simpl; rewrite ?Edc, ?Ha, ?Hb', ?Hc.
  - repeat split; try congruence.
    intros dc' Hdc'. assert (dc' = dc) by congruence. subst dc'.
    exists (Py.max mn (Py.min mx dc)). split; [reflexivity|].
    split; [now apply clamp_in_range | apply clamp_fixes_range].
  - repeat split; auto. intros dc Hdc'. congruence.
Qed.

(** X7.  [userSetMinMax] on a dimmable device that is not a light, outside
    a sun phase, with an active entry that has the duty keys ([min <= max])
    and not both voltage keys: nothing is raised, the duty cycle ends inside
    the window (also with fractional bounds: the value is clamped again
    after the truncation), and exactly one [turn_on] with that value is
    awaited, whether or not the device is running. *)
Theorem userSetMinMax_duty_window (d : Dev.Device) (s : Dev.minmax_sets) (mn mx : Q) :
  Dev.isDimmable d = true -> Dev.sun_phase d = false ->
  Dev.deviceType d <> "Light" ->
  Dev.sets_active s = true ->
  Dev.mm_minVoltage s = None \/ Dev.mm_maxVoltage s = None ->
  Dev.mm_minDuty s = Some mn -> Dev.mm_maxDuty s = Some mx -> mn <= mx ->
  let o := Dev.userSetMinMax d (Some s) in
  Dev.wm_raised o = false /\
  Dev.minDuty (Dev.wm_device o) = Some mn /\ Dev.maxDuty (Dev.wm_device o) = Some mx /\
  exists v, Dev.dutyCycle (Dev.wm_device o) = Some v /\ mn <= v <= mx /\
            Dev.wm_calls o = [Dev.duty_turn_on d v].
Proof.
  intros Hdim Hsun Hty Hact Hvolt Hmn Hmx Hb o. subst o.
  unfold Dev.userSetMinMax. rewrite Hsun, Hdim, Hact, Hmn, Hmx. cbn [negb].
  apply String.eqb_neq in Hty.
  assert (E : forall x, (match Dev.mm_minVoltage s, Dev.mm_maxVoltage s with
                         | Some a, Some b => x a b
                         | _, _ =>
                             let d1 := Dev.set_maxDuty (Some mx) (Dev.set_minDuty (Some mn) d) in
                             Dev.changeMinMaxValues d1
                               (Some (Dev.clamp_duty_cycle d1 (Dev.dutyCycle d1)))
                         end)
                        = let d1 := Dev.set_maxDuty (Some mx) (Dev.set_minDuty (Some mn) d) in
                          Dev.changeMinMaxValues d1
                            (Some (Dev.clamp_duty_cycle d1 (Dev.dutyCycle d1)))).
  { intros x. destruct Hvolt as [-> | ->]; [reflexivity|].
    destruct (Dev.mm_minVoltage s); reflexivity. }
  rewrite E. cbv zeta. unfold Dev.changeMinMaxValues.
  cbn [Dev.isDimmable Dev.deviceType Dev.minDuty Dev.maxDuty Dev.set_maxDuty Dev.set_minDuty
       Dev.isSpecialDevice].
  rewrite Hdim, Hty. cbn [Dev.wm_raised Dev.wm_device Dev.wm_calls].
  repeat split.
  eexists. split; [reflexivity|]. split; [now apply clamp_in_range | reflexivity].
Qed.

(** X8.  [on_minmax_control_enabled] keeps its docstring's promise: it
    raises nothing, awaits nothing but [turn_on], awaits it only on a
    running device, leaves the running flag alone, and on a device that is
    not running changes neither voltage nor duty cycle. *)
Theorem minmax_enabled_only_running (d : Dev.Device) (sets : option Dev.minmax_sets) :
  let o := Dev.on_minmax_control_enabled d sets in
  Dev.wm_raised o = false /\
  Dev.isRunning (Dev.wm_device o) = Dev.isRunning d /\
  (forall c, In c (Dev.wm_calls o) ->
     Dev.isRunning d = Some true /\ exists kw, c = Dev.CallTurnOn kw) /\
  (Dev.isRunning d <> Some true ->
     Dev.wm_calls o = [] /\
     Dev.voltage (Dev.wm_device o) = Dev.voltage d /\
     Dev.dutyCycle (Dev.wm_device o) = Dev.dutyCycle d).
Proof.
  intros o. subst o. unfold Dev.on_minmax_control_enabled, Dev.duty_turn_on.
  repeat break_match; cbn [Dev.wm_raised Dev.wm_device Dev.wm_calls];
    (split; [reflexivity | split; [reflexivity | split;
    [ intros call Hin; simpl in Hin; try contradiction;
      destruct Hin as [<- | []];
      (split; [apply running_true; assumption | eexists; reflexivity])
    | intros Hn;
      try (exfalso; apply Hn; apply running_true; assumption);
      repeat split; reflexivity ]]]).
Qed.

(** X9.  [on_minmax_control_disabled] awaits nothing but [turn_on], only on
    a running device, and leaves the running flag alone; on a device that
    is not running it raises nothing except on a light without
    [PlantStageMinMax], and changes neither voltage nor duty cycle. *)
Theorem minmax_disabled_only_running (d : Dev.Device) (c : Dev.disable_context) :
  let o := Dev.on_minmax_control_disabled d c in
  Dev.isRunning (Dev.wm_device o) = Dev.isRunning d /\
  (forall call, In call (Dev.wm_calls o) ->
     Dev.isRunning d = Some true /\ exists kw, call = Dev.CallTurnOn kw) /\
  (Dev.isRunning d <> Some true ->
     Dev.wm_calls o = [] /\
     Dev.voltage (Dev.wm_device o) = Dev.voltage d /\
     Dev.dutyCycle (Dev.wm_device o) = Dev.dutyCycle d /\
     (Dev.wm_raised o = true ->
        Dev.deviceType d = "Light" /\ Dev.dc_PlantStageMinMax c = None)).
Proof.
  intros o. subst o. unfold Dev.on_minmax_control_disabled, Dev.duty_turn_on.
  repeat break_match; cbn [Dev.wm_raised Dev.wm_device Dev.wm_calls];
    (split; [reflexivity | split;
    [ intros call Hin; simpl in Hin; try contradiction;
      destruct Hin as [<- | []];
      (split; [apply running_true; assumption | eexists; reflexivity])
    | intros Hn;
      try (exfalso; apply Hn; apply running_true; assumption);
      repeat split; try reflexivity; try discriminate;
      try (apply String.eqb_eq; assumption) ]]).
Qed.

End MinMax.

Lemma checkMinMax_duty_window_witness :
  Dev.minDuty (Dev.checkMinMax (Dev.dimmable_exhaust None)
                 (Some Dev.inactive_duty_sets_30_70)) = Some 30%Q.
Proof.
  exact (proj1 (checkMinMax_duty_window (Dev.dimmable_exhaust None)
                  Dev.inactive_duty_sets_30_70 30 70
                  eq_refl eq_refl eq_refl ltac:(discriminate))).
Defined.

Lemma userSetMinMax_duty_window_witness :
  Dev.wm_raised (Dev.userSetMinMax (Dev.dimmable_exhaust (Some false))
                   (Some Dev.duty_sets_30_70)) = false.
Proof.
  exact (proj1 (userSetMinMax_duty_window (Dev.dimmable_exhaust (Some false))
                  Dev.duty_sets_30_70 30 70
                  eq_refl eq_refl ltac:(discriminate) eq_refl (or_introl eq_refl)
                  eq_refl eq_refl ltac:(discriminate))).
Defined.

(** ** What [turn_on] and [turn_off] touch *)

Section ActuationFrame.

Variable hass : option Dev.HomeAssistant.

Local Open Scope Q_scope.

Lemma invoke_trace (c : Dev.service_call) :
  snd (Dev.invoke hass c) = [c] \/ snd (Dev.invoke hass c) = [].
Proof. unfold Dev.invoke. destruct hass; simpl; auto. Qed.

Lemma set_value_targets (d : Dev.Device) (v : Q) :
  Forall (fun c => In (Dev.target c) (map Dev.entity_id (Dev.options d)) /\
                   Dev.domain c = "number" /\ Dev.service c = "set_value")
         (Dev.set_value hass d v) /\
  (List.length (Dev.set_value hass d v) <= 1)%nat.
Proof.
  unfold Dev.set_value.
  destruct (find _ (Dev.options d)) as [o|] eqn:E; [|split; [constructor | simpl; lia]].
  apply find_some in E. destruct E as [Hin _].
  destruct (invoke_trace (Dev.ServiceCall "number" "set_value" (Dev.entity_id o)
                            (Dev.DataValue (if Dev.isAcInfinDev d
                                            then inject_Z (Py.int v) else v))))
    as [-> | ->]; (split; [|simpl; lia]); repeat constructor.
  simpl. now apply in_map.
Qed.

Lemma set_value_on_step (d : Dev.Device) (ids : list string) (v : Q) :
  Forall (fun c => In (Dev.target c) ids \/
                   In (Dev.target c) (map Dev.entity_id (Dev.options d)))
         (Dev.set_value hass d v).
Proof.
  eapply List.Forall_impl; [|apply (proj1 (set_value_targets d v))]. simpl. tauto.
Qed.

Lemma invoke_on_step (d : Dev.Device) (ids : list string) (c : Dev.service_call) :
  In (Dev.target c) ids ->
  Forall (fun c => In (Dev.target c) ids \/
                   In (Dev.target c) (map Dev.entity_id (Dev.options d)))
         (snd (Dev.invoke hass c)).
Proof.
  intros Hin. destruct (invoke_trace c) as [-> | ->]; repeat constructor. exact Hin.
Qed.

Lemma call_and_return_on_step (d : Dev.Device) (id : string) (c : Dev.service_call) :
  Dev.target c = id ->
  Dev.on_step d [id] (snd (fst (Dev.call_and_return hass d c)))
                 (snd (Dev.call_and_return hass d c)).
Proof.
  intros Ht. unfold Dev.call_and_return.
  pose proof (invoke_on_step d [id] c) as H.
  destruct (Dev.invoke hass c) as [[] tr]; simpl in *;
    (split; [auto | apply H; left; symmetry; exact Ht]).
Qed.

Lemma turn_on_entity_on_step (d : Dev.Device) kw b p id :
  Dev.on_step d [id] (snd (fst (Dev.turn_on_entity hass d kw b p id)))
                 (snd (Dev.turn_on_entity hass d kw b p id)).
Proof.
  unfold Dev.turn_on_entity, Dev.turn_on_fan.
  repeat match goal with
         | |- context [if ?c then _ else _] =>
             lazymatch c with
             | context [Dev.invoke] => fail
             | _ => destruct c
             end
         | |- context [match Dev.realHumidifierClass d with _ => _ end] =>
             destruct (Dev.realHumidifierClass d) as [[|]|]
         end;
    try (apply call_and_return_on_step; reflexivity).
  - pose proof (invoke_on_step d [id] (Dev.switch_turn_on id) (or_introl eq_refl)) as H.
    destruct (Dev.invoke hass (Dev.switch_turn_on id)) as [[] tr]; simpl in *.
    + destruct b as [b|]; simpl; (split; [auto|]); [|exact H].
      apply List.Forall_app. split; [exact H | apply set_value_on_step].
    + split; [auto | exact H].
  - destruct b as [b|]; [apply call_and_return_on_step; reflexivity|].
    split; [auto | constructor].
  - pose proof (invoke_on_step d [id] (Dev.light_turn_on id b) (or_introl eq_refl)) as H.
    destruct (Dev.invoke hass _) as [[] tr]; simpl in *; (split; [auto | exact H]).
  - pose proof (invoke_on_step d [id] (Dev.fan_set_percentage id p) (or_introl eq_refl)) as H.
    destruct (Dev.invoke hass _) as [[] tr]; simpl in *; (split; [auto | exact H]).
  - pose proof (invoke_on_step d [id] (Dev.switch_turn_on id) (or_introl eq_refl)) as H.
    destruct (Dev.invoke hass _) as [[] tr]; simpl in *; (split; [auto | exact H]).
Qed.

Lemma on_step_weaken (d : Dev.Device) (ids ids' : list string) d' tr :
  (forall x, In x ids -> In x ids') -> Dev.on_step d ids d' tr -> Dev.on_step d ids' d' tr.
Proof.
  intros Hsub [Hd Htr]. split; [exact Hd|].
  eapply List.Forall_impl; [|exact Htr]. simpl. intros c [H|H]; auto.
Qed.

Lemma on_step_trans (d d1 d2 : Dev.Device) (ids : list string) tr tr2 :
  Dev.on_step d ids d1 tr -> Dev.on_step d1 ids d2 tr2 -> Dev.on_step d ids d2 (tr ++ tr2).
Proof.
  intros [Hd Htr] [Hd2 Htr2]. split.
  - destruct Hd as [-> | ->]; destruct Hd2 as [-> | ->]; auto.
  - apply List.Forall_app. split; [exact Htr|].
    destruct Hd as [-> | ->]; exact Htr2.
Qed.

Lemma turn_on_standard_on_step ids : forall (d : Dev.Device) kw b p,
  Dev.on_step d ids (fst (Dev.turn_on_standard hass d kw b p ids))
                (snd (Dev.turn_on_standard hass d kw b p ids)).
Proof.
  induction ids as [| id ids IH]; intros d kw b p; simpl.
  - split; [auto | constructor].
  - pose proof (turn_on_entity_on_step d kw b p id) as H.
    destruct (Dev.turn_on_entity hass d kw b p id) as [[f d1] tr]. simpl in H.
    assert (H' : Dev.on_step d (id :: ids) d1 tr).
    { eapply on_step_weaken; [|exact H]. intros x [<- | []]. now left. }
    destruct f; [|exact H'].
    specialize (IH d1 kw b p).
    destruct (Dev.turn_on_standard hass d1 kw b p ids) as [d2 tr2]. simpl in *.
    eapply on_step_trans; [exact H'|].
    eapply on_step_weaken; [|exact IH]. intros x Hx. now right.
Qed.

Lemma turn_on_acinfinity_on_step ids : forall (d : Dev.Device) b p,
  Dev.on_step d ids (snd (fst (Dev.turn_on_acinfinity hass d b p ids)))
                (snd (Dev.turn_on_acinfinity hass d b p ids)).
Proof.
  induction ids as [| id ids IH]; intros d b p.
  - simpl. split; [auto | constructor].
  - cbn [Dev.turn_on_acinfinity].
    pose proof (invoke_on_step d (id :: ids)
                  (Dev.ServiceCall "select" "select_option" id (Dev.DataOption "On"))
                  (or_introl eq_refl)) as H.
    destruct (Dev.invoke hass _) as [[] tr]; cbn [negb snd] in *;
      [|split; [auto | exact H]].
    match goal with
    | |- context [match ?v with Some _ => _ | None => _ end] => destruct v
    end.
    + simpl. split; [auto|]. apply List.Forall_app. split; [exact H | apply set_value_on_step].
    + specialize (IH d b p).
      destruct (Dev.turn_on_acinfinity hass d b p ids) as [[f d1] tr1]. simpl in *.
      apply (on_step_trans d d (snd (f, d1)) (id :: ids) tr tr1).
      * split; [auto | exact H].
      * eapply on_step_weaken; [|exact IH]. intros x Hx. now right.
Qed.

Lemma select_ids_sub (es : list Dev.entity) (x : string) :
  In x (Dev.select_ids es) -> In x (map Dev.entity_id es).
Proof.
  unfold Dev.select_ids. rewrite !in_map_iff.
  intros (e & He & Hin). apply List.filter_In in Hin. exists e. tauto.
Qed.

Lemma acinfinity_ids_own (d : Dev.Device) (x : string) :
  In x (Dev.acinfinity_ids d) -> In x (Dev.own_entities d).
Proof.
  unfold Dev.acinfinity_ids, Dev.own_entities. rewrite map_app, in_app_iff.
  destruct (Dev.select_ids (Dev.switches d)) eqn:E.
  - intros H. right. now apply select_ids_sub.
  - rewrite <- E. intros H. left. now apply select_ids_sub.
Qed.

Lemma on_step_own (d d' : Dev.Device) (ids : list string) tr :
  (forall x, In x ids -> In x (Dev.own_entities d)) ->
  Dev.on_step d ids d' tr ->
  Forall (fun c => In (Dev.target c) (Dev.own_entities d)) tr.
Proof.
  intros Hsub [_ Htr]. eapply List.Forall_impl; [|exact Htr]. simpl.
  intros c [H|H]; [now apply Hsub|].
  unfold Dev.own_entities. rewrite map_app, in_app_iff. now right.
Qed.

(** The whole of what an accepted [turn_on] does after recording the
    time. *)
Lemma turn_on_body_on_step (kw : Dev.kwargs) (b p : option Q) (d1 : Dev.Device) :
  let r :=
    let '(f, d2, tr) :=
      if Dev.isAcInfinDev d1
      then Dev.turn_on_acinfinity hass d1 b p (Dev.acinfinity_ids d1)
      else (Dev.Continue, d1, []) in
    match f with
    | Dev.Leave => (d2, tr)
    | Dev.Continue =>
        let '(d3, tr3) :=
          Dev.turn_on_standard hass d2 kw b p (map Dev.entity_id (Dev.switches d2)) in
        (d3, (tr ++ tr3)%list)
    end in
  Dev.on_step d1 (Dev.own_entities d1) (fst r) (snd r).
Proof.
  intros r. subst r.
  assert (H1 : exists f d2 tr,
             (if Dev.isAcInfinDev d1
              then Dev.turn_on_acinfinity hass d1 b p (Dev.acinfinity_ids d1)
              else (Dev.Continue, d1, [])) = (f, d2, tr) /\
             Dev.on_step d1 (Dev.own_entities d1) d2 tr).
  { destruct (Dev.isAcInfinDev d1).
    - pose proof (turn_on_acinfinity_on_step (Dev.acinfinity_ids d1) d1 b p) as H.
      destruct (Dev.turn_on_acinfinity hass d1 b p (Dev.acinfinity_ids d1)) as [[f d2] tr].
      exists f, d2, tr. split; [reflexivity|].
      eapply on_step_weaken; [|exact H]. apply acinfinity_ids_own.
    - exists Dev.Continue, d1, []. split; [reflexivity|]. split; [auto | constructor]. }
  destruct H1 as (f & d2 & tr & -> & H).
  destruct f; [|exact H].
  pose proof (turn_on_standard_on_step (map Dev.entity_id (Dev.switches d2)) d2 kw b p) as H2.
  destruct (Dev.turn_on_standard hass d2 kw b p _) as [d3 tr3]. simpl in *.
  eapply on_step_trans; [exact H|].
  eapply on_step_weaken; [|exact H2].
  assert (Hsw : Dev.switches d2 = Dev.switches d1)
    by (destruct H as [[-> | ->] _]; reflexivity).
  intros x Hx. unfold Dev.own_entities. rewrite map_app, in_app_iff.
  left. now rewrite <- Hsw.
Qed.

(** X10.  [turn_on] changes nothing of a device but its running flag, its
    active-control flag and the time of the last accepted call: the running
    flag stays or becomes [True], the active-control flag ends [False], the
    time stays or becomes [now].  Control values, bounds and entity lists
    are never touched. *)
Theorem turn_on_frame (now : Q) (kw : Dev.kwargs) (d : Dev.Device) :
  exists r t,
    fst (Dev.turn_on hass now kw d)
    = Dev.set_isRunning r
        (Dev.set_in_active_control (Some false) (Dev.set_last_turn_on_time t d)) /\
    (r = Dev.isRunning d \/ r = Some true) /\
    (t = Dev._last_turn_on_time d \/ t = Some now).
Proof.
  unfold Dev.turn_on.
  destruct (negb _).
  { exists (Dev.isRunning d), (Dev._last_turn_on_time d).
    split; [destruct d; reflexivity | auto]. }
  destruct (Py.Qltb _ 3).
  { exists (Dev.isRunning d), (Dev._last_turn_on_time d).
    split; [destruct d; reflexivity | auto]. }
  cbv zeta.
  set (d1 := Dev.set_last_turn_on_time (Some now) (Dev.set_in_active_control (Some true) d)).
  pose proof (turn_on_body_on_step kw (Dev.resolve_brightness_pct d1 kw)
                (Dev.resolve_percentage d1 kw) d1) as [Hd _].
  cbv zeta in Hd.
  destruct (if Dev.isAcInfinDev d1 then _ else _) as [[f d2] tr].
  destruct f.
  - destruct (Dev.turn_on_standard hass d2 kw _ _ _) as [d3 tr3]. simpl in *.
    destruct Hd as [-> | ->].
    + exists (Dev.isRunning d), (Some now). split; [destruct d; reflexivity | auto].
    + exists (Some true), (Some now). split; [destruct d; reflexivity | auto].
  - simpl in *. destruct Hd as [-> | ->].
    + exists (Dev.isRunning d), (Some now). split; [destruct d; reflexivity | auto].
    + exists (Some true), (Some now). split; [destruct d; reflexivity | auto].
Qed.

(** X11.  A [turn_on] that finds the device offline reaches the host with
    nothing and is forgotten: whatever the host, the time and the
    arguments of the next [turn_on], it behaves as if the offline attempt
    had not been made (in particular the cooldown is not started). *)
Theorem offline_turn_on_forgotten (now : Q) (kw : Dev.kwargs) (d : Dev.Device) :
  Dev._is_device_online hass d = false ->
  snd (Dev.turn_on hass now kw d) = [] /\
  forall hass' now' kw',
    Dev.turn_on hass' now' kw' (fst (Dev.turn_on hass now kw d))
    = Dev.turn_on hass' now' kw' d.
Proof.
  intros Hoff.
  assert (E : Dev.turn_on hass now kw d
              = (Dev.set_in_active_control (Some false)
                   (Dev.set_in_active_control (Some true) d), [])).
  { unfold Dev.turn_on.
    assert (Hoff' : Dev._is_device_online hass (Dev.set_in_active_control (Some true) d)
                    = false) by exact Hoff.
    now rewrite Hoff'. }
  rewrite E. split; [reflexivity|].
  intros hass' now' kw'. unfold Dev.turn_on. reflexivity.
Qed.

(** X12.  Every service call of [turn_on] and of [set_value] is addressed
    to an entity of the device itself, one of its switches or options;
    [set_value] makes at most one call, a [number.set_value]. *)
Theorem calls_target_own_entities (now : Q) (kw : Dev.kwargs) (d : Dev.Device) (v : Q) :
  Forall (fun c => In (Dev.target c) (Dev.own_entities d)) (snd (Dev.turn_on hass now kw d)) /\
  Forall (fun c => In (Dev.target c) (Dev.own_entities d) /\
                   Dev.domain c = "number" /\ Dev.service c = "set_value")
         (Dev.set_value hass d v) /\
  (List.length (Dev.set_value hass d v) <= 1)%nat.
Proof.
  split; [|split; [|apply set_value_targets]].
  - unfold Dev.turn_on.
    destruct (negb _); [constructor|].
    destruct (Py.Qltb _ 3); [constructor|].
    cbv zeta.
    set (d1 := Dev.set_last_turn_on_time (Some now) (Dev.set_in_active_control (Some true) d)).
    pose proof (turn_on_body_on_step kw (Dev.resolve_brightness_pct d1 kw)
                  (Dev.resolve_percentage d1 kw) d1) as H.
    cbv zeta in H.
    apply on_step_own in H; [|auto].
    destruct (if Dev.isAcInfinDev d1 then _ else _) as [[f d2] tr].
    destruct f; [|exact H].
    destruct (Dev.turn_on_standard hass d2 kw _ _ _) as [d3 tr3]. exact H.
  - eapply List.Forall_impl; [|apply (proj1 (set_value_targets d v))]. simpl.
    intros c (H & Hd & Hs). split; [|tauto].
    unfold Dev.own_entities. rewrite map_app, in_app_iff. now right.
Qed.

Lemma off_step_refl (d : Dev.Device) (ids : list string) : Dev.off_step d ids d [].
Proof.
  split; [|constructor].
  exists (Dev.isRunning d), (Dev.voltage d). split; [destruct d; reflexivity | auto].
Qed.

Lemma off_step_stopped (d : Dev.Device) (ids : list string) :
  Dev.off_step d ids (Dev.set_isRunning (Some false) d) [].
Proof.
  split; [|constructor].
  exists (Some false), (Dev.voltage d). split; [destruct d; reflexivity | auto].
Qed.

Lemma off_step_calls (d d' : Dev.Device) (ids : list string) tr tr' :
  Dev.off_step d ids d' tr ->
  Forall (fun c => In (Dev.target c) ids /\ Dev.switches_off c = true) tr' ->
  Dev.off_step d ids d' tr'.
Proof. intros [Hd _] H. split; assumption. Qed.

Lemma off_step_weaken (d : Dev.Device) (ids ids' : list string) d' tr :
  (forall x, In x ids -> In x ids') -> Dev.off_step d ids d' tr -> Dev.off_step d ids' d' tr.
Proof.
  intros Hsub [Hd Htr]. split; [exact Hd|].
  eapply List.Forall_impl; [|exact Htr]. simpl. intros c [H1 H2]. auto.
Qed.

Lemma off_step_trans (d d1 d2 : Dev.Device) (ids : list string) tr tr2 :
  Dev.off_step d ids d1 tr -> Dev.off_step d1 ids d2 tr2 ->
  Dev.off_step d ids d2 (tr ++ tr2).
Proof.
  intros [(r & v & -> & Hr & Hv) Htr] [(r2 & v2 & -> & Hr2 & Hv2) Htr2].
  split; [|apply List.Forall_app; split; assumption].
  exists r2, v2. split; [reflexivity|]. simpl in Hr2, Hv2.
  split.
  - destruct Hr2 as [-> | ->]; auto.
  - destruct Hv2 as [-> | ->]; auto.
Qed.

Lemma invoke_off_step (ids : list string) (c : Dev.service_call) :
  In (Dev.target c) ids -> Dev.switches_off c = true ->
  Forall (fun c => In (Dev.target c) ids /\ Dev.switches_off c = true)
         (snd (Dev.invoke hass c)).
Proof.
  intros Hin Hoff. destruct (invoke_trace c) as [-> | ->]; repeat constructor; assumption.
Qed.

Lemma call_and_stop_off_step (d : Dev.Device) (id : string) (c : Dev.service_call) :
  Dev.target c = id -> Dev.switches_off c = true ->
  Dev.off_step d [id] (snd (fst (Dev.call_and_stop hass d c)))
                      (snd (Dev.call_and_stop hass d c)).
Proof.
  intros Ht Hoff. unfold Dev.call_and_stop.
  pose proof (invoke_off_step [id] c (or_introl (eq_sym Ht)) Hoff) as H.
  destruct (Dev.invoke hass c) as [[] tr]; simpl in *.
  - eapply off_step_calls; [apply (off_step_stopped d [id]) | exact H].
  - eapply off_step_calls; [apply (off_step_refl d [id]) | exact H].
Qed.

Lemma turn_off_entity_off_step (d : Dev.Device) (id : string) :
  Dev.off_step d [id] (snd (fst (Dev.turn_off_entity hass d id)))
                      (snd (Dev.turn_off_entity hass d id)).
Proof.
  unfold Dev.turn_off_entity.
  repeat match goal with
         | |- context [if ?c then _ else _] =>
             lazymatch c with
             | context [Dev.invoke] => fail
             | _ => destruct c
             end
         end;
    try (apply call_and_stop_off_step; reflexivity);
    try apply off_step_refl.
  - pose proof (invoke_off_step [id] (Dev.ServiceCall "light" "turn_off" id Dev.NoData)
                  (or_introl eq_refl) eq_refl) as H.
    destruct (Dev.invoke hass _) as [[] tr]; simpl in *.
    + split; [|exact H]. exists (Some false), (Some 0). split; [reflexivity | auto].
    + eapply off_step_calls; [apply (off_step_refl d [id]) | exact H].
  - pose proof (invoke_off_step [id] (Dev.ServiceCall "light" "turn_off" id Dev.NoData)
                  (or_introl eq_refl) eq_refl) as H.
    destruct (Dev.invoke hass _) as [[] tr]; simpl in *.
    + eapply off_step_calls; [apply (off_step_stopped d [id]) | exact H].
    + eapply off_step_calls; [apply (off_step_refl d [id]) | exact H].
  - pose proof (invoke_off_step [id] (Dev.ServiceCall "fan" "turn_off" id Dev.NoData)
                  (or_introl eq_refl) eq_refl) as H.
    destruct (Dev.invoke hass _) as [[] tr]; simpl in *.
    + eapply off_step_calls; [apply (off_step_stopped d [id]) | exact H].
    + eapply off_step_calls; [apply (off_step_refl d [id]) | exact H].
  - pose proof (invoke_off_step [id] (Dev.switch_turn_off id) (or_introl eq_refl) eq_refl) as H.
    destruct (Dev.invoke hass _) as [[] tr]; simpl in *.
    + eapply off_step_calls; [apply (off_step_stopped d [id]) | exact H].
    + eapply off_step_calls; [apply (off_step_refl d [id]) | exact H].
Qed.

Lemma turn_off_standard_off_step ids : forall d : Dev.Device,
  Dev.off_step d ids (fst (Dev.turn_off_standard hass d ids))
                     (snd (Dev.turn_off_standard hass d ids)).
Proof.
  induction ids as [| id ids IH]; intros d; simpl; [apply off_step_refl|].
  pose proof (turn_off_entity_off_step d id) as H.
  destruct (Dev.turn_off_entity hass d id) as [[f d1] tr]. simpl in H.
  assert (H' : Dev.off_step d (id :: ids) d1 tr).
  { eapply off_step_weaken; [|exact H]. intros x [<- | []]. now left. }
  destruct f; [|exact H'].
  specialize (IH d1).
  destruct (Dev.turn_off_standard hass d1 ids) as [d2 tr2]. simpl in *.
  eapply off_step_trans; [exact H'|].
  eapply off_step_weaken; [|exact IH]. intros x Hx. now right.
Qed.

Lemma turn_off_acinfinity_off_step ids : forall d : Dev.Device,
  Dev.off_step d ids (fst (Dev.turn_off_acinfinity hass d ids))
                     (snd (Dev.turn_off_acinfinity hass d ids)).
Proof.
  induction ids as [| id ids IH]; intros d; [apply off_step_refl|].
  cbn [Dev.turn_off_acinfinity].
  pose proof (invoke_off_step (id :: ids)
                (Dev.ServiceCall "select" "select_option" id (Dev.DataOption "Off"))
                (or_introl eq_refl) eq_refl) as H.
  destruct (Dev.invoke hass _) as [[] tr]; cbn [negb snd] in *.
  2: { eapply off_step_calls; [apply (off_step_refl d (id :: ids)) | exact H]. }
  cbv zeta.
  assert (H2 : Forall (fun c => In (Dev.target c) (id :: ids) /\ Dev.switches_off c = true)
                 (snd (if Py.mem (Dev.deviceType d)
                            ["Light"; "Humidifier"; "Exhaust"; "Ventilation"]
                       then Dev.invoke hass
                              (Dev.ServiceCall "number" "set_value" id (Dev.DataValue 0))
                       else (true, [])))).
  { destruct (Py.mem _ _); [|constructor].
    apply invoke_off_step; [now left | reflexivity]. }
  destruct (if Py.mem _ _ then _ else _) as [[] tr2]; cbn [negb snd] in *.
  - specialize (IH (Dev.set_isRunning (Some false) d)).
    destruct (Dev.turn_off_acinfinity hass (Dev.set_isRunning (Some false) d) ids)
      as [d2 tr3]. simpl in IH |- *.
    rewrite app_assoc.
    eapply off_step_trans.
    + eapply off_step_calls; [apply (off_step_stopped d (id :: ids))|].
      apply List.Forall_app. split; assumption.
    + eapply off_step_weaken; [|exact IH]. intros x Hx. now right.
  - simpl. eapply off_step_calls; [apply (off_step_stopped d (id :: ids))|].
    apply List.Forall_app. split; assumption.
Qed.

Lemma turn_off_off_step (d : Dev.Device) :
  Dev.off_step d (Dev.own_entities d) (fst (Dev.turn_off hass d)) (snd (Dev.turn_off hass d)).
Proof.
  unfold Dev.turn_off. destruct (Dev.isAcInfinDev d).
  - eapply off_step_weaken; [|apply turn_off_acinfinity_off_step].
    apply acinfinity_ids_own.
  - eapply off_step_weaken; [|apply turn_off_standard_off_step].
    intros x Hx. unfold Dev.own_entities. rewrite map_app, in_app_iff. now left.
Qed.

(** X13.  [turn_off] never switches anything on and never reaches beyond
    the device: every service call it makes is addressed to one of the
    device's own entities and is a [turn_off], the hvac mode ["off"], the
    option ["Off"] or the value 0.  Of the device it changes at most the
    running flag (to [False]) and the voltage (to 0); it neither consults
    nor starts the cooldown of [turn_on]. *)
Theorem turn_off_only_switches_off (d : Dev.Device) :
  Forall (fun c => In (Dev.target c) (Dev.own_entities d) /\ Dev.switches_off c = true)
         (snd (Dev.turn_off hass d)) /\
  exists r v,
    fst (Dev.turn_off hass d) = Dev.set_voltage v (Dev.set_isRunning r d) /\
    (r = Dev.isRunning d \/ r = Some false) /\
    (v = Dev.voltage d \/ v = Some 0%Q).
Proof.
  destruct (turn_off_off_step d) as [Hd Htr]. split; assumption.
Qed.

End ActuationFrame.

Lemma offline_turn_on_forgotten_witness :
  snd (Dev.turn_on (Some Dev.offline_host) 10 Dev.no_kwargs Dev.heater_on_a_switch) = [].
Proof.
  exact (proj1 (offline_turn_on_forgotten (Some Dev.offline_host) 10 Dev.no_kwargs
                  Dev.heater_on_a_switch eq_refl)).
Defined.

(** ** Entering work mode, and the emergency stop *)

Section WorkModeEnter.

Variable hass : option Dev.HomeAssistant.
Variable clock : nat -> Q.

Local Open Scope Q_scope.

(** X14.  The emergency stop keeps the devices' names and order, ends with
    the control loop stopped, and never switches anything on: every service
    call it makes switches off an entity of one of the managed devices. *)
Theorem emergency_stop_only_switches_off (devices : list (string * UI.managed)) :
  let r := UI.emergency_stop hass devices in
  snd r = false /\
  map fst (fst (fst r)) = map fst devices /\
  Forall (fun c => Dev.switches_off c = true /\
                   exists name dev, In (name, dev) devices /\
                                    In (Dev.target c) (Dev.own_entities (UI.obj dev)))
         (snd (fst r)).
Proof.
  intros r. subst r. unfold UI.emergency_stop.
  assert (H : map fst (fst (UI.turn_off_all hass devices)) = map fst devices /\
              Forall (fun c => Dev.switches_off c = true /\
                               exists name dev, In (name, dev) devices /\
                                 In (Dev.target c) (Dev.own_entities (UI.obj dev)))
                     (snd (UI.turn_off_all hass devices))).
  { induction devices as [| [name dev] devices IH]; simpl; [split; [reflexivity | constructor]|].
    destruct (turn_off_off_step hass (UI.obj dev)) as [_ Htr].
    destruct (Dev.turn_off hass (UI.obj dev)) as [d1 tr].
    destruct IH as [IHn IHc].
    destruct (UI.turn_off_all hass devices) as [rest1 tr2]. simpl in *.
    split; [now rewrite IHn|].
    apply List.Forall_app. split.
    - eapply List.Forall_impl; [|exact Htr]. simpl. intros c [Ht Hoff].
      split; [exact Hoff|]. exists name, dev. auto.
    - eapply List.Forall_impl; [|exact IHc]. simpl.
      intros c (Hoff & n & dv & Hin & Ht). split; [exact Hoff|]. exists n, dv. auto. }
  destruct (UI.turn_off_all hass devices) as [devices1 tr]. simpl in *.
  split; [reflexivity | exact H].
Qed.

(** X15.  Entering work mode on a device that is not dimmable never
    switches anything on: the method raises nothing, and all that reaches
    the host are calls that switch off entities of the device itself. *)
Theorem workmode_enter_non_dimmable (d : Dev.Device) :
  Dev.isDimmable d = false ->
  let r := Dev.WorkMode hass clock d true in
  snd r = false /\
  Forall (fun e => exists c, e = Dev.Hardware c /\ Dev.switches_off c = true /\
                             In (Dev.target c) (Dev.own_entities d))
         (snd (fst r)).
Proof.
  intros Hdim r. subst r. unfold Dev.WorkMode, Dev.WorkMode_body.
  destruct (Dev.light_is_off d).
  { destruct (Py.mem _ _); simpl; split; auto. }
  cbv zeta. cbn [Dev.isDimmable Dev.set_inWorkMode Dev.deviceType]. rewrite Hdim.
  destruct (Py.mem (Dev.deviceType d) Dev.unaffected_types); [simpl; split; auto|].
  cbn [Dev.wm_calls Dev.wm_device Dev.wm_raised Dev.run_calls].
  destruct (turn_off_off_step hass (Dev.set_inWorkMode true d)) as [_ Htr].
  destruct (Dev.turn_off hass (Dev.set_inWorkMode true d)) as [d1 tr]. simpl in *.
  split; [reflexivity|]. rewrite app_nil_r.
  induction Htr as [| c tr [Ht Hoff] _ IH]; simpl; constructor; [|exact IH].
  exists c. auto.
Qed.

(** X16.  Entering work mode starts an idle fan.  On a dimmable exhaust
    or intake fan with one entity (not special, not AC-Infinity), with a
    minimum duty set, the light not off and the call accepted by the rate
    limit: whatever the running flag was, exactly one request reaches the
    host, [fan.set_percentage] with the minimum truncated to a whole
    number; the duty cycle becomes the minimum, and the device is marked
    running when the host completes the call. *)
Theorem workmode_enter_starts_fan (h : Dev.HomeAssistant) (d : Dev.Device) (mn : Q)
    (s : Dev.entity) :
  Dev.light_is_off d = false -> Dev.isDimmable d = true ->
  Dev.isSpecialDevice d = false -> Dev.isAcInfinDev d = false ->
  Dev.deviceType d = "Exhaust" \/ Dev.deviceType d = "Intake" ->
  Dev.minDuty d = Some mn -> Dev.switches d = [s] ->
  Dev.accepted (Some h) (clock 0%nat) d ->
  let r := Dev.WorkMode (Some h) clock d true in
  let c := Dev.fan_set_percentage (Dev.entity_id s) (Some (inject_Z (Py.int mn))) in
  snd r = false /\
  snd (fst r) = [Dev.Hardware c] /\
  Dev.dutyCycle (fst (fst r)) = Some mn /\
  Dev.inWorkMode (fst (fst r)) = true /\
  Dev.isRunning (fst (fst r)) = (if Dev.async_call h c then Some true else Dev.isRunning d).
Proof.
  intros Hoff Hdim Hspec Hac Hty Hmn Hsw [Hon Hlast] r c. subst r c.
  assert (Hrate : Py.Qltb (clock 0%nat - match Dev._last_turn_on_time d
                                         with Some t => t | None => 0 end) 3 = false)
    by (apply Qltb_false; exact Hlast).
  unfold Dev.WorkMode, Dev.WorkMode_body. rewrite Hoff. cbv zeta.
  cbn [Dev.isDimmable Dev.set_inWorkMode Dev.deviceType Dev.minDuty].
  rewrite Hdim, Hmn.
  assert (Hnl : String.eqb (Dev.deviceType d) "Light" = false)
    by (destruct Hty as [-> | ->]; reflexivity).
  assert (Hns : Py.mem (Dev.deviceType d) Dev.special_light_types = false)
    by (destruct Hty as [-> | ->]; reflexivity).
  rewrite Hnl, Hns.
  cbn [Dev.isSpecialDevice Dev.set_dutyCycle Dev.set_inWorkMode]. rewrite Hspec.
  cbn [Dev.wm_calls Dev.wm_device Dev.wm_raised app Dev.run_calls].
  set (d2 := Dev.set_dutyCycle (Some mn) (Dev.set_inWorkMode true d)).
  set (kw := Dev.percentage_kw (Some (inject_Z (Py.int mn)))).
  assert (E : Dev.turn_on (Some h) (clock 0%nat) kw d2
              = (let c := Dev.fan_set_percentage (Dev.entity_id s)
                            (Some (inject_Z (Py.int mn))) in
                 (Dev.set_in_active_control (Some false)
                    ((if Dev.async_call h c
                      then Dev.set_isRunning (Some true) else fun x => x)
                       (Dev.set_last_turn_on_time (Some (clock 0%nat))
                          (Dev.set_in_active_control (Some true) d2))), [c]))).
  { unfold Dev.turn_on.
    assert (Hon' : Dev._is_device_online (Some h)
                     (Dev.set_in_active_control (Some true) d2) = true) by exact Hon.
    assert (Hrate' : Py.Qltb (clock 0%nat
                              - match Dev._last_turn_on_time
                                        (Dev.set_in_active_control (Some true) d2)
                                with Some t => t | None => 0 end) 3 = false)
      by exact Hrate.
    rewrite Hon', Hrate'. cbn [negb]. cbv zeta.
    set (d1 := Dev.set_last_turn_on_time (Some (clock 0%nat))
                 (Dev.set_in_active_control (Some true) d2)).
    assert (Hac1 : Dev.isAcInfinDev d1 = false) by exact Hac.
    assert (Hsw1 : Dev.switches d1 = [s]) by exact Hsw.
    assert (Hsp1 : Dev.isSpecialDevice d1 = false) by exact Hspec.
    assert (Hdim1 : Dev.isDimmable d1 = true) by exact Hdim.
    assert (Hty1 : Dev.deviceType d1 = Dev.deviceType d) by reflexivity.
    rewrite Hac1, Hsw1. cbn [map Dev.turn_on_standard].
    assert (Hp : Dev.resolve_percentage d1 kw = Some (inject_Z (Py.int mn))) by reflexivity.
    rewrite Hp.
    assert (Hent : forall b,
               Dev.turn_on_entity (Some h) d1 kw b (Some (inject_Z (Py.int mn)))
                 (Dev.entity_id s)
               = Dev.call_and_return (Some h) d1
                   (Dev.fan_set_percentage (Dev.entity_id s)
                      (Some (inject_Z (Py.int mn))))).
    { intros b. unfold Dev.turn_on_entity, Dev.turn_on_fan.
      rewrite Hty1, Hsp1, Hdim1. destruct Hty as [-> | ->]; reflexivity. }
    rewrite Hent. unfold Dev.call_and_return, Dev.invoke.
    destruct (Dev.async_call h _); reflexivity. }
  rewrite E. cbv zeta.
  destruct (Dev.async_call h _); simpl; repeat split.
Qed.

(** X17.  On a special device the percentage call of work mode never
    reaches the host: when the brightness call is accepted and the next
    clock reading is less than three seconds later, the second [turn_on]
    is rate-limited, so what the host sees, and the device afterwards, are
    those of the brightness call alone. *)
Theorem workmode_special_second_call_dropped (d : Dev.Device) (mn : Q) :
  Dev.light_is_off d = false -> Dev.isDimmable d = true ->
  Dev.isSpecialDevice d = true ->
  Dev.deviceType d <> "Light" ->
  Py.mem (Dev.deviceType d) Dev.special_light_types = false ->
  Dev.minDuty d = Some mn ->
  Dev.accepted hass (clock 0%nat) d ->
  clock 1%nat - clock 0%nat < 3 ->
  let first :=
    Dev.turn_on hass (clock 0%nat) (Dev.brightness_kw (Some (inject_Z (Py.int mn))))
      (Dev.set_dutyCycle (Some mn) (Dev.set_inWorkMode true d)) in
  Dev.WorkMode hass clock d true = (fst first, map Dev.Hardware (snd first), false).
Proof.
  intros Hoff Hdim Hspec Hty Hsp Hmn Hacc Hclock first. subst first.
  apply String.eqb_neq in Hty.
  unfold Dev.WorkMode, Dev.WorkMode_body. rewrite Hoff. cbv zeta.
  cbn [Dev.isDimmable Dev.set_inWorkMode Dev.deviceType Dev.minDuty].
  rewrite Hdim, Hty, Hsp, Hmn.
  cbn [Dev.isSpecialDevice Dev.set_dutyCycle Dev.set_inWorkMode]. rewrite Hspec.
  cbn [Dev.wm_calls Dev.wm_device Dev.wm_raised app Dev.run_calls].
  set (d2 := Dev.set_dutyCycle (Some mn) (Dev.set_inWorkMode true d)).
  set (kw := Dev.brightness_kw (Some (inject_Z (Py.int mn)))).
  assert (Hacc2 : Dev.accepted hass (clock 0%nat) d2) by exact Hacc.
  pose proof (turn_on_clears_flag hass (clock 0%nat) kw d2) as Hflag.
  pose proof (turn_on_records_time hass (clock 0%nat) kw d2 Hacc2) as Hlast.
  destruct (Dev.turn_on hass (clock 0%nat) kw d2) as [d3 tr]. simpl in Hflag, Hlast.
  rewrite (turn_on_rate_limited hass (clock 1%nat) (clock 0%nat) _ d3 Hflag Hlast Hclock).
  simpl. now rewrite app_nil_r.
Qed.

End WorkModeEnter.

Lemma workmode_enter_non_dimmable_witness :
  snd (Dev.WorkMode (Some Dev.willing_host) Dev.fast_clock Dev.heater_on_a_switch true)
  = false.
Proof.
  exact (proj1 (workmode_enter_non_dimmable (Some Dev.willing_host) Dev.fast_clock
                  Dev.heater_on_a_switch eq_refl)).
Defined.

Lemma workmode_enter_starts_fan_witness :
  Dev.isRunning
    (fst (fst (Dev.WorkMode (Some Dev.willing_host) Dev.fast_clock
                 (Dev.dimmable_exhaust (Some false)) true))) = Some true.
Proof.
  assert (Hacc : Dev.accepted (Some Dev.willing_host) (Dev.fast_clock 0)
                   (Dev.dimmable_exhaust (Some false))).
  { split; [reflexivity | vm_compute; discriminate]. }
  exact (proj2 (proj2 (proj2 (proj2
           (workmode_enter_starts_fan Dev.fast_clock Dev.willing_host
              (Dev.dimmable_exhaust (Some false)) 20 _
              eq_refl eq_refl eq_refl eq_refl (or_introl eq_refl) eq_refl eq_refl Hacc))))).
Defined.

Lemma workmode_special_second_call_dropped_witness :
  List.length
    (snd (fst (Dev.WorkMode (Some Dev.willing_host) Dev.fast_clock Dev.special_exhaust true)))
  = 1%nat.
Proof.
  assert (Hacc : Dev.accepted (Some Dev.willing_host) (Dev.fast_clock 0) Dev.special_exhaust).
  { split; [reflexivity | vm_compute; discriminate]. }
  assert (Hclock : (Dev.fast_clock 1 - Dev.fast_clock 0 < 3)%Q) by reflexivity.
  pose proof (workmode_special_second_call_dropped (Some Dev.willing_host) Dev.fast_clock
                Dev.special_exhaust 20 eq_refl eq_refl eq_refl ltac:(discriminate)
                eq_refl eq_refl Hacc Hclock) as E.
  cbv zeta in E. rewrite E. vm_compute. reflexivity.
Defined.

(** ** The predictive controller: history, prediction and learning *)

Section Controller.

Local Open Scope Q_scope.

(** Appending to a list capped at [n] entries, the oldest being dropped. *)
Lemma append_capped {A : Type} (n : nat) (l : list A) (x : A) :
  (List.length l <= n)%nat ->
  (List.length (if (n <? List.length (l ++ [x]))%nat
                then tl (l ++ [x])%list else (l ++ [x])%list) <= n)%nat.
Proof.
  intros Hl. rewrite List.length_app. simpl List.length.
  destruct (n <? List.length l + 1)%nat eqn:E.
  - destruct l; simpl in *; [lia|]. rewrite List.length_app. simpl. lia.
  - apply Nat.ltb_ge in E. rewrite List.length_app. simpl. lia.
Qed.

(** X18.  The sensor history is a rolling window: a history within the
    configured size stays within it; the new sample is appended and at most
    one sample, the oldest, is dropped, and none while the window is not
    full; with a positive size the newest sample is the last entry. *)
Theorem sensor_history_rolling_window (size : nat) (now : Q)
    (history : list UI.history_entry) (sd : UI.sensor_data) :
  (List.length history <= size)%nat ->
  let history' := UI._update_sensor_history size now history sd in
  (List.length history' <= size)%nat /\
  (exists k, (k <= 1)%nat /\ history' = skipn k (history ++ [UI.Entry now sd])%list) /\
  ((List.length history < size)%nat -> history' = (history ++ [UI.Entry now sd])%list) /\
  ((0 < size)%nat -> forall e, List.last history' e = UI.Entry now sd).
Proof.
  intros Hlen history'. subst history'. unfold UI._update_sensor_history.
  rewrite List.length_app. simpl List.length.
  destruct (size <? List.length history + 1)%nat eqn:E.
  - apply Nat.ltb_lt in E.
    destruct history as [| a rest]; simpl in *.
    + repeat split; try lia. exists 1%nat. split; [lia | reflexivity].
    + rewrite List.length_app. simpl. repeat split; try lia.
      * exists 1%nat. split; [lia | reflexivity].
      * intros _ e. apply List.last_last.
  - apply Nat.ltb_ge in E. repeat split; try (rewrite List.length_app; simpl; lia).
    + exists 0%nat. split; [lia | reflexivity].
    + intros _ e. apply List.last_last.
Qed.

Lemma pre_adjust_cases (t : Q) :
  let e := if Py.Qltb (1 # 2) t then Py.min 15 (t * 5)
           else if Py.Qltb t (- (1 # 2)) then Py.max (-10) (t * 3)
           else 0 in
  -10 <= e <= 15 /\
  (1 # 2 < t -> 0 < e) /\
  (t < - (1 # 2) -> e < 0) /\
  (- (1 # 2) <= t <= 1 # 2 -> e = 0).
Proof.
  cbv zeta.
  destruct (Py.Qltb (1 # 2) t) eqn:Ehi;
    [apply Qltb_true in Ehi | apply Qltb_false in Ehi].
  - destruct (min_cases 15 (t * 5)) as [[H ->] | [H ->]]; repeat split; try lra.
  - destruct (Py.Qltb t (- (1 # 2))) eqn:Elo;
      [apply Qltb_true in Elo | apply Qltb_false in Elo].
    + destruct (max_cases (-10) (t * 3)) as [[H ->] | [H ->]]; repeat split; try lra.
    + repeat split; try lra.
Qed.

(** X19.  The exhaust pre-adjustment of the predictive factors is always
    within [-10, 15]; it is positive exactly when the predicted temperature
    change is above 0.5, negative exactly when it is below -0.5, and zero in
    between. *)
Theorem exhaust_pre_adjust_bounded (p : UI.parameters) (sd : UI.sensor_data)
    (g : UI.gradients) :
  let f := UI._calculate_predictive_factors p sd g in
  -10 <= UI.exhaust_pre_adjust f <= 15 /\
  (1 # 2 < UI.temp_predicted_change f <-> 0 < UI.exhaust_pre_adjust f) /\
  (UI.temp_predicted_change f < - (1 # 2) <-> UI.exhaust_pre_adjust f < 0) /\
  (- (1 # 2) <= UI.temp_predicted_change f <= 1 # 2 -> UI.exhaust_pre_adjust f = 0).
Proof.
  intros f.
  assert (E : (UI.temp_predicted_change f = 0 /\ UI.exhaust_pre_adjust f = 0) \/
              UI.exhaust_pre_adjust f =
                (let t := UI.temp_predicted_change f in
                 if Py.Qltb (1 # 2) t then Py.min 15 (t * 5)
                 else if Py.Qltb t (- (1 # 2)) then Py.max (-10) (t * 3)
                 else 0)).
  { subst f. unfold UI._calculate_predictive_factors.
    destruct (UI.outside_temp sd), (UI.ambient_temp sd),
      (UI.or_else (UI.tent_temp sd) (UI.temperature sd)); simpl; auto. }
  destruct E as [[-> ->] | ->].
  - repeat split; try lra; intros H; lra.
  - cbv zeta.
    destruct (pre_adjust_cases (UI.temp_predicted_change f)) as (Hb & Hpos & Hneg & Hzero).
    cbv zeta in *. split; [exact Hb|]. split; [|split; [|exact Hzero]].
    + split; [exact Hpos|]. intros H.
      apply Qnot_le_lt. intros Hle.
      destruct (Qlt_le_dec (UI.temp_predicted_change f) (- (1 # 2))) as [Hl | Hl].
      * specialize (Hneg Hl). lra.
      * rewrite (Hzero (conj Hl Hle)) in H. lra.
    + split; [exact Hneg|]. intros H.
      apply Qnot_le_lt. intros Hle.
      destruct (Qlt_le_dec (1 # 2) (UI.temp_predicted_change f)) as [Hl | Hl].
      * specialize (Hpos Hl). lra.
      * rewrite (Hzero (conj Hle Hl)) in H. lra.
Qed.

Lemma learned_inertia_bounds (recent_gradients : list UI.gradients) (x : Q) :
  3 # 10 <= x <= 8 # 10 ->
  3 # 10 <= UI.learned_inertia recent_gradients x <= 8 # 10 /\
  - (5 # 100) <= UI.learned_inertia recent_gradients x - x <= 5 # 100.
Proof.
  intros Hx. unfold UI.learned_inertia.
  destruct recent_gradients as [| g rest]; [lra|].
  cbv zeta. destruct (Py.Qltb 2 _).
  - destruct (min_cases (8 # 10) (x + (5 # 100))) as [[H ->] | [H ->]]; lra.
  - destruct (Py.Qltb _ (1 # 2)); [|lra].
    destruct (max_cases (3 # 10) (x - (5 # 100))) as [[H ->] | [H ->]]; lra.
Qed.

(** X20.  One learning step keeps the ambient-to-tent inertia within
    [0.3, 0.8] when it was there, moves it by at most 0.05, keeps the
    learning log within 100 entries, and changes nothing else: not the
    other parameters, the sensor history or the targets. *)
Theorem learn_from_cycle_bounded (s : UI.manager_state) :
  3 # 10 <= UI.ambient_tent_inertia (UI.ms_parameters s) <= 8 # 10 ->
  (List.length (UI.ms_control_history s) <= 100)%nat ->
  let s' := UI._learn_from_cycle s in
  3 # 10 <= UI.ambient_tent_inertia (UI.ms_parameters s') <= 8 # 10 /\
  - (5 # 100) <= UI.ambient_tent_inertia (UI.ms_parameters s')
                 - UI.ambient_tent_inertia (UI.ms_parameters s) <= 5 # 100 /\
  (List.length (UI.ms_control_history s') <= 100)%nat /\
  UI.prediction_window_minutes (UI.ms_parameters s')
    = UI.prediction_window_minutes (UI.ms_parameters s) /\
  UI.gradient_history_size (UI.ms_parameters s')
    = UI.gradient_history_size (UI.ms_parameters s) /\
  UI.outside_ambient_inertia (UI.ms_parameters s')
    = UI.outside_ambient_inertia (UI.ms_parameters s) /\
  UI.ms_sensor_history s' = UI.ms_sensor_history s /\
  UI.ms_targets s' = UI.ms_targets s.
Proof.
  intros Hx Hlen s'. subst s'. unfold UI._learn_from_cycle. cbv zeta.
  cbn [UI.ms_parameters UI.ms_control_history UI.ms_sensor_history UI.ms_targets].
  pose proof (append_capped 100 (UI.ms_control_history s)
                (UI._calculate_gradients (UI.ms_sensor_history s)) Hlen) as Hlog.
  destruct (10 <=? List.length (UI.ms_sensor_history s))%nat.
  - cbn [UI.ambient_tent_inertia UI.with_inertia UI.prediction_window_minutes
         UI.gradient_history_size UI.outside_ambient_inertia].
    pose proof (learned_inertia_bounds
                  (UI.recent (if (100 <? List.length
                                     (UI.ms_control_history s
                                      ++ [UI._calculate_gradients (UI.ms_sensor_history s)]))%nat
                              then tl (UI.ms_control_history s
                                       ++ [UI._calculate_gradients (UI.ms_sensor_history s)])%list
                              else (UI.ms_control_history s
                                    ++ [UI._calculate_gradients (UI.ms_sensor_history s)])%list))
                  _ Hx) as [H1 H2].
    repeat split; try apply H1; try apply H2; auto.
  - repeat split; try apply Hx; try lra; auto.
Qed.

End Controller.

Lemma sensor_history_rolling_window_witness :
  (List.length (UI._update_sensor_history 2 7200 UI.an_hour_of_warming
                  (UI.tent_at_humidity 50)) <= 2)%nat.
Proof.
  exact (proj1 (sensor_history_rolling_window 2 7200 UI.an_hour_of_warming
                  (UI.tent_at_humidity 50) (le_n 2))).
Defined.

Lemma learn_from_cycle_bounded_witness :
  (List.length (UI.ms_control_history (UI._learn_from_cycle UI.initial_state)) <= 100)%nat.
Proof.
  assert (Hx : (3 # 10 <= UI.ambient_tent_inertia (UI.ms_parameters UI.initial_state)
                <= 8 # 10)%Q) by (split; discriminate).
  exact (proj1 (proj2 (proj2 (learn_from_cycle_bounded UI.initial_state Hx
                                (Nat.le_0_l 100))))).
Defined.

(** ** The control loop *)

Section ControlLoop.

Local Open Scope Q_scope.

(** What the loop keeps: the history within the configured size, the
    learning log within 100 entries, the inertia within [0.3, 0.8]. *)
Lemma cycle_keeps_bounds (ds : UI.data_store) devices (learning : bool) (now : Q)
    (sd : UI.sensor_data) (s : UI.manager_state) (size : nat) :
  UI.gradient_history_size (UI.ms_parameters s) = size ->
  (List.length (UI.ms_sensor_history s) <= size)%nat ->
  (List.length (UI.ms_control_history s) <= 100)%nat ->
  3 # 10 <= UI.ambient_tent_inertia (UI.ms_parameters s) <= 8 # 10 ->
  let s' := fst (fst (UI._execute_control_cycle ds devices learning now sd s)) in
  UI.gradient_history_size (UI.ms_parameters s') = size /\
  (List.length (UI.ms_sensor_history s') <= size)%nat /\
  (List.length (UI.ms_control_history s') <= 100)%nat /\
  3 # 10 <= UI.ambient_tent_inertia (UI.ms_parameters s') <= 8 # 10.
Proof.
  intros Hsize Hh Hc Hx s'. subst s'. unfold UI._execute_control_cycle. cbv zeta.
  rewrite Hsize.
  pose proof (append_capped size (UI.ms_sensor_history s) (UI.Entry now sd) Hh) as Hh'.
  change (List.length (UI._update_sensor_history size now (UI.ms_sensor_history s) sd)
          <= size)%nat in Hh'.
  destruct (UI._calculate_targets _ _ _ _) as [tg|]; [|simpl; auto].
  destruct (UI._execute_direct_control devices tg sd) as [cmds [|]]; [simpl; auto|].
  destruct learning; [|simpl; auto].
  set (s2 := UI.ManagerState _ _ _ _).
  assert (Hx2 : 3 # 10 <= UI.ambient_tent_inertia (UI.ms_parameters s2) <= 8 # 10) by exact Hx.
  assert (Hc2 : (List.length (UI.ms_control_history s2) <= 100)%nat) by exact Hc.
  cbn [fst].
  pose proof (learned_inertia_bounds) as Hl.
  unfold UI._learn_from_cycle. cbv zeta.
  cbn [UI.ms_parameters UI.ms_control_history UI.ms_sensor_history UI.ms_targets].
  split; [|split; [|split]].
  - destruct (10 <=? _)%nat; exact Hsize.
  - exact Hh'.
  - apply (append_capped 100 (UI.ms_control_history s)). exact Hc.
  - destruct (10 <=? _)%nat; [|exact Hx].
    cbn [UI.ambient_tent_inertia UI.with_inertia]. apply Hl. exact Hx.
Qed.

(** X21.  However many iterations the control loop runs, with or without
    learning and whether or not cycles raise: the sensor history stays
    within the configured size (which never changes), the learning log
    within 100 entries and the inertia within [0.3, 0.8], provided they
    start there; and every iteration is logged. *)
Theorem control_loop_keeps_bounds (learning : bool) (envs : list UI.cycle_env) :
  forall (s : UI.manager_state),
  (List.length (UI.ms_sensor_history s)
   <= UI.gradient_history_size (UI.ms_parameters s))%nat ->
  (List.length (UI.ms_control_history s) <= 100)%nat ->
  3 # 10 <= UI.ambient_tent_inertia (UI.ms_parameters s) <= 8 # 10 ->
  let r := UI._control_loop learning envs s in
  UI.gradient_history_size (UI.ms_parameters (fst r))
    = UI.gradient_history_size (UI.ms_parameters s) /\
  (List.length (UI.ms_sensor_history (fst r))
   <= UI.gradient_history_size (UI.ms_parameters s))%nat /\
  (List.length (UI.ms_control_history (fst r)) <= 100)%nat /\
  3 # 10 <= UI.ambient_tent_inertia (UI.ms_parameters (fst r)) <= 8 # 10 /\
  List.length (snd r) = List.length envs.
Proof.
  induction envs as [| e envs IH]; intros s Hh Hc Hx; cbv zeta.
  - simpl. auto.
  - cbn [UI._control_loop].
    pose proof (cycle_keeps_bounds (UI.env_store e) (UI.env_devices e) learning
                  (UI.env_now e) (UI.env_sensor_data e) s _ eq_refl Hh Hc Hx) as H.
    cbv zeta in H.
    destruct (UI._execute_control_cycle _ _ _ _ _ s) as [[s1 cmds] raised].
    cbn [fst] in H. destruct H as (H1 & H2 & H3 & H4).
    rewrite <- H1 in H2.
    specialize (IH s1 H2 H3 H4). cbv zeta in IH.
    destruct (UI._control_loop learning envs s1) as [s2 log]. cbn [fst snd] in *.
    rewrite H1 in IH. destruct IH as (I1 & I2 & I3 & I4 & I5).
    repeat split; auto; try apply I4. simpl. now rewrite I5.
Qed.

Lemma predictive_factors_params (p p' : UI.parameters) (sd : UI.sensor_data)
    (g : UI.gradients) :
  UI.prediction_window_minutes p = UI.prediction_window_minutes p' ->
  UI.outside_ambient_inertia p = UI.outside_ambient_inertia p' ->
  UI._calculate_predictive_factors p sd g = UI._calculate_predictive_factors p' sd g.
Proof.
  intros H1 H2. unfold UI._calculate_predictive_factors. now rewrite H1, H2.
Qed.

Lemma calculate_targets_params (p p' : UI.parameters) ds history (sd : UI.sensor_data) :
  UI.prediction_window_minutes p = UI.prediction_window_minutes p' ->
  UI.outside_ambient_inertia p = UI.outside_ambient_inertia p' ->
  UI._calculate_targets p ds history sd = UI._calculate_targets p' ds history sd.
Proof.
  intros H1 H2. unfold UI._calculate_targets.
  now rewrite (predictive_factors_params p p' sd _ H1 H2).
Qed.

Lemma learn_from_cycle_agrees (s : UI.manager_state) :
  UI.agree_up_to_learning (UI._learn_from_cycle s) s.
Proof.
  unfold UI.agree_up_to_learning, UI._learn_from_cycle. cbv zeta.
  cbn [UI.ms_parameters UI.ms_control_history UI.ms_sensor_history UI.ms_targets].
  destruct (10 <=? _)%nat; repeat split.
Qed.

Lemma agree_trans (a b c : UI.manager_state) :
  UI.agree_up_to_learning a b -> UI.agree_up_to_learning b c ->
  UI.agree_up_to_learning a c.
Proof.
  unfold UI.agree_up_to_learning.
  intros (A1 & A2 & A3 & A4 & A5) (B1 & B2 & B3 & B4 & B5).
  repeat split; congruence.
Qed.

Lemma agree_sym (a b : UI.manager_state) :
  UI.agree_up_to_learning a b -> UI.agree_up_to_learning b a.
Proof.
  unfold UI.agree_up_to_learning. intros (A1 & A2 & A3 & A4 & A5). repeat split; congruence.
Qed.

Lemma cycle_agrees (ds : UI.data_store) devices (b b' : bool) (now : Q)
    (sd : UI.sensor_data) (s s' : UI.manager_state) :
  UI.agree_up_to_learning s s' ->
  let r := UI._execute_control_cycle ds devices b now sd s in
  let r' := UI._execute_control_cycle ds devices b' now sd s' in
  UI.agree_up_to_learning (fst (fst r)) (fst (fst r')) /\
  snd (fst r) = snd (fst r') /\ snd r = snd r'.
Proof.
  intros (A1 & A2 & A3 & A4 & A5) r r'. subst r r'.
  unfold UI._execute_control_cycle. cbv zeta.
  rewrite A1, A2, A4, (calculate_targets_params _ _ _ _ _ A3 A5).
  destruct (UI._calculate_targets _ _ _ _) as [tg|].
  2: { simpl. repeat split; assumption. }
  destruct (UI._execute_direct_control devices tg sd) as [cmds [|]].
  { simpl. repeat split; assumption. }
  cbn [fst snd]. split; [|split; reflexivity].
  set (s2 := UI.ManagerState (UI.ms_parameters s) _ _ _).
  set (s2' := UI.ManagerState (UI.ms_parameters s') _ _ _).
  assert (H2 : UI.agree_up_to_learning s2 s2') by (repeat split; assumption).
  destruct b, b'; auto.
  - eapply agree_trans; [apply learn_from_cycle_agrees|].
    eapply agree_trans; [exact H2|]. apply agree_sym, learn_from_cycle_agrees.
  - eapply agree_trans; [apply learn_from_cycle_agrees | exact H2].
  - eapply agree_trans; [exact H2|]. apply agree_sym, learn_from_cycle_agrees.
Qed.

(** X22.  Adaptive learning has no effect on control: run from the same
    state through the same environments, the loop with learning and the
    loop without it await the same commands and raise in the same
    iterations, and end with the same sensor history and targets.  (The
    inertia that learning adjusts is read by no calculation.) *)
Theorem learning_never_changes_control (envs : list UI.cycle_env) :
  forall (s s' : UI.manager_state),
  UI.agree_up_to_learning s s' ->
  let r := UI._control_loop true envs s in
  let r' := UI._control_loop false envs s' in
  snd r = snd r' /\
  UI.ms_sensor_history (fst r) = UI.ms_sensor_history (fst r') /\
  UI.ms_targets (fst r) = UI.ms_targets (fst r').
Proof.
  induction envs as [| e envs IH]; intros s s' Hs; cbv zeta.
  - simpl. destruct Hs as (A1 & A2 & _). auto.
  - cbn [UI._control_loop].
    pose proof (cycle_agrees (UI.env_store e) (UI.env_devices e) true false
                  (UI.env_now e) (UI.env_sensor_data e) s s' Hs) as H.
    cbv zeta in H.
    destruct (UI._execute_control_cycle _ _ true _ _ s) as [[s1 cmds] raised].
    destruct (UI._execute_control_cycle _ _ false _ _ s') as [[s1' cmds'] raised'].
    cbn [fst snd] in H. destruct H as (H1 & -> & ->).
    specialize (IH s1 s1' H1). cbv zeta in IH.
    destruct (UI._control_loop true envs s1) as [s2 log].
    destruct (UI._control_loop false envs s1') as [s2' log'].
    cbn [fst snd] in *. destruct IH as (-> & I2 & I3). auto.
Qed.

End ControlLoop.

Lemma control_loop_keeps_bounds_witness :
  List.length
    (snd (UI._control_loop true
            [UI.CycleEnv 0 (UI.tent_at_humidity 50) UI.default_store UI.humidity_devices]
            UI.initial_state)) = 1%nat.
Proof.
  assert (Hx : (3 # 10 <= UI.ambient_tent_inertia (UI.ms_parameters UI.initial_state)
                <= 8 # 10)%Q) by (split; discriminate).
  exact (proj2 (proj2 (proj2 (proj2
           (control_loop_keeps_bounds true
              [UI.CycleEnv 0 (UI.tent_at_humidity 50) UI.default_store UI.humidity_devices]
              UI.initial_state (Nat.le_0_l 20) (Nat.le_0_l 100) Hx))))).
Defined.

Lemma learning_never_changes_control_witness :
  snd (UI._control_loop true
         [UI.CycleEnv 0 (UI.tent_at_humidity 50) UI.default_store UI.humidity_devices]
         UI.initial_state)
  = snd (UI._control_loop false
           [UI.CycleEnv 0 (UI.tent_at_humidity 50) UI.default_store UI.humidity_devices]
           UI.initial_state).
Proof.
  exact (proj1 (learning_never_changes_control
                  [UI.CycleEnv 0 (UI.tent_at_humidity 50) UI.default_store
                     UI.humidity_devices]
                  UI.initial_state UI.initial_state
                  (conj eq_refl (conj eq_refl (conj eq_refl (conj eq_refl eq_refl)))))).
Defined.

(** ** Targets, the heater and what stalls a cycle *)

Section TargetsAndCycle.

Local Open Scope Q_scope.

(** X23.  Whenever [_calculate_targets] returns, the actuator targets it
    stores are bounded: the light intensity within [0, 100], the exhaust
    speed within [10, 100], and the intake speed within [8.5, 85] and never
    above the exhaust speed. *)
Theorem actuator_targets_in_range (p : UI.parameters) (ds : UI.data_store)
    (history : list UI.history_entry) (sd : UI.sensor_data) (tg : UI.targets) :
  UI._calculate_targets p ds history sd = Some tg ->
  exists light exhaust intake,
    UI.tg_light_intensity tg = Some light /\
    UI.tg_exhaust_speed tg = Some exhaust /\
    UI.tg_intake_speed tg = Some intake /\
    0 <= light <= 100 /\ 10 <= exhaust <= 100 /\
    17 # 2 <= intake <= 85 /\ intake <= exhaust.
Proof.
  unfold UI._calculate_targets. cbv zeta.
  destruct (UI.stage_ranges ds) as [[temp_min temp_max] hum_optimal].
  destruct (UI.adjusted_targets _ _ _ _) as [tt th].
  destruct (UI._calculate_base_exhaust_speed _ _ _ _ _) as [base|]; [|discriminate].
  intros [= <-]. cbn [UI.tg_light_intensity UI.tg_exhaust_speed UI.tg_intake_speed].
  set (pre := UI.exhaust_pre_adjust _).
  set (te := Py.max 10 (Py.min 100 (base + pre))).
  set (tl := Py.max 0 (Py.min 100 _)).
  assert (Hte : 10 <= te <= 100) by (apply clamp_in_range; discriminate).
  assert (Htl : 0 <= tl <= 100) by (apply clamp_in_range; discriminate).
  assert (Hti : 17 # 2 <= te * (85 # 100) <= 85) by lra.
  assert (R0 : Py.round1 0 == 0) by reflexivity.
  assert (R10 : Py.round1 10 == 10) by reflexivity.
  assert (R100 : Py.round1 100 == 100) by reflexivity.
  assert (R85 : Py.round1 85 == 85) by reflexivity.
  assert (R8 : Py.round1 (17 # 2) == 17 # 2) by reflexivity.
  pose proof (round1_window _ _ _ Hte) as Re.
  pose proof (round1_window _ _ _ Htl) as Rl.
  pose proof (round1_window _ _ _ Hti) as Ri.
  assert (Rie : Py.round1 (te * (85 # 100)) <= Py.round1 te)
    by (apply round1_monotone; lra).
  do 3 eexists. repeat split; try reflexivity; try lra.
Qed.

Lemma control_light_not_heater devices tg cs :
  UI.control_light devices tg = Some cs -> List.filter UI.about_heater cs = [].
Proof.
  unfold UI.control_light. repeat break_match; intros [= <-]; reflexivity.
Qed.

Lemma control_fan_not_heater key devices target cs :
  String.eqb key "heater" = false ->
  UI.control_fan key devices target = Some cs -> List.filter UI.about_heater cs = [].
Proof.
  intros Hk. unfold UI.control_fan. repeat break_match; intros [= <-]; try reflexivity.
  simpl. unfold UI.about_heater. simpl. now rewrite Hk.
Qed.

Lemma control_humidity_not_heater devices current target cs :
  UI.control_humidity devices current target = Some cs ->
  List.filter UI.about_heater cs = [].
Proof.
  unfold UI.control_humidity, UI.when. repeat break_match; intros [= <-]; reflexivity.
Qed.

Lemma control_heater_all_heater devices current target cs :
  UI.control_heater devices current target = Some cs -> List.filter UI.about_heater cs = cs.
Proof.
  unfold UI.control_heater. repeat break_match; intros [= <-]; reflexivity.
Qed.

(** X24.  With a current temperature and a temperature target, in a cycle
    whose earlier blocks do not raise: the cycle does not raise; the heater
    is turned on exactly when it is managed and the target is more than 3
    above the temperature, turned off exactly when it is managed and the
    target is more than 1 below; in between no command goes to it. *)
Theorem heater_hysteresis devices tg (sd : UI.sensor_data) (current target : Q) :
  UI.or_else (UI.tent_temp sd) (UI.temperature sd) = Some current ->
  UI.tg_temperature_target tg = Some target ->
  UI.control_light devices tg <> None ->
  UI.control_fan "exhaust" devices (UI.tg_exhaust_speed tg) <> None ->
  UI.control_fan "intake" devices (UI.tg_intake_speed tg) <> None ->
  UI.control_humidity devices (UI.or_else (UI.tent_hum sd) (UI.humidity sd))
    (UI.tg_humidity_target tg) <> None ->
  let r := UI._execute_direct_control devices tg sd in
  let cmds := List.filter UI.about_heater (fst r) in
  let diff := target - current in
  snd r = false /\
  (In (UI.TurnOn "heater" Dev.no_kwargs) cmds <->
   3 < diff /\ UI.present devices "heater" = true) /\
  (In (UI.TurnOff "heater") cmds <->
   diff < -1 /\ UI.present devices "heater" = true) /\
  (-1 <= diff <= 3 -> cmds = []).
Proof.
  intros Hc Ht Hl He Hi Hh r cmds diff.
  assert (E : snd r = false /\
              cmds = if UI.present devices "heater" then
                       if Py.Qltb 3 diff then [UI.TurnOn "heater" Dev.no_kwargs]
                       else if Py.Qltb diff (-1) then [UI.TurnOff "heater"]
                       else []
                     else []).
  { subst cmds r. unfold UI._execute_direct_control. cbv zeta.
    destruct (UI.control_light devices tg) as [cl|] eqn:El; [|congruence].
    destruct (UI.control_fan "exhaust" _ _) as [ce|] eqn:Ee; [|congruence].
    destruct (UI.control_fan "intake" _ _) as [ci|] eqn:Ei; [|congruence].
    destruct (UI.control_humidity _ _ _) as [ch|] eqn:Eh; [|congruence].
    assert (Eheat : UI.control_heater devices
                      (UI.or_else (UI.tent_temp sd) (UI.temperature sd))
                      (UI.tg_temperature_target tg)
                    = Some (if UI.present devices "heater" then
                              if Py.Qltb 3 diff then [UI.TurnOn "heater" Dev.no_kwargs]
                              else if Py.Qltb diff (-1) then [UI.TurnOff "heater"]
                              else []
                            else [])).
    { rewrite Hc, Ht. unfold UI.control_heater. fold diff.
      destruct (UI.present devices "heater"); [|reflexivity].
      destruct (Py.Qltb 3 diff); [reflexivity|]. now destruct (Py.Qltb diff (-1)). }
    rewrite Eheat. cbn [UI.sequence fst snd]. split; [reflexivity|].
    rewrite !List.filter_app,
      (control_light_not_heater _ _ _ El),
      (control_fan_not_heater "exhaust" _ _ _ eq_refl Ee),
      (control_fan_not_heater "intake" _ _ _ eq_refl Ei),
      (control_humidity_not_heater _ _ _ _ Eh),
      (control_heater_all_heater _ _ _ _ Eheat).
    simpl. now rewrite app_nil_r. }
  destruct E as [Er ->]. split; [exact Er|].
  destruct (UI.present devices "heater");
    (destruct (Py.Qltb 3 diff) eqn:Ehi; [apply Qltb_true in Ehi | apply Qltb_false in Ehi]);
    (destruct (Py.Qltb diff (-1)) eqn:Elo; [apply Qltb_true in Elo | apply Qltb_false in Elo]);
    simpl; repeat split;
    try (intros [? | []]); try (intros [? ?]); try (intros []);
    try discriminate; try tauto; auto; try lra;
    try match goal with H : _ = _ \/ False |- _ => destruct H as [H | []]; discriminate H end.
Qed.

Lemma calculate_targets_needs_vpd (p : UI.parameters) (ds : UI.data_store)
    (history : list UI.history_entry) (sd : UI.sensor_data) :
  UI.vpd sd = None -> UI._calculate_targets p ds history sd = None.
Proof.
  intros Hv. unfold UI._calculate_targets. cbv zeta.
  destruct (UI.stage_ranges ds) as [[temp_min temp_max] hum_optimal].
  destruct (UI.adjusted_targets _ _ _ _) as [tt th].
  now rewrite Hv.
Qed.

Lemma calculate_targets_with_vpd (p : UI.parameters) (ds : UI.data_store)
    (history : list UI.history_entry) (sd : UI.sensor_data) (v : Q) :
  UI.vpd sd = Some v ->
  exists tg, UI._calculate_targets p ds history sd = Some tg /\
             UI.tg_light_intensity tg <> None.
Proof.
  intros Hv. unfold UI._calculate_targets. cbv zeta.
  destruct (UI.stage_ranges ds) as [[temp_min temp_max] hum_optimal].
  destruct (UI.adjusted_targets _ _ _ _) as [tt th].
  rewrite Hv. unfold UI._calculate_base_exhaust_speed.
  eexists. split; [reflexivity | discriminate].
Qed.

(** X25.  A cycle without a VPD reading raises before anything is
    decided: no command is awaited, the targets stay as they were and
    nothing is learnt; only the sample is added to the sensor history. *)
Theorem cycle_without_vpd_stalls (ds : UI.data_store) devices (learning : bool) (now : Q)
    (sd : UI.sensor_data) (s : UI.manager_state) :
  UI.vpd sd = None ->
  UI._execute_control_cycle ds devices learning now sd s
  = ({| UI.ms_parameters := UI.ms_parameters s;
        UI.ms_sensor_history :=
          UI._update_sensor_history (UI.gradient_history_size (UI.ms_parameters s)) now
            (UI.ms_sensor_history s) sd;
        UI.ms_targets := UI.ms_targets s;
        UI.ms_control_history := UI.ms_control_history s |}, [], true).
Proof.
  intros Hv. unfold UI._execute_control_cycle. cbv zeta.
  now rewrite (calculate_targets_needs_vpd _ _ _ _ Hv).
Qed.

(** X26.  A managed light whose voltage was never read stalls the
    controller: with a VPD reading the targets are calculated and stored,
    but the cycle raises at the light block, so no command at all is
    awaited (no fan, humidifier or heater is driven) and nothing is
    learnt. *)
Theorem light_without_voltage_stalls (ds : UI.data_store) devices (learning : bool)
    (now : Q) (sd : UI.sensor_data) (s : UI.manager_state) (light : UI.managed) (v : Q) :
  UI.device devices "light" = Some light ->
  Dev.voltage (UI.obj light) = None ->
  UI.vpd sd = Some v ->
  let r := UI._execute_control_cycle ds devices learning now sd s in
  snd (fst r) = [] /\ snd r = true /\
  UI.ms_control_history (fst (fst r)) = UI.ms_control_history s /\
  UI.ms_parameters (fst (fst r)) = UI.ms_parameters s /\
  UI._calculate_targets (UI.ms_parameters s) ds (UI.ms_sensor_history (fst (fst r))) sd
  = Some (UI.ms_targets (fst (fst r))).
Proof.
  intros Hdev Hvolt Hv r. subst r. unfold UI._execute_control_cycle. cbv zeta.
  destruct (calculate_targets_with_vpd (UI.ms_parameters s) ds
              (UI._update_sensor_history (UI.gradient_history_size (UI.ms_parameters s)) now
                 (UI.ms_sensor_history s) sd) sd v Hv) as (tg & Etg & Hlight).
  rewrite Etg.
  assert (El : UI.control_light devices tg = None).
  { unfold UI.control_light. rewrite Hdev, Hvolt.
    destruct (UI.tg_light_intensity tg); [reflexivity | congruence]. }
  unfold UI._execute_direct_control. cbv zeta. rewrite El. cbn [UI.sequence].
  cbn [fst snd UI.ms_control_history UI.ms_parameters UI.ms_sensor_history UI.ms_targets].
  repeat split. exact Etg.
Qed.

Lemma find_key_NoDup {A : Type} (l : list (string * A)) (k : string) (v : A) :
  NoDup (map fst l) -> In (k, v) l ->
  find (fun kv => String.eqb (fst kv) k) l = Some (k, v).
Proof.
  induction l as [| [k' v'] l IH]; simpl; [tauto|]. intros Hnd Hin.
  apply NoDup_cons in Hnd. destruct Hnd as [Hk Hnd]. rewrite list_elem_of_In in Hk.
  destruct (String.eqb k' k) eqn:E.
  - apply String.eqb_eq in E. subst k'.
    destruct Hin as [[= <-] | Hin]; [reflexivity|].
    exfalso. apply Hk. apply in_map_iff. exists (k, v). auto.
  - apply String.eqb_neq in E.
    destruct Hin as [[= -> ->] | Hin]; [congruence|]. now apply IH.
Qed.

(** X27.  The plant-stage lookup returns nothing exactly for the empty
    stage name or when no key of the table equals the name up to spaces and
    hyphens; what it returns is the entry of such a key; and the exact key
    wins: when the name is a key of the table (keys being distinct), its
    own entry is returned, whatever other keys normalise to the same
    name. *)
Theorem plant_stage_lookup (ds : UI.data_store) (stage : string) :
  (UI._get_plant_stage_data ds stage = None <->
   stage = "" \/
   forall key data, In (key, data) (UI.plantStages ds) ->
                    UI.normalize key <> UI.normalize stage) /\
  (forall data, UI._get_plant_stage_data ds stage = Some data ->
     exists key, In (key, data) (UI.plantStages ds) /\
                 UI.normalize key = UI.normalize stage) /\
  (stage <> "" -> NoDup (map fst (UI.plantStages ds)) ->
   forall data, In (stage, data) (UI.plantStages ds) ->
                UI._get_plant_stage_data ds stage = Some data).
Proof.
  unfold UI._get_plant_stage_data.
  destruct (String.eqb stage "") eqn:Es.
  { apply String.eqb_eq in Es. split; [tauto|]. split; [discriminate|]. congruence. }
  apply String.eqb_neq in Es.
  assert (Hexact : NoDup (map fst (UI.plantStages ds)) ->
                   forall data, In (stage, data) (UI.plantStages ds) ->
                   find (fun kv => String.eqb (fst kv) stage) (UI.plantStages ds)
                   = Some (stage, data))
    by (intros Hnd data Hin; now apply find_key_NoDup).
  destruct (find (fun kv => String.eqb (fst kv) stage) (UI.plantStages ds))
    as [[k d]|] eqn:Ex.
  { destruct (find_some _ _ Ex) as [Hin Hk]. simpl in Hk.
    apply String.eqb_eq in Hk. subst k.
    split; [|split].
    - split; [discriminate|]. intros [H | H]; [contradiction|].
      exfalso. exact (H stage d Hin eq_refl).
    - intros data [= <-]. exists stage. auto.
    - intros _ Hnd data Hd. specialize (Hexact Hnd data Hd). now inversion Hexact. }
  destruct (find (fun kv => String.eqb (UI.normalize (fst kv)) (UI.normalize stage))
              (UI.plantStages ds)) as [[k d]|] eqn:En.
  { destruct (find_some _ _ En) as [Hin Hk]. simpl in Hk.
    apply String.eqb_eq in Hk.
    split; [|split].
    - split; [discriminate|]. intros [H | H]; [contradiction|].
      exfalso. exact (H k d Hin Hk).
    - intros data [= <-]. exists k. auto.
    - intros _ Hnd data Hd. specialize (Hexact Hnd data Hd). discriminate. }
  split; [|split].
  - split; [|reflexivity]. intros _. right. intros key data Hin.
    pose proof (find_none _ _ En (key, data) Hin) as H. simpl in H.
    now apply String.eqb_neq.
  - discriminate.
  - intros _ Hnd data Hd. specialize (Hexact Hnd data Hd). discriminate.
Qed.

End TargetsAndCycle.

Lemma actuator_targets_in_range_witness :
  exists exhaust, UI.tg_exhaust_speed UI.first_cycle_targets = Some exhaust /\
                  (10 <= exhaust <= 100)%Q.
Proof.
  assert (E : UI._calculate_targets UI.default_parameters UI.default_store
                (UI._update_sensor_history 20 0 [] (UI.tent_at_humidity 50))
                (UI.tent_at_humidity 50) = Some UI.first_cycle_targets)
    by (vm_compute; reflexivity).
  destruct (actuator_targets_in_range _ _ _ _ _ E)
    as (light & exhaust & intake & _ & He & _ & _ & Hb & _).
  exists exhaust. split; assumption.
Defined.

Lemma heater_hysteresis_witness :
  In (UI.TurnOn "heater" Dev.no_kwargs)
     (List.filter UI.about_heater
        (fst (UI._execute_direct_control UI.heater_only (UI.climate_targets_only 28 50)
                (UI.tent_at_humidity 50)))).
Proof.
  assert (Hl : UI.control_light UI.heater_only (UI.climate_targets_only 28 50) <> None)
    by (vm_compute; discriminate).
  assert (He : UI.control_fan "exhaust" UI.heater_only
                 (UI.tg_exhaust_speed (UI.climate_targets_only 28 50)) <> None)
    by (vm_compute; discriminate).
  assert (Hi : UI.control_fan "intake" UI.heater_only
                 (UI.tg_intake_speed (UI.climate_targets_only 28 50)) <> None)
    by (vm_compute; discriminate).
  assert (Hh : UI.control_humidity UI.heater_only
                 (UI.or_else (UI.tent_hum (UI.tent_at_humidity 50))
                    (UI.humidity (UI.tent_at_humidity 50)))
                 (UI.tg_humidity_target (UI.climate_targets_only 28 50)) <> None)
    by (vm_compute; discriminate).
  destruct (heater_hysteresis UI.heater_only (UI.climate_targets_only 28 50)
              (UI.tent_at_humidity 50) 24 28 eq_refl eq_refl Hl He Hi Hh)
    as (_ & Hon & _).
  apply Hon. split; reflexivity.
Defined.

Lemma cycle_without_vpd_stalls_witness :
  snd (UI._execute_control_cycle UI.default_store UI.humidity_devices true 0
         UI.without_vpd UI.initial_state) = true.
Proof.
  rewrite (cycle_without_vpd_stalls UI.default_store UI.humidity_devices true 0
             UI.without_vpd UI.initial_state eq_refl).
  reflexivity.
Defined.

Lemma light_without_voltage_stalls_witness :
  snd (fst (UI._execute_control_cycle UI.default_store UI.light_without_voltage true 0
              (UI.tent_at_humidity 90) UI.initial_state)) = [].
Proof.
  assert (Hdev : exists light, UI.device UI.light_without_voltage "light" = Some light /\
                               Dev.voltage (UI.obj light) = None)
    by (eexists; split; reflexivity).
  destruct Hdev as (light & Hdev & Hvolt).
  exact (proj1 (light_without_voltage_stalls UI.default_store UI.light_without_voltage
                  true 0 (UI.tent_at_humidity 90) UI.initial_state light 1
                  Hdev Hvolt eq_refl)).
Defined.

(** ** The capability registry in the device manager *)

Section RegistryMaintenance.

Implicit Types (d : Dev.Device) (caps : gmap string Dev.capability).

Lemma unique_from_In (l : list string) : forall seen x,
  In x (Mgr.unique_from seen l) <-> In x l /\ ~ In x seen.
Proof.
  induction l as [| y l IH]; intros seen x; simpl; [tauto|].
  destruct (Py.mem y seen) eqn:E.
  - apply mem_In in E. rewrite IH. split; [tauto|].
    intros [[<- | H1] H2]; [contradiction | tauto].
  - assert (Hy : ~ In y seen) by (intros H; apply mem_In in H; congruence).
    simpl. rewrite IH. simpl. split.
    + intros [<- | [H1 H2]]; tauto.
    + intros [[<- | H1] H2]; [tauto|].
      destruct (string_dec y x) as [-> | Hne]; [tauto|]. right. tauto.
Qed.

Lemma unique_from_NoDup (l : list string) : forall seen, NoDup (Mgr.unique_from seen l).
Proof.
  induction l as [| y l IH]; intros seen; simpl; [constructor|].
  destruct (Py.mem y seen); [apply IH|].
  constructor; [|apply IH].
  rewrite list_elem_of_In, unique_from_In. simpl. tauto.
Qed.

Lemma unique_from_length (l : list string) : forall seen,
  (List.length (Mgr.unique_from seen l) <= List.length l)%nat.
Proof.
  induction l as [| y l IH]; intros seen; simpl; [lia|].
  destruct (Py.mem y seen); simpl.
  - specialize (IH seen). lia.
  - specialize (IH (y :: seen)). lia.
Qed.

Lemma unique_from_same_length (l : list string) : forall seen,
  List.length (Mgr.unique_from seen l) = List.length l -> Mgr.unique_from seen l = l.
Proof.
  induction l as [| y l IH]; intros seen; simpl; [reflexivity|].
  destruct (Py.mem y seen); simpl.
  - pose proof (unique_from_length l seen). lia.
  - intros H. f_equal. apply IH. lia.
Qed.

Lemma unique_from_fixed (l : list string) : forall seen,
  NoDup l -> (forall x, In x l -> ~ In x seen) -> Mgr.unique_from seen l = l.
Proof.
  induction l as [| y l IH]; intros seen Hnd Hdis; simpl; [reflexivity|].
  apply NoDup_cons in Hnd. destruct Hnd as [Hy Hnd]. rewrite list_elem_of_In in Hy.
  destruct (Py.mem y seen) eqn:E.
  - apply mem_In in E. exfalso. apply (Hdis y); [now left | exact E].
  - f_equal. apply IH; [exact Hnd|].
    intros x Hx [<- | Hs]; [contradiction|]. apply (Hdis x); [now right | exact Hs].
Qed.

Lemma deduplicate_entry_spec (e : Dev.capability) :
  NoDup (Dev.devEntities (Mgr.deduplicate_entry e)) /\
  (forall x, In x (Dev.devEntities (Mgr.deduplicate_entry e)) <-> In x (Dev.devEntities e)) /\
  (Mgr.deduplicate_entry e = e \/
   (Dev.count (Mgr.deduplicate_entry e)
    = Z.of_nat (List.length (Dev.devEntities (Mgr.deduplicate_entry e))) /\
    Dev.state (Mgr.deduplicate_entry e) = true)).
Proof.
  unfold Mgr.deduplicate_entry.
  destruct (Dev.devEntities e) as [| x l] eqn:El.
  { rewrite El. split; [constructor|]. split; [tauto | auto]. }
  destruct (negb _) eqn:E.
  - cbn [Dev.devEntities Dev.count Dev.state]. split; [apply unique_from_NoDup|].
    split.
    + intros y. unfold Mgr.unique. rewrite unique_from_In. simpl. tauto.
    + right. split; [reflexivity|]. reflexivity.
  - apply negb_false_iff, Nat.eqb_eq in E.
    apply unique_from_same_length in E. rewrite El.
    split; [rewrite <- E; apply unique_from_NoDup|]. split; [tauto | auto].
Qed.

Lemma deduplicate_entry_fixed (e : Dev.capability) :
  NoDup (Dev.devEntities e) -> Mgr.deduplicate_entry e = e.
Proof.
  intros Hnd. unfold Mgr.deduplicate_entry.
  destruct (Dev.devEntities e) as [| x l] eqn:El; [reflexivity|].
  unfold Mgr.unique. rewrite (unique_from_fixed (x :: l) [] Hnd) by (intros ? _ []).
  now rewrite Nat.eqb_refl.
Qed.

(** X28.  [deduplicateCapabilities] leaves no name twice in any entry,
    keeps the capabilities and the names listed under each, leaves entries
    without duplicates untouched and gives the others the count of their
    names and the state [True]; a second run changes nothing, and a store
    whose duplicate-free entries count their names satisfies the registry
    invariant afterwards. *)
Theorem deduplicateCapabilities_cleans caps :
  let caps' := Mgr.deduplicateCapabilities caps in
  (forall cap, is_Some (caps' !! cap) <-> is_Some (caps !! cap)) /\
  (forall cap entry', caps' !! cap = Some entry' ->
     exists entry, caps !! cap = Some entry /\
       NoDup (Dev.devEntities entry') /\
       (forall x, In x (Dev.devEntities entry') <-> In x (Dev.devEntities entry)) /\
       (entry' = entry \/
        (~ NoDup (Dev.devEntities entry) /\
         Dev.count entry' = Z.of_nat (List.length (Dev.devEntities entry')) /\
         Dev.state entry' = true))) /\
  Mgr.deduplicateCapabilities caps' = caps' /\
  ((forall cap entry, caps !! cap = Some entry -> NoDup (Dev.devEntities entry) ->
      Dev.count entry = Z.of_nat (List.length (Dev.devEntities entry))) ->
   Dev.registry_invariant caps').
Proof.
  intros caps'. subst caps'. unfold Mgr.deduplicateCapabilities.
  assert (Hlook : forall cap entry', (Mgr.deduplicate_entry <$> caps) !! cap = Some entry' ->
            exists entry, caps !! cap = Some entry /\ entry' = Mgr.deduplicate_entry entry).
  { intros cap entry'. rewrite lookup_fmap. destruct (caps !! cap) as [entry|]; simpl;
      [|discriminate]. intros [= <-]. eauto. }
  split; [|split; [|split]].
  - intros cap. rewrite lookup_fmap. destruct (caps !! cap); simpl; split;
      intros [x H]; try discriminate; eauto.
  - intros cap entry' H. destruct (Hlook cap entry' H) as (entry & He & ->).
    exists entry. destruct (deduplicate_entry_spec entry) as (Hnd & Hin & Hcase).
    repeat split; try assumption; try apply Hin.
    destruct Hcase as [Hsame | [Hc Hs]]; [now left|].
    destruct (decide (NoDup (Dev.devEntities entry))) as [Hnd' | Hdup].
    + left. now apply deduplicate_entry_fixed.
    + right. repeat split; assumption.
  - apply map_eq. intros cap. rewrite !lookup_fmap.
    destruct (caps !! cap) as [entry|]; simpl; [|reflexivity].
    f_equal. apply deduplicate_entry_fixed. apply deduplicate_entry_spec.
  - intros Hcount cap entry' H. destruct (Hlook cap entry' H) as (entry & He & ->).
    destruct (deduplicate_entry_spec entry) as (Hnd & Hin & Hcase).
    split; [|exact Hnd].
    destruct Hcase as [Hsame | [Hc Hs]]; [|exact Hc].
    rewrite Hsame in *. now apply (Hcount cap).
Qed.

Lemma remove_first_app_last (x : string) (l : list string) :
  ~ In x l -> Mgr.remove_first x (l ++ [x]) = l.
Proof.
  induction l as [| a l IH]; simpl; intros H.
  - now rewrite String.eqb_refl.
  - destruct (String.eqb a x) eqn:E.
    + apply String.eqb_eq in E. subst. tauto.
    + f_equal. apply IH. tauto.
Qed.

Lemma remove_first_In_other (x y : string) (l : list string) :
  y <> x -> (In y (Mgr.remove_first x l) <-> In y l).
Proof.
  intros Hne. induction l as [| a l IH]; simpl; [tauto|].
  destruct (String.eqb a x) eqn:E.
  - apply String.eqb_eq in E. subst a. split; [tauto|]. intros [H | H]; [congruence | exact H].
  - simpl. rewrite IH. tauto.
Qed.

Lemma remove_first_sub (x y : string) (l : list string) :
  In y (Mgr.remove_first x l) -> In y l.
Proof.
  induction l as [| a l IH]; simpl; [tauto|].
  destruct (String.eqb a x); simpl; tauto.
Qed.

Lemma remove_first_NoDup (x : string) (l : list string) :
  NoDup l -> NoDup (Mgr.remove_first x l) /\ ~ In x (Mgr.remove_first x l).
Proof.
  induction l as [| a l IH]; simpl; intros Hnd; [split; [constructor | tauto]|].
  apply NoDup_cons in Hnd. destruct Hnd as [Ha Hnd]. rewrite list_elem_of_In in Ha.
  destruct (String.eqb a x) eqn:E.
  - apply String.eqb_eq in E. subst a. split; assumption.
  - apply String.eqb_neq in E. destruct (IH Hnd) as [IH1 IH2]. split.
    + constructor; [|exact IH1]. rewrite list_elem_of_In.
      intros H. apply Ha. eapply remove_first_sub; eauto.
    + simpl. intros [H | H]; [congruence | tauto].
Qed.

Lemma remove_first_length (x : string) (l : list string) :
  In x l -> S (List.length (Mgr.remove_first x l)) = List.length l.
Proof.
  induction l as [| a l IH]; simpl; [tauto|]. intros Hin.
  destruct (String.eqb a x) eqn:E; [reflexivity|].
  apply String.eqb_neq in E. simpl. f_equal. apply IH.
  destruct Hin as [H | H]; [congruence | exact H].
Qed.

Lemma register_capability_insert d caps k v cap tys :
  k <> cap ->
  Dev.register_capability d (<[k := v]> caps) (cap, tys)
  = (fun c => <[k := v]> c) <$> Dev.register_capability d caps (cap, tys).
Proof.
  intros Hk. unfold Dev.register_capability, Dev.getDeep_capability, Dev.setDeep_capability.
  destruct (Py.mem (Py.lower _) _); [|reflexivity].
  rewrite lookup_insert_ne by exact Hk.
  destruct (caps !! cap) as [e|]; [|reflexivity].
  destruct (Py.mem (Dev.deviceName d) (Dev.devEntities e)); simpl; [reflexivity|].
  f_equal. apply insert_insert_ne. congruence.
Qed.

Lemma register_loop_insert d k v items : forall caps,
  ~ In k (map fst items) ->
  Dev.register_loop d (<[k := v]> caps) items
  = (fun c => <[k := v]> c) <$> Dev.register_loop d caps items.
Proof.
  induction items as [| [cap tys] rest IH]; intros caps Hk; [reflexivity|].
  cbn [Dev.register_loop]. simpl in Hk.
  rewrite register_capability_insert by (intros E; apply Hk; left; congruence).
  destruct (Dev.register_capability d caps (cap, tys)) as [c1|]; [|reflexivity].
  cbn [fmap option_fmap option_map]. apply IH. tauto.
Qed.

Lemma register_loop_other_key d items : forall caps caps1 k,
  Dev.register_loop d caps items = Some caps1 ->
  ~ In k (map fst items) -> caps1 !! k = caps !! k.
Proof.
  induction items as [| [cap tys] rest IH]; intros caps caps1 k; cbn [Dev.register_loop].
  - now intros [= <-].
  - simpl map.
    destruct (Dev.register_capability d caps (cap, tys)) as [c1|] eqn:E; [|discriminate].
    intros Hloop Hk. simpl in Hk. rewrite (IH c1 caps1 k Hloop) by tauto.
    unfold Dev.register_capability, Dev.getDeep_capability, Dev.setDeep_capability in E.
    destruct (Py.mem (Py.lower _) _); [|now inversion E].
    destruct (caps !! cap) as [e|]; [|discriminate].
    destruct (Py.mem (Dev.deviceName d) (Dev.devEntities e)); inversion E; [reflexivity|].
    apply lookup_insert_ne. intros E'. apply Hk. left. simpl. congruence.
Qed.

(** Registration undone entry by entry. *)
Lemma register_then_remove d items :
  NoDup (map fst items) -> forall caps caps1,
  Dev.register_loop d caps items = Some caps1 ->
  (forall item, In item items -> ~ Dev.registered d caps (fst item)) ->
  (forall item e, In item items -> caps !! fst item = Some e ->
     Dev.state e = (0 <? Dev.count e)%Z /\ (0 <= Dev.count e)%Z) ->
  fold_left (Mgr.unregister_capability d) items caps1 = caps.
Proof.
  induction items as [| [cap tys] rest IH]; intros Hnd caps caps1 Hreg Hnot Hgood.
  - simpl in *. now inversion Hreg.
  - simpl in Hnd. apply NoDup_cons in Hnd. destruct Hnd as [Hcap Hnd].
    rewrite list_elem_of_In in Hcap.
    cbn [Dev.register_loop] in Hreg.
    destruct (Dev.register_capability d caps (cap, tys)) as [c1|] eqn:E1; [|discriminate].
    cbn [fold_left].
    assert (Hnot' : forall item, In item rest -> ~ Dev.registered d caps (fst item))
      by (intros item Hi; apply Hnot; now right).
    assert (Hgood' : forall item e, In item rest -> caps !! fst item = Some e ->
              Dev.state e = (0 <? Dev.count e)%Z /\ (0 <= Dev.count e)%Z)
      by (intros item e Hi; apply Hgood; now right).
    unfold Dev.register_capability, Dev.getDeep_capability, Dev.setDeep_capability in E1.
    unfold Mgr.unregister_capability, Dev.getDeep_capability, Dev.setDeep_capability.
    destruct (Py.mem (Py.lower _) _) eqn:Em.
    2: { inversion E1; subst c1. now apply IH. }
    destruct (caps !! cap) as [e|] eqn:Ee; [|discriminate].
    destruct (Py.mem (Dev.deviceName d) (Dev.devEntities e)) eqn:En.
    { exfalso. apply (Hnot (cap, tys)); [now left|].
      exists e. split; [exact Ee | now apply mem_In]. }
    inversion E1; subst c1. clear E1.
    set (e' := Dev.Capability true (Dev.count e + 1)
                 (Dev.devEntities e ++ [Dev.deviceName d])) in *.
    assert (Hc1 : caps1 !! cap = Some e').
    { rewrite (register_loop_other_key d rest _ caps1 cap Hreg Hcap).
      apply lookup_insert_eq. }
    rewrite Hc1.
    assert (Hmem : Py.mem (Dev.deviceName d) (Dev.devEntities e') = true).
    { apply mem_In. simpl. apply in_or_app. right. now left. }
    rewrite Hmem.
    assert (Hback : Mgr.unregister_entry (Dev.deviceName d) e' = e).
    { destruct (Hgood (cap, tys) e (or_introl eq_refl) Ee) as [Hs Hc].
      unfold Mgr.unregister_entry. subst e'. cbn [Dev.count Dev.devEntities].
      rewrite remove_first_app_last
        by (intros H; apply mem_In in H; congruence).
      replace (Z.max 0 (Dev.count e + 1 - 1)) with (Dev.count e) by lia.
      rewrite <- Hs. destruct e; reflexivity. }
    rewrite Hback.
    apply IH; [exact Hnd | | exact Hnot' | exact Hgood'].
    pose proof (register_loop_insert d cap e rest (<[cap := e']> caps) Hcap) as H.
    rewrite Hreg in H. simpl in H.
    rewrite insert_insert_eq, (insert_id caps cap e Ee) in H. exact H.
Qed.

Lemma remove_unregistered d items : forall caps,
  (forall cap, ~ Dev.registered d caps cap) ->
  fold_left (Mgr.unregister_capability d) items caps = caps.
Proof.
  induction items as [| [cap tys] rest IH]; intros caps Hnot; [reflexivity|].
  cbn [fold_left].
  assert (E : Mgr.unregister_capability d caps (cap, tys) = caps).
  { unfold Mgr.unregister_capability, Dev.getDeep_capability.
    destruct (Py.mem (Py.lower _) _); [|reflexivity].
    destruct (caps !! cap) as [e|] eqn:Ee; [|reflexivity].
    destruct (Py.mem (Dev.deviceName d) (Dev.devEntities e)) eqn:En; [|reflexivity].
    exfalso. apply (Hnot cap). exists e. split; [exact Ee | now apply mem_In]. }
  rewrite E. now apply IH.
Qed.

Lemma capMapping_keys_NoDup : NoDup (map fst Dev.capMapping).
Proof.
  unfold Dev.capMapping. simpl.
  repeat (constructor;
          [rewrite list_elem_of_In; simpl; intros H;
           repeat (destruct H as [H | H]; [discriminate H|]); exact H|]).
  constructor.
Qed.

(** X29.  Removing a device undoes its registration: on a non-empty store
    that satisfies the registry invariant, whose flags say whether the
    counts are positive and in which the device is not listed yet,
    [identifyCapabilities] followed by the capability update of
    [removeDevice] gives back the store as it was. *)
Theorem register_then_remove_restores d caps caps1 :
  caps <> ∅ ->
  Dev.registry_invariant caps -> Mgr.state_consistent caps ->
  (forall cap, ~ Dev.registered d caps cap) ->
  Dev.identifyCapabilities d caps = Some caps1 ->
  Mgr.remove_capabilities d caps1 = caps.
Proof.
  intros Hne Hinv Hstate Hnot. unfold Dev.identifyCapabilities, Mgr.remove_capabilities.
  destruct (String.eqb (Dev.deviceName d) "ogb").
  { intros [= <-]. now apply remove_unregistered. }
  unfold Dev.capabilities_falsy. rewrite bool_decide_eq_false_2 by exact Hne.
  intros Hreg.
  apply (register_then_remove d Dev.capMapping capMapping_keys_NoDup caps caps1 Hreg).
  - intros item _. apply Hnot.
  - intros item e _ He. split; [now apply (Hstate (fst item))|].
    destruct (Hinv _ _ He) as [Hc _]. lia.
Qed.

(** What one iteration of the removal loop keeps and achieves. *)
Lemma unregister_capability_step d caps cap tys :
  Dev.registry_invariant caps ->
  let caps' := Mgr.unregister_capability d caps (cap, tys) in
  Dev.registry_invariant caps' /\
  (forall k, Dev.registered d caps' k -> Dev.registered d caps k) /\
  (Py.mem (Py.lower (Dev.deviceType d)) (map Py.lower tys) = true ->
   ~ Dev.registered d caps' cap) /\
  (forall k e', caps' !! k = Some e' ->
     exists e, caps !! k = Some e /\
       forall x, x <> Dev.deviceName d ->
                 (In x (Dev.devEntities e') <-> In x (Dev.devEntities e))).
Proof.
  intros Hinv caps'. subst caps'.
  unfold Mgr.unregister_capability, Dev.getDeep_capability, Dev.setDeep_capability.
  assert (Hsame : Dev.registry_invariant caps /\
                  (forall k, Dev.registered d caps k -> Dev.registered d caps k) /\
                  (forall k e', caps !! k = Some e' ->
                     exists e, caps !! k = Some e /\
                       forall x, x <> Dev.deviceName d ->
                         (In x (Dev.devEntities e') <-> In x (Dev.devEntities e)))).
  { split; [exact Hinv|]. split; [auto|]. intros k e' H. exists e'. split; [exact H | tauto]. }
  destruct Hsame as (S1 & S2 & S3).
  destruct (Py.mem (Py.lower _) _) eqn:Em.
  2: { split; [exact S1 | split; [exact S2 | split; [discriminate | exact S3]]]. }
  destruct (caps !! cap) as [e|] eqn:Ee.
  2: { split; [exact S1 | split; [exact S2 | split; [|exact S3]]].
       intros _ (e & He & _). congruence. }
  destruct (Py.mem (Dev.deviceName d) (Dev.devEntities e)) eqn:En.
  2: { split; [exact S1 | split; [exact S2 | split; [|exact S3]]].
       intros _ (e0 & He & Hin).
       assert (e0 = e) by congruence. subst e0.
       apply mem_In in Hin. congruence. }
  apply mem_In in En. destruct (Hinv cap e Ee) as [Hc Hnd].
  destruct (remove_first_NoDup (Dev.deviceName d) _ Hnd) as [Hnd' Hgone].
  pose proof (remove_first_length _ _ En) as Hlen.
  split; [|split; [|split]].
  - intros k entry. rewrite lookup_insert. case_decide as Hk; [|apply Hinv].
    intros [= <-]. unfold Mgr.unregister_entry. cbn [Dev.count Dev.devEntities].
    split; [lia | exact Hnd'].
  - intros k (e0 & He0 & Hin). revert He0. rewrite lookup_insert. case_decide as Hk.
    + intros [= <-]. subst k. exists e. split; [exact Ee | exact En].
    + intros He0. exists e0. auto.
  - intros _ (e0 & He0 & Hin). rewrite lookup_insert_eq in He0.
    inversion He0; subst e0. exact (Hgone Hin).
  - intros k e'. rewrite lookup_insert. case_decide as Hk.
    + intros [= <-]. subst k. exists e. split; [exact Ee|].
      intros x Hx. cbn [Mgr.unregister_entry Dev.devEntities].
      now apply remove_first_In_other.
    + intros H. exists e'. split; [exact H | tauto].
Qed.

Lemma remove_loop_spec d items : forall caps,
  Dev.registry_invariant caps ->
  let caps' := fold_left (Mgr.unregister_capability d) items caps in
  Dev.registry_invariant caps' /\
  (forall k, Dev.registered d caps' k -> Dev.registered d caps k) /\
  (forall cap tys, In (cap, tys) items ->
     Py.mem (Py.lower (Dev.deviceType d)) (map Py.lower tys) = true ->
     ~ Dev.registered d caps' cap) /\
  (forall k e', caps' !! k = Some e' ->
     exists e, caps !! k = Some e /\
       forall x, x <> Dev.deviceName d ->
                 (In x (Dev.devEntities e') <-> In x (Dev.devEntities e))).
Proof.
  induction items as [| [cap tys] rest IH]; intros caps Hinv; cbv zeta.
  - simpl. split; [exact Hinv|]. split; [auto|]. split; [intros ? ? []|].
    intros k e' H. exists e'. split; [exact H | tauto].
  - cbn [fold_left].
    destruct (unregister_capability_step d caps cap tys Hinv) as (U1 & U2 & U3 & U4).
    destruct (IH _ U1) as (I1 & I2 & I3 & I4).
    split; [exact I1|]. split; [auto|]. split.
    + intros c t [[= <- <-] | Hin] Hm.
      * intros H. exact (U3 Hm (I2 _ H)).
      * now apply (I3 c t).
    + intros k e' H. destruct (I4 k e' H) as (e1 & He1 & Hx1).
      destruct (U4 k e1 He1) as (e & He & Hx). exists e. split; [exact He|].
      intros x Hne. rewrite (Hx1 x Hne). now apply Hx.
Qed.

(** X30.  The capability update of [removeDevice], on a store that
    satisfies the registry invariant: the invariant still holds, the
    device is no longer listed under any capability of its type, it is
    listed nowhere it was not listed before, and every other device is
    listed exactly where it was. *)
Theorem remove_capabilities_unregisters d caps :
  Dev.registry_invariant caps ->
  let caps' := Mgr.remove_capabilities d caps in
  Dev.registry_invariant caps' /\
  (forall cap tys, In (cap, tys) Dev.capMapping ->
     Py.mem (Py.lower (Dev.deviceType d)) (map Py.lower tys) = true ->
     ~ Dev.registered d caps' cap) /\
  (forall cap, Dev.registered d caps' cap -> Dev.registered d caps cap) /\
  (forall cap entry', caps' !! cap = Some entry' ->
     exists entry, caps !! cap = Some entry /\
       forall x, x <> Dev.deviceName d ->
                 (In x (Dev.devEntities entry') <-> In x (Dev.devEntities entry))).
Proof.
  intros Hinv caps'. subst caps'. unfold Mgr.remove_capabilities.
  destruct (remove_loop_spec d Dev.capMapping caps Hinv) as (H1 & H2 & H3 & H4).
  auto.
Qed.

End RegistryMaintenance.

Lemma fresh_capabilities_state_consistent : Mgr.state_consistent Dev.fresh_capabilities.
Proof.
  intros cap entry H. apply fresh_capabilities_lookup in H. now subst entry.
Qed.

Lemma fresh_capabilities_unregistered (d : Dev.Device) (cap : string) :
  ~ Dev.registered d Dev.fresh_capabilities cap.
Proof.
  intros (entry & H & Hin). apply fresh_capabilities_lookup in H. now subst entry.
Qed.

(** One exhaust fan registered on the default store and removed again. *)
Lemma register_then_remove_restores_witness :
  exists caps1,
    Dev.identifyCapabilities (Dev.new_device "fan1" "Exhaust") Dev.fresh_capabilities
    = Some caps1 /\
    Mgr.remove_capabilities (Dev.new_device "fan1" "Exhaust") caps1 = Dev.fresh_capabilities.
Proof.
  destruct (identifyCapabilities_total (Dev.new_device "fan1" "Exhaust")
              Dev.fresh_capabilities (or_intror fresh_capabilities_complete))
    as (caps1 & E & _).
  exists caps1. split; [exact E|].
  exact (register_then_remove_restores (Dev.new_device "fan1" "Exhaust")
           Dev.fresh_capabilities caps1 fresh_capabilities_nonempty
           fresh_capabilities_invariant fresh_capabilities_state_consistent
           (fresh_capabilities_unregistered _) E).
Defined.

Lemma remove_capabilities_unregisters_witness :
  ~ Dev.registered (Dev.new_device "heater1" "Heater")
      (Mgr.remove_capabilities (Dev.new_device "heater1" "Heater") Mgr.one_heater)
      "canHeat".
Proof.
  assert (Hinv : Dev.registry_invariant Mgr.one_heater).
  { intros cap entry. unfold Mgr.one_heater. rewrite lookup_insert.
    case_decide as Hk; [|apply fresh_capabilities_invariant].
    intros [= <-]. split; [reflexivity|]. apply NoDup_singleton. }
  exact (proj1 (proj2 (remove_capabilities_unregisters
                         (Dev.new_device "heater1" "Heater") Mgr.one_heater Hinv))
           "canHeat" ["heater"] (or_introl eq_refl) eq_refl).
Defined.

(** A heater listed twice is listed once afterwards, with a count of one. *)
Lemma deduplicateCapabilities_cleans_witness :
  Dev.registry_invariant (Mgr.deduplicateCapabilities Mgr.doubled_heater).
Proof.
  apply (proj2 (proj2 (proj2 (deduplicateCapabilities_cleans Mgr.doubled_heater)))).
  intros cap entry. unfold Mgr.doubled_heater. rewrite lookup_insert.
  case_decide as Hk.
  - intros [= <-] Hnd. exfalso. apply NoDup_cons in Hnd. destruct Hnd as [Hin _].
    apply Hin. now left.
  - intros H _. apply fresh_capabilities_lookup in H. now subst entry.
Defined.
